(** * Selfbook: a shallow embedding of the profile application

    The development follows the source units of the repository:
    the backend client accessor ([lib/supabase]), the profile route
    handlers ([api/profile]), the signup page, the public profile card and
    the dashboard page (the version that keeps section drafts).  Remote
    services (auth, data store, object storage, the API route seen from the
    browser) are answered by an explicit [backend] record, and every handler
    returns the ordered trace of the calls it issued together with its
    result. *)

From Stdlib Require Import Ascii String NArith ZArith Lia Bool.
From stdpp Require Import base option list strings gmap.

Open Scope string_scope.
Open Scope list_scope.

(** ** JavaScript strings and values *)

Module Js.

(** A string is a sequence of code units; the model covers the code units
    below 256 (Basic Latin and Latin-1 Supplement), one [ascii] each, so
    that [String.length] is the [.length] of the source. *)

Definition code (c : ascii) : N := N_of_ascii c.

Definition between (lo hi : N) (c : ascii) : bool :=
  ((lo <=? code c) && (code c <=? hi))%N.

(** [String.prototype.toLowerCase] on one code unit: A-Z, and the
    upper-case letters of Latin-1 (U+00C0..U+00DE without U+00D7). *)
Definition has_lowercase (c : ascii) : bool :=
  between 65 90 c || (between 192 222 c && negb (code c =? 215)%N).

Definition lower_unit (c : ascii) : ascii :=
  if has_lowercase c then ascii_of_N (code c + 32) else c.

Fixpoint toLowerCase (s : string) : string :=
  match s with
  | EmptyString => EmptyString
  | String c r => String (lower_unit c) (toLowerCase r)
  end.

(** The character class [[a-zA-Z0-9_]]. *)
Definition word_unit (c : ascii) : bool :=
  between 97 122 c || between 65 90 c || between 48 57 c || (code c =? 95)%N.

Fixpoint every (p : ascii -> bool) (s : string) : bool :=
  match s with
  | EmptyString => true
  | String c r => p c && every p r
  end.

(** [/^[a-zA-Z0-9_]+$/.test(s)]: no flag is set, so [^] and [$] are the
    two ends of the input and [+] asks for one unit at least. *)
Definition test_word_plus (s : string) : bool :=
  match s with
  | EmptyString => false
  | String _ _ => every word_unit s
  end.

(** White space and line terminators removed by [trim]: TAB, LF, VT, FF,
    CR, SP and NBSP are the ones below 256. *)
Definition is_space (c : ascii) : bool :=
  between 9 13 c || (code c =? 32)%N || (code c =? 160)%N.

Fixpoint trimStart (s : string) : string :=
  match s with
  | EmptyString => EmptyString
  | String c r => if is_space c then trimStart r else s
  end.

Fixpoint trimEnd (s : string) : string :=
  match s with
  | EmptyString => EmptyString
  | String c r =>
      match trimEnd r with
      | EmptyString => if is_space c then EmptyString else String c EmptyString
      | r' => String c r'
      end
  end.

Definition trim (s : string) : string := trimEnd (trimStart s).

(** [s.split(sep)] for a one-unit separator: never empty, [""] gives
    [[""]]. *)
Fixpoint split (sep : ascii) (s : string) : list string :=
  match s with
  | EmptyString => [EmptyString]
  | String c r =>
      if Ascii.eqb c sep then EmptyString :: split sep r
      else match split sep r with
           | w :: ws => String c w :: ws
           | [] => [String c EmptyString]
           end
  end.

(** [items.join(sep)]. *)
Fixpoint join (sep : string) (items : list string) : string :=
  match items with
  | [] => EmptyString
  | [s] => s
  | s :: rest => s +:+ sep +:+ join sep rest
  end.

(** [s.slice(0, n)]. *)
Fixpoint slice0 (n : nat) (s : string) : string :=
  match n, s with
  | S k, String c r => String c (slice0 k r)
  | _, _ => EmptyString
  end.

(** The values a parsed JSON body can hold; [JUndefined] is what
    destructuring yields for a field that is not there. *)
#[warnings="-register-all"]
Inductive value : Type :=
| JUndefined
| JNull
| JBool (b : bool)
| JNum (n : Z)
| JStr (s : string)
| JArr (elems : list value)
| JObj (fields : list (string * value)).

(** ToBoolean. *)
Definition truthy (v : value) : bool :=
  match v with
  | JUndefined | JNull => false
  | JBool b => b
  | JNum n => negb (n =? 0)%Z
  | JStr s => negb (String.eqb s EmptyString)
  | JArr _ | JObj _ => true
  end.

(** [a || b] on values. *)
Definition or_else (a b : value) : value := if truthy a then a else b.

(** An error value as [catch] sees it: [error instanceof Error],
    [error.message] and [String(error)]. *)
Record error : Type := Error {
  instanceofError : bool;
  message : string;
  asString : string
}.

End Js.

Definition LF : ascii := ascii_of_N 10.
Definition newline : string := String LF EmptyString.

(** ** Dashboard, [text_list] editor (pure part)

    [value={(items || []).join('\n')}] and
    [e.target.value.split('\n').filter((line) => line.trim().length > 0)]. *)

Module TextListEditor.

Definition textarea_value (items : list string) : string :=
  Js.join newline items.

Definition keep_line (line : string) : bool :=
  (0 <? String.length (Js.trim line))%nat.

Definition onChange (text : string) : list string :=
  List.filter keep_line (Js.split LF text).

Definition roundtrip (items : list string) : list string :=
  onChange (textarea_value items).

(** An entry is blank when it is empty or made of white space only. *)
Definition blank (s : string) : bool := Js.every Js.is_space s.

Definition has_newline (s : string) : bool :=
  negb (Js.every (fun c => negb (Ascii.eqb c LF)) s).

End TextListEditor.

(** ** Handlers as traced computations

    A handler is an [async] function: it runs to completion against the
    answers of the remote services, so it is a function from its state to
    the ordered log of what it emitted, the final state, and how it ended.
    [Return] is the [return] statement of the enclosing function and
    [Throw] an exception on its way out. *)

Module Run.

Inductive step (R A : Type) : Type :=
| Next (a : A)
| Return (r : R)
| Throw (e : Js.error).
Arguments Next {R A} a.
Arguments Return {R A} r.
Arguments Throw {R A} e.

Definition M (S E R A : Type) : Type := S -> list E * S * step R A.

Section Ops.
Context {S E R : Type}.

Definition ret {A} (a : A) : M S E R A := fun s => ([], s, Next a).

Definition bind {A B} (m : M S E R A) (k : A -> M S E R B) : M S E R B :=
  fun s =>
    match m s with
    | (t1, s1, Next a) =>
        match k a s1 with
        | (t2, s2, r) => (t1 ++ t2, s2, r)
        end
    | (t1, s1, Return r) => (t1, s1, Return r)
    | (t1, s1, Throw e) => (t1, s1, Throw e)
    end.

Definition emit (e : E) : M S E R unit := fun s => ([e], s, Next tt).
Definition get : M S E R S := fun s => ([], s, Next s).
Definition modify (f : S -> S) : M S E R unit := fun s => ([], f s, Next tt).
Definition return_ {A} (r : R) : M S E R A := fun s => ([], s, Return r).
Definition throw {A} (e : Js.error) : M S E R A := fun s => ([], s, Throw e).

(** [try { body } catch (e) { handler e }]: a [return] inside the
    block still leaves the function. *)
Definition try_catch {A} (body : M S E R A) (handler : Js.error -> M S E R A)
  : M S E R A :=
  fun s =>
    match body s with
    | (t1, s1, Throw e) =>
        match handler e s1 with
        | (t2, s2, r) => (t1 ++ t2, s2, r)
        end
    | other => other
    end.

(** [try { body } finally { cleanup }]: the cleanup runs on every way
    out of the block, and the block's own ending is kept. *)
Definition try_finally {A} (body : M S E R A) (cleanup : M S E R unit)
  : M S E R A :=
  fun s =>
    match body s with
    | (t1, s1, r) =>
        match cleanup s1 with
        | (t2, s2, Next _) => (t1 ++ t2, s2, r)
        | (t2, s2, Return r') => (t1 ++ t2, s2, Return r')
        | (t2, s2, Throw e) => (t1 ++ t2, s2, Throw e)
        end
    end.
End Ops.

(** [await f(...)] of another async function of the same component: its
    [return] ends the callee only. *)
Definition await {S E R R' : Type} (callee : M S E R' R') : M S E R R' :=
  fun s =>
    match callee s with
    | (t, s', Next r) | (t, s', Return r) => (t, s', Next r)
    | (t, s', Throw e) => (t, s', Throw e)
    end.

Module Notations.
Notation "x <- m ;; k" := (bind m (fun x => k))
  (at level 100, m at next level, right associativity).
Notation "m ;;; k" := (bind m (fun _ => k))
  (at level 100, right associativity).
End Notations.

End Run.

(** ** Shared records ([lib/types])

    Modelled from the spec: the declarations of [Profile] and [Section]
    are not among the sources; the fields are those of the data model and
    of the uses in the pages. *)

Module Types.

Record Profile : Type := {
id : string;
user_id : string;
username : string;
display_name : option string;
bio : option string;
avatar_url : option string;
banner_url : option string;
theme : option string
}.

Record link : Type := { link_title : string; link_url : string }.
Record image : Type := { image_url : string; image_caption : option string }.

(** The JSON payload of a section; each key may be missing. *)
Record Content : Type := {
items : option (list string);
links : option (list link);
images : option (list image)
}.

Record Section : Type := {
section_id : string;
profile_id : string;
title : string;
type : string;
content : option Content;
position : Z;
visible : option bool
}.

End Types.
Export Types.

(** An error object of the data client, [{ message, code }]. *)
Record PgError : Type := { pg_message : string; pg_code : string }.

(** ** Backend client accessor ([lib/supabase]) *)

Module Supabase.

(** A client handle; [handle] numbers the objects [createClient] has
    allocated, so that two handles are the same object exactly when they
    are equal. *)
Record client : Type := {
  handle : nat;
  supabaseUrl_of : string;
  supabaseKey_of : string
}.

(** [process.env]. *)
Record env : Type := {
  NEXT_PUBLIC_SUPABASE_URL : option string;
  NEXT_PUBLIC_SUPABASE_ANON_KEY : option string
}.

(** The module-level [let supabaseClient], and how many clients
    [createClient] has returned in this process. *)
Record module_state : Type := {
  supabaseClient : option client;
  constructed : nat
}.

Definition fresh : module_state :=
  {| supabaseClient := None; constructed := 0 |}.

Inductive outcome : Type :=
| Returned (c : client)
| Thrown (msg : string).

(** [!v] for an environment entry: unset or the empty string. *)
Definition missing (v : option string) : bool :=
  match v with
  | None => true
  | Some s => String.eqb s EmptyString
  end.

(** The client library is not part of the repository.  Its [createClient]
    throws on values it does not accept (a URL that is not a valid HTTP or
    HTTPS URL, for one): [rejects url key] is the message of that error,
    and [None] when a client is returned. *)
Definition library : Type := string -> string -> option string.

Definition createClient (rejects : library) (url key : string) (m : module_state)
  : string + client :=
  match rejects url key with
  | Some msg => inl msg
  | None => inr {| handle := constructed m; supabaseUrl_of := url;
                   supabaseKey_of := key |}
  end.

Definition getSupabaseClient (rejects : library) (e : env) (m : module_state)
  : outcome * module_state :=
  match supabaseClient m with
  | Some c => (Returned c, m)
  | None =>
      let supabaseUrl := NEXT_PUBLIC_SUPABASE_URL e in
      let supabaseKey := NEXT_PUBLIC_SUPABASE_ANON_KEY e in
      if missing supabaseUrl || missing supabaseKey
      then (Thrown "Missing Supabase environment variables", m)
      else
        match createClient rejects (default EmptyString supabaseUrl)
                (default EmptyString supabaseKey) m with
        | inl msg => (Thrown msg, m)
        | inr c =>
            (Returned c,
             {| supabaseClient := Some c; constructed := S (constructed m) |})
        end
  end.

(** A process: one call after the other, each seeing the environment of
    its moment. *)
Fixpoint calls (rejects : library) (es : list env) (m : module_state)
  : list outcome * module_state :=
  match es with
  | [] => ([], m)
  | e :: rest =>
      let (o, m1) := getSupabaseClient rejects e m in
      let (os, m2) := calls rejects rest m1 in
      (o :: os, m2)
  end.

(** What a call throws under environment [e] while no client exists: the
    configuration error, or the error of [createClient]. *)
Definition refusal (rejects : library) (e : env) : option string :=
  if missing (NEXT_PUBLIC_SUPABASE_URL e) || missing (NEXT_PUBLIC_SUPABASE_ANON_KEY e)
  then Some "Missing Supabase environment variables"
  else rejects (default EmptyString (NEXT_PUBLIC_SUPABASE_URL e))
         (default EmptyString (NEXT_PUBLIC_SUPABASE_ANON_KEY e)).

(** Either nothing has been constructed yet, or exactly one client has
    been and it is the one kept in the module variable. *)
Definition at_most_one_client (m : module_state) : Prop :=
  (supabaseClient m = None /\ constructed m = 0)
  \/ (exists c, supabaseClient m = Some c /\ constructed m = 1).

End Supabase.

(** The authenticated user as the auth service reports it. *)
Record AuthUser : Type := { uid : string; email : option string }.

(** A remote procedure call either resolves to [{ data, error }] or
    rejects. *)
Inductive rpc_answer : Type :=
| RpcResolved (data : Js.value) (error : option PgError)
| RpcRejected (e : Js.error).

(** The arguments of [create_profile_for_user]. *)
Record rpc_params : Type := {
  p_user_id : Js.value;
  p_username : string;
  p_display_name : Js.value
}.

(** ** Profile route handlers ([api/profile]), [POST] *)

Module ProfileRoute.
Import Run Run.Notations.

(** The destructured request body. *)
Record body : Type := {
  body_username : Js.value;
  body_display_name : Js.value;
  body_user_id : Js.value
}.

(** The object handed to [insert]. *)
Record insert_row : Type := {
  row_user_id : Js.value;
  row_username : string;
  row_display_name : Js.value
}.

(** What the handler asks of the backend, in order. *)
Inductive call : Type :=
| auth_getUser
| select_username_eq_username (name : string)
| select_id_eq_user_id (user : Js.value)
| rpc_create_profile_for_user (params : rpc_params)
| insert_select_single (row : insert_row).

(** The answers.  Only [data] is read from the two look-ups. *)
Record backend : Type := {
  getUser : option AuthUser;
  existing_by_username : string -> option Profile;
  existing_by_user_id : Js.value -> option Profile;
  rpc : rpc_params -> rpc_answer;
  insert : insert_row -> option Profile * option PgError
}.

Inductive payload : Type :=
| error_json (error : string)
| created_json (id username display_name : Js.value)
| profile_json (profile : option Profile).

(** [NextResponse.json(payload, { status })]. *)
Record response : Type := { json : payload; status : nat }.

Definition handler : Type := M unit call response response.

(** [v.toLowerCase()]: only a string has the method. *)
Definition call_toLowerCase {A} (v : Js.value) (k : string -> M unit call response A)
  : M unit call response A :=
  match v with
  | Js.JStr s => k (Js.toLowerCase s)
  | _ => throw (Js.Error true "username.toLowerCase is not a function"
                  "TypeError: username.toLowerCase is not a function")
  end.

Definition POST (be : backend) (request : body) : handler :=
  let username := body_username request in
  let display_name := body_display_name request in
  let user_id := body_user_id request in
  if negb (Js.truthy username)
  then return_ {| json := error_json "Username is required"; status := 400 |}
  else
    emit auth_getUser ;;;
    let user := getUser be in
    let currentUserId :=
      Js.or_else (from_option (fun u => Js.JStr (uid u)) Js.JUndefined user) user_id in
    if negb (Js.truthy currentUserId)
    then return_ {| json := error_json "Unauthorized"; status := 401 |}
    else
      call_toLowerCase username (fun lowered =>
      emit (select_username_eq_username lowered) ;;;
      let existingProfile := existing_by_username be lowered in
      if bool_decide (is_Some existingProfile)
      then return_ {| json := error_json "Username is already taken"; status := 400 |}
      else
        emit (select_id_eq_user_id currentUserId) ;;;
        let existingUserProfile := existing_by_user_id be currentUserId in
        if bool_decide (is_Some existingUserProfile)
        then return_ {| json := error_json "Profile already exists"; status := 400 |}
        else
          try_catch
            (call_toLowerCase username (fun lowered =>
             let params := {| p_user_id := currentUserId;
                              p_username := lowered;
                              p_display_name := Js.or_else display_name username |} in
             emit (rpc_create_profile_for_user params) ;;;
             match rpc be params with
             | RpcRejected e => throw e
             | RpcResolved profileData rpcError =>
                 if negb (bool_decide (is_Some rpcError)) && Js.truthy profileData
                 then return_ {| json := created_json profileData username display_name;
                                 status := 201 |}
                 else ret tt
             end))
            (fun err => ret tt) ;;;
          call_toLowerCase username (fun lowered =>
          let row := {| row_user_id := currentUserId;
                        row_username := lowered;
                        row_display_name := Js.or_else display_name username |} in
          emit (insert_select_single row) ;;;
          match insert be row with
          | (_, Some error) =>
              return_ {| json := error_json (pg_message error); status := 500 |}
          | (profile, None) =>
              return_ {| json := profile_json profile; status := 201 |}
          end)).

(** Running the handler: the calls it made and how it ended. *)
Definition run (h : handler) : list call * step response response :=
  match h tt with
  | (trace, _, ending) => (trace, ending)
  end.

(** [.single()] answers with the row when exactly one row matches. *)
Definition single {A} (rows : list A) : option A :=
  match rows with
  | [row] => Some row
  | _ => None
  end.

(** A backend whose username look-up reads the profile table [store]:
    [.eq('username', name)] compares the stored text with [name]. *)
Definition reads_usernames_from (store : list Profile) (be : backend) : Prop :=
  forall name,
    existing_by_username be name
    = single (List.filter (fun p => String.eqb (username p) name) store).

(** Two usernames that differ by letter case only. *)
Definition same_up_to_case (a b : string) : Prop :=
  Js.toLowerCase a = Js.toLowerCase b.

(** The data model's invariant on the stored usernames: lower case and
    unique. *)
Definition well_formed (store : list Profile) : Prop :=
  Forall (fun p => Js.toLowerCase (username p) = username p) store
  /\ NoDup (map username store).

(** [user?.id || user_id]. *)
Definition resolved_identity (be : backend) (request : body) : Js.value :=
  Js.or_else (from_option (fun u => Js.JStr (uid u)) Js.JUndefined (getUser be))
    (body_user_id request).

Definition required_400 : response :=
  {| json := error_json "Username is required"; status := 400 |}.
Definition unauthorized_401 : response :=
  {| json := error_json "Unauthorized"; status := 401 |}.
Definition taken_400 : response :=
  {| json := error_json "Username is already taken"; status := 400 |}.
Definition exists_400 : response :=
  {| json := error_json "Profile already exists"; status := 400 |}.

(** The privileged call counts as failed when it rejects, reports an error
    or brings no data. *)
Definition rpc_failed (a : rpc_answer) : bool :=
  match a with
  | RpcRejected _ => true
  | RpcResolved data error => bool_decide (is_Some error) || negb (Js.truthy data)
  end.

(** [display_name || username]. *)
Definition defaulted_display_name (request : body) : Js.value :=
  Js.or_else (body_display_name request) (body_username request).

(** The username of a creation call, and nothing for the look-ups. *)
Definition written_username (c : call) : option string :=
  match c with
  | rpc_create_profile_for_user params => Some (p_username params)
  | insert_select_single row => Some (row_username row)
  | _ => None
  end.

End ProfileRoute.

(** ** Signup page, [handleSignup] *)

Module Signup.
Import Run Run.Notations.

Record state : Type := {
  st_email : string;
  st_password : string;
  st_username : string;
  st_error : string;
  st_loading : bool
}.

Definition setError (v : string) (s : state) : state :=
  {| st_email := st_email s; st_password := st_password s;
     st_username := st_username s; st_error := v; st_loading := st_loading s |}.

Definition setLoading (v : bool) (s : state) : state :=
  {| st_email := st_email s; st_password := st_password s;
     st_username := st_username s; st_error := st_error s; st_loading := v |}.

(** The JSON body posted to [/api/profile]. *)
Record post_body : Type := {
  post_username : string;
  post_display_name : string;
  post_user_id : string
}.

Inductive effect : Type :=
| select_username_eq_username (name : string)
| auth_signUp (email password emailRedirectTo : string)
| rpc_create_profile_for_user (params : rpc_params)
| fetch_api_profile (body : post_body)
| router_push (path : string)
| router_refresh.

(** [{ data: { user, session }, error }] of [auth.signUp]. *)
Record signUp_answer : Type := {
  authData_user : option AuthUser;
  authData_session : bool;
  authError : option string
}.

(** The body of the fetched response as [response.json()] gives it. *)
Inductive fetched_json : Type :=
| json_rejected (e : Js.error)
| json_null
| json_object (error : option string).

Inductive fetch_answer : Type :=
| fetch_rejected (e : Js.error)
| fetch_response (ok : bool) (body : fetched_json).

Record backend : Type := {
  origin : string;
  existing_by_username : string -> option Profile;
  signUp : string -> string -> string -> signUp_answer;
  rpc : rpc_params -> rpc_answer;
  fetch : post_body -> fetch_answer
}.

Definition handler : Type := M state effect unit unit.

(** [result.error || 'Unknown error']. *)
Definition error_or_unknown (error : option string) : string :=
  match error with
  | Some msg => if String.eqb msg EmptyString then "Unknown error" else msg
  | None => "Unknown error"
  end.

Definition handleSignup (be : backend) : handler :=
  closure <- get ;;
  let email := st_email closure in
  let password := st_password closure in
  let username := st_username closure in
  modify (setError EmptyString) ;;;
  modify (setLoading true) ;;;
  if (String.length username <? 3)%nat || (20 <? String.length username)%nat
  then modify (setError "Username must be 3-20 characters") ;;;
       modify (setLoading false) ;;;
       return_ tt
  else
  if negb (Js.test_word_plus username)
  then modify (setError "Username can only contain letters, numbers, and underscores") ;;;
       modify (setLoading false) ;;;
       return_ tt
  else
  emit (select_username_eq_username (Js.toLowerCase username)) ;;;
  if bool_decide (is_Some (existing_by_username be (Js.toLowerCase username)))
  then modify (setError "Username is already taken") ;;;
       modify (setLoading false) ;;;
       return_ tt
  else
  let redirect := origin be +:+ "/auth/callback" in
  emit (auth_signUp email password redirect) ;;;
  let answer := signUp be email password redirect in
  match authError answer with
  | Some msg =>
      modify (setError msg) ;;; modify (setLoading false) ;;; return_ tt
  | None =>
  match authData_user answer with
  | None =>
      modify (setError "Failed to create user account") ;;;
      modify (setLoading false) ;;;
      return_ tt
  | Some user =>
  let rpcParams := {| p_user_id := Js.JStr (uid user);
                      p_username := Js.toLowerCase username;
                      p_display_name := Js.JStr username |} in
  profileCreated <-
    try_catch
      (emit (rpc_create_profile_for_user rpcParams) ;;;
       match rpc be rpcParams with
       | RpcRejected e => throw e
       | RpcResolved profileData rpcError =>
           if bool_decide (is_Some rpcError) then ret false
           else if Js.truthy profileData then ret true
           else ret false
       end)
      (fun err => ret false) ;;
  (if negb profileCreated
   then
     try_catch
       (let body := {| post_username := Js.toLowerCase username;
                       post_display_name := username;
                       post_user_id := uid user |} in
        emit (fetch_api_profile body) ;;;
        match fetch be body with
        | fetch_rejected e => throw e
        | fetch_response _ (json_rejected e) => throw e
        | fetch_response true _ => ret tt
        | fetch_response false json_null =>
            throw (Js.Error true "Cannot read properties of null (reading 'error')"
                     "TypeError: Cannot read properties of null (reading 'error')")
        | fetch_response false (json_object error) =>
            modify (setError ("Profile creation failed: " +:+ error_or_unknown error)) ;;;
            modify (setLoading false) ;;;
            return_ tt
        end)
       (fun apiErr =>
          modify (setError "Failed to create profile. Please try again or contact support.") ;;;
          modify (setLoading false) ;;;
          return_ tt)
   else ret tt) ;;;
  if negb (authData_session answer)
  then modify (setError "Account created! Please check your email to confirm your account, then log in.") ;;;
       modify (setLoading false) ;;;
       return_ tt
  else
    emit (router_push "/dashboard") ;;;
    emit router_refresh
  end end.

(** A username of 3 to 20 units. *)
Definition length_ok (username : string) : Prop :=
  (3 <= String.length username <= 20)%nat.

End Signup.

(** ** Public profile card ([ProfileCard]) *)

Module ProfileCard.

Inductive element : Type :=
| TextListSection (section : Section)
| LinksSection (section : Section)
| GallerySection (section : Section).

Definition renderSection (section : Section) : option element :=
  if String.eqb (type section) "text_list" then Some (TextListSection section)
  else if String.eqb (type section) "links" then Some (LinksSection section)
  else if String.eqb (type section) "gallery" then Some (GallerySection section)
  else None.

(** [useState(sections[0]?.id || '')]. *)
Definition initial_activeSection (sections : list Section) : string :=
  match sections with
  | first :: _ => section_id first
  | [] => EmptyString
  end.

(** One button of the navigation bar. *)
Record button : Type := {
  key : string;
  label : string;
  highlighted : bool;
  onClick : string
}.

(** What the component returns, region by region. *)
Record view : Type := {
  banner_img : option string;
  avatar_img : option string;
  heading : option string;
  handle_line : string;
  bio_paragraph : option string;
  navigation : option (list button);
  section_content : option (option element);
  empty_notice : bool
}.

(** [v && ...] on a nullable string: [null] and [""] render nothing. *)
Definition nonempty (v : option string) : option string :=
  match v with
  | Some s => if String.eqb s EmptyString then None else Some s
  | None => None
  end.

Definition render (profile : Profile) (sections : list Section)
    (activeSection : string) : view :=
  let activeContent :=
    List.find (fun s => String.eqb (section_id s) activeSection) sections in
  {| banner_img := nonempty (banner_url profile);
     avatar_img := nonempty (avatar_url profile);
     heading := display_name profile;
     handle_line := "@" +:+ username profile;
     bio_paragraph := nonempty (bio profile);
     navigation :=
       if (0 <? length sections)%nat
       then Some (map (fun section =>
                         {| key := section_id section;
                            label := title section;
                            highlighted := String.eqb activeSection (section_id section);
                            onClick := section_id section |}) sections)
       else None;
     section_content :=
       if (0 <? length sections)%nat
       then renderSection <$> activeContent
       else None;
     empty_notice := (length sections =? 0)%nat |}.

(** Rewriting the [visible] flag of a section. *)
Definition with_visible (flag : Section -> option bool) (s : Section) : Section :=
  {| section_id := section_id s; profile_id := profile_id s; title := title s;
     type := type s; content := content s; position := position s;
     visible := flag s |}.


End ProfileCard.

(** ** Dashboard page ([DashboardPage]) *)

Module Dashboard.
Import Run Run.Notations.

(** One entry of [sectionEdits]. *)
Record draft : Type := {
  draft_title : string;
  draft_content : Content;
  draft_visible : bool
}.

(** The [useState] cells of the component. *)
Record state : Type := {
  profile : option Profile;
  sections : list Section;
  loading : bool;
  editingProfile : bool;
  displayName : string;
  bio_text : string;
  avatarUrl : string;
  bannerUrl : string;
  showAddMenu : bool;
  uploadingAvatar : bool;
  uploadingBanner : bool;
  sectionEdits : gmap string draft;
  savingSectionId : option string
}.

Definition setProfile (v : option Profile) (s : state) : state :=
  {| profile := v; sections := sections s; loading := loading s;
     editingProfile := editingProfile s; displayName := displayName s;
     bio_text := bio_text s; avatarUrl := avatarUrl s; bannerUrl := bannerUrl s;
     showAddMenu := showAddMenu s; uploadingAvatar := uploadingAvatar s;
     uploadingBanner := uploadingBanner s; sectionEdits := sectionEdits s;
     savingSectionId := savingSectionId s |}.

Definition setSections (v : list Section) (s : state) : state :=
  {| profile := profile s; sections := v; loading := loading s;
     editingProfile := editingProfile s; displayName := displayName s;
     bio_text := bio_text s; avatarUrl := avatarUrl s; bannerUrl := bannerUrl s;
     showAddMenu := showAddMenu s; uploadingAvatar := uploadingAvatar s;
     uploadingBanner := uploadingBanner s; sectionEdits := sectionEdits s;
     savingSectionId := savingSectionId s |}.

Definition setLoading (v : bool) (s : state) : state :=
  {| profile := profile s; sections := sections s; loading := v;
     editingProfile := editingProfile s; displayName := displayName s;
     bio_text := bio_text s; avatarUrl := avatarUrl s; bannerUrl := bannerUrl s;
     showAddMenu := showAddMenu s; uploadingAvatar := uploadingAvatar s;
     uploadingBanner := uploadingBanner s; sectionEdits := sectionEdits s;
     savingSectionId := savingSectionId s |}.

Definition setDisplayName (v : string) (s : state) : state :=
  {| profile := profile s; sections := sections s; loading := loading s;
     editingProfile := editingProfile s; displayName := v;
     bio_text := bio_text s; avatarUrl := avatarUrl s; bannerUrl := bannerUrl s;
     showAddMenu := showAddMenu s; uploadingAvatar := uploadingAvatar s;
     uploadingBanner := uploadingBanner s; sectionEdits := sectionEdits s;
     savingSectionId := savingSectionId s |}.

Definition setBio (v : string) (s : state) : state :=
  {| profile := profile s; sections := sections s; loading := loading s;
     editingProfile := editingProfile s; displayName := displayName s;
     bio_text := v; avatarUrl := avatarUrl s; bannerUrl := bannerUrl s;
     showAddMenu := showAddMenu s; uploadingAvatar := uploadingAvatar s;
     uploadingBanner := uploadingBanner s; sectionEdits := sectionEdits s;
     savingSectionId := savingSectionId s |}.

Definition setAvatarUrl (v : string) (s : state) : state :=
  {| profile := profile s; sections := sections s; loading := loading s;
     editingProfile := editingProfile s; displayName := displayName s;
     bio_text := bio_text s; avatarUrl := v; bannerUrl := bannerUrl s;
     showAddMenu := showAddMenu s; uploadingAvatar := uploadingAvatar s;
     uploadingBanner := uploadingBanner s; sectionEdits := sectionEdits s;
     savingSectionId := savingSectionId s |}.

Definition setBannerUrl (v : string) (s : state) : state :=
  {| profile := profile s; sections := sections s; loading := loading s;
     editingProfile := editingProfile s; displayName := displayName s;
     bio_text := bio_text s; avatarUrl := avatarUrl s; bannerUrl := v;
     showAddMenu := showAddMenu s; uploadingAvatar := uploadingAvatar s;
     uploadingBanner := uploadingBanner s; sectionEdits := sectionEdits s;
     savingSectionId := savingSectionId s |}.

Definition setUploadingAvatar (v : bool) (s : state) : state :=
  {| profile := profile s; sections := sections s; loading := loading s;
     editingProfile := editingProfile s; displayName := displayName s;
     bio_text := bio_text s; avatarUrl := avatarUrl s; bannerUrl := bannerUrl s;
     showAddMenu := showAddMenu s; uploadingAvatar := v;
     uploadingBanner := uploadingBanner s; sectionEdits := sectionEdits s;
     savingSectionId := savingSectionId s |}.

Definition setSectionEdits (v : gmap string draft) (s : state) : state :=
  {| profile := profile s; sections := sections s; loading := loading s;
     editingProfile := editingProfile s; displayName := displayName s;
     bio_text := bio_text s; avatarUrl := avatarUrl s; bannerUrl := bannerUrl s;
     showAddMenu := showAddMenu s; uploadingAvatar := uploadingAvatar s;
     uploadingBanner := uploadingBanner s; sectionEdits := v;
     savingSectionId := savingSectionId s |}.

Definition setSavingSectionId (v : option string) (s : state) : state :=
  {| profile := profile s; sections := sections s; loading := loading s;
     editingProfile := editingProfile s; displayName := displayName s;
     bio_text := bio_text s; avatarUrl := avatarUrl s; bannerUrl := bannerUrl s;
     showAddMenu := showAddMenu s; uploadingAvatar := uploadingAvatar s;
     uploadingBanner := uploadingBanner s; sectionEdits := sectionEdits s;
     savingSectionId := v |}.

(** The object passed to [from('sections').update]. *)
Record section_patch : Type := {
  patch_title : string;
  patch_content : Content;
  patch_visible : bool;
  patch_updated_at : string
}.

(** The object passed to [from('profiles').update] by the upload. *)
Record avatar_patch : Type := {
  patch_avatar_url : string;
  avatar_updated_at : string
}.

Record File : Type := { name : string; size : N; mime : string }.

Inductive effect : Type :=
| auth_getUser
| profiles_select_eq_user_id (user : string)
| fetch_api_profile (username display_name : string)
| sections_select_eq_profile_id (profile : string)
| sections_update_eq_id (patch : section_patch) (id : string)
| storage_upload (bucket path : string) (file : File) (upsert : bool)
| profiles_update_eq_id (patch : avatar_patch) (id : string)
| router_push (path : string)
| alert (msg : string).

(** The writes to the [sections] table and to the [profiles] table. *)
Definition writes_sections (e : effect) : bool :=
  match e with
  | sections_update_eq_id _ _ => true
  | _ => false
  end.

Definition writes_profile_url (e : effect) : bool :=
  match e with
  | profiles_update_eq_id _ _ => true
  | _ => false
  end.

Inductive fetch_answer : Type :=
| fetch_rejected (e : Js.error)
| fetch_response (ok : bool) (result : option Profile).

Inductive upload_answer : Type :=
| upload_rejected (e : Js.error)
| upload_resolved (uploadError : option Js.error).

Record backend : Type := {
  now_ISO : string;
  getUser : option AuthUser;
  select_profile : string -> option Profile * option PgError;
  fetch : string -> string -> fetch_answer;
  select_sections : string -> option (list Section);
  update_section : section_patch -> string -> option PgError;
  upload : string -> string -> File -> upload_answer;
  getPublicUrl : string -> string -> string;
  update_profile : avatar_patch -> string -> option PgError
}.

(** Every effect is logged with the component state of its moment. *)
Definition handler : Type := M state (effect * state) unit unit.

Definition perform {R} (e : effect) : M state (effect * state) R unit :=
  s <- get ;; emit (e, s).

(** [v || ''] on a nullable text column. *)
Definition or_empty (v : option string) : string := default EmptyString v.

(** Defaults of [loadProfile] so that the editors find their array. *)
Definition normalizedContent (s : Section) : Content :=
  if String.eqb (type s) "text_list"
  then {| items := Some (default [] (content s ≫= items));
          links := None; images := None |}
  else if String.eqb (type s) "links"
  then {| items := None;
          links := Some (default [] (content s ≫= links));
          images := None |}
  else {| items := None; links := None;
          images := Some (default [] (content s ≫= images)) |}.

Definition edits_of (sectionsData : list Section) : gmap string draft :=
  foldl (fun edits s =>
           <[section_id s := {| draft_title := title s;
                                draft_content := normalizedContent s;
                                draft_visible := default true (visible s) |}]> edits)
        ∅ sectionsData.

(** [user.email?.split('@')[0] || 'New User']. *)
Definition email_name (user : AuthUser) : string :=
  match email user with
  | Some address =>
      match Js.split "@" address with
      | first :: _ => if String.eqb first EmptyString then "New User" else first
      | [] => "New User"
      end
  | None => "New User"
  end.

Definition loadProfile (be : backend) : handler :=
  perform auth_getUser ;;;
  match getUser be with
  | None => perform (router_push "/login") ;;; return_ tt
  | Some user =>
      perform (profiles_select_eq_user_id (uid user)) ;;;
      let '(profileData, profileError) := select_profile be (uid user) in
      match profileError with
      | Some err =>
          if String.eqb (pg_code err) "PGRST116"
          then
            try_catch
              (let username := "user_" +:+ Js.slice0 8 (uid user) in
               let display_name := email_name user in
               perform (fetch_api_profile username display_name) ;;;
               match fetch be username display_name with
               | fetch_rejected e => throw e
               | fetch_response true (Some result) =>
                   modify (setProfile (Some result)) ;;;
                   modify (setDisplayName (or_empty (Types.display_name result))) ;;;
                   modify (setBio (or_empty (Types.bio result)))
               | fetch_response _ _ => ret tt
               end)
              (fun err => ret tt)
          else ret tt
      | None => ret tt
      end ;;;
      match profileData with
      | Some profileData =>
          modify (setProfile (Some profileData)) ;;;
          modify (setDisplayName (or_empty (Types.display_name profileData))) ;;;
          modify (setBio (or_empty (Types.bio profileData))) ;;;
          modify (setAvatarUrl (or_empty (avatar_url profileData))) ;;;
          modify (setBannerUrl (or_empty (banner_url profileData))) ;;;
          let profileId := id profileData in
          perform (sections_select_eq_profile_id profileId) ;;;
          match select_sections be profileId with
          | Some sectionsData =>
              modify (setSections sectionsData) ;;;
              modify (setSectionEdits (edits_of sectionsData))
          | None => ret tt
          end
      | None => ret tt
      end ;;;
      modify (setLoading false)
  end.

Definition saveSection (be : backend) (id : string) : handler :=
  closure <- get ;;
  match sectionEdits closure !! id with
  | None => return_ tt
  | Some edits =>
      modify (setSavingSectionId (Some id)) ;;;
      let patch := {| patch_title := draft_title edits;
                      patch_content := draft_content edits;
                      patch_visible := draft_visible edits;
                      patch_updated_at := now_ISO be |} in
      perform (sections_update_eq_id patch id) ;;;
      match update_section be patch id with
      | None => await (loadProfile be)
      | Some error => ret tt
      end ;;;
      modify (setSavingSectionId None)
  end.

(** [file.name.split('.').pop()]. *)
Definition extension (file : File) : string :=
  default EmptyString (last (Js.split "." (name file))).

(** [error instanceof Error ? error.message : String(error)]. *)
Definition errorMsg (error : Js.error) : string :=
  if Js.instanceofError error then Js.message error else Js.asString error.

Definition uploadAvatar (be : backend) (file : File) : handler :=
  closure <- get ;;
  match profile closure with
  | None => return_ tt
  | Some profile =>
      modify (setUploadingAvatar true) ;;;
      try_finally
        (try_catch
           (let fileExt := extension file in
            let fileName := id profile +:+ "-avatar." +:+ fileExt in
            let filePath := "avatars/" +:+ fileName in
            perform (storage_upload "Profiles" filePath file true) ;;;
            match upload be "Profiles" filePath file with
            | upload_rejected e => throw e
            | upload_resolved (Some uploadError) => throw uploadError
            | upload_resolved None =>
                let newUrl := getPublicUrl be "Profiles" filePath in
                modify (setAvatarUrl newUrl) ;;;
                let patch := {| patch_avatar_url := newUrl;
                                avatar_updated_at := now_ISO be |} in
                perform (profiles_update_eq_id patch (id profile)) ;;;
                await (loadProfile be)
            end)
           (fun error =>
              perform (alert ("Failed to upload avatar: " +:+ errorMsg error))))
        (modify (setUploadingAvatar false))
  end.

(** The effects of a run, without the states they were logged with. *)
Definition effects (trace : list (effect * state)) : list effect :=
  map fst trace.

End Dashboard.

(** ** Profile route handlers, [GET] and [PATCH] *)

Module ProfileRouteRest.
Import Run Run.Notations.


(** The object handed to [update]. *)
Record update_row : Type := {
  row_display_name : Js.value;
  row_bio : Js.value;
  row_avatar_url : Js.value;
  row_banner_url : Js.value;
  row_theme : Js.value;
  row_updated_at : string
}.

Inductive call : Type :=
| auth_getUser
| select_all_eq_user_id (user : string)
| update_eq_user_id (row : update_row) (user : string).

Record backend : Type := {
  now_ISO : string;
  getUser : option AuthUser;
  select_single : string -> option Profile * option PgError;
  update_single : update_row -> string -> option Profile * option PgError
}.

Definition handler : Type := M unit call ProfileRoute.response ProfileRoute.response.




Definition run (h : handler) : list call * step ProfileRoute.response ProfileRoute.response :=
  match h tt with
  | (trace, _, ending) => (trace, ending)
  end.


(** The same for the calls of [POST]. *)
Definition post_addressed_user (c : ProfileRoute.call) : option Js.value :=
  match c with
  | ProfileRoute.select_id_eq_user_id user => Some user
  | ProfileRoute.rpc_create_profile_for_user params => Some (p_user_id params)
  | ProfileRoute.insert_select_single row => Some (ProfileRoute.row_user_id row)
  | _ => None
  end.

(** The calls of [POST] in the order the source has them. *)
Definition post_sequence (params : rpc_params) : list ProfileRoute.call :=
  [ProfileRoute.auth_getUser;
   ProfileRoute.select_username_eq_username (p_username params);
   ProfileRoute.select_id_eq_user_id (p_user_id params);
   ProfileRoute.rpc_create_profile_for_user params;
   ProfileRoute.insert_select_single
     {| ProfileRoute.row_user_id := p_user_id params;
        ProfileRoute.row_username := p_username params;
        ProfileRoute.row_display_name := p_display_name params |}].

End ProfileRouteRest.

(** ** Dashboard page, the section editors

    [updateSectionEdit] and the [onChange]/[onClick] handlers of the
    editors.  A handler built while rendering reads [sectionEdits] of that
    render; the state it is applied to is the state of that render. *)

Module SectionEditor.
Import Dashboard.

(** [{ title: '', content: {}, visible: true }]. *)
Definition empty_draft : draft :=
  {| draft_title := EmptyString;
     draft_content := {| items := None; links := None; images := None |};
     draft_visible := true |}.

Definition updateSectionEdit (id : string) (updater : draft -> draft)
    (st : state) : state :=
  setSectionEdits
    (<[id := updater (default empty_draft (sectionEdits st !! id))]>
       (sectionEdits st)) st.

(** [{ ...prev, title }], [{ ...prev, visible }] and
    [{ ...prev, content: { ...prev.content, key } }]. *)
Definition with_title (v : string) (prev : draft) : draft :=
  {| draft_title := v; draft_content := draft_content prev;
     draft_visible := draft_visible prev |}.

Definition with_visible (v : bool) (prev : draft) : draft :=
  {| draft_title := draft_title prev; draft_content := draft_content prev;
     draft_visible := v |}.

Definition with_items (v : list string) (prev : draft) : draft :=
  {| draft_title := draft_title prev;
     draft_content := {| items := Some v;
                         links := links (draft_content prev);
                         images := images (draft_content prev) |};
     draft_visible := draft_visible prev |}.

Definition with_links (v : list link) (prev : draft) : draft :=
  {| draft_title := draft_title prev;
     draft_content := {| items := items (draft_content prev);
                         links := Some v;
                         images := images (draft_content prev) |};
     draft_visible := draft_visible prev |}.

Definition with_images (v : list image) (prev : draft) : draft :=
  {| draft_title := draft_title prev;
     draft_content := {| items := items (draft_content prev);
                         links := links (draft_content prev);
                         images := Some v |};
     draft_visible := draft_visible prev |}.

Definition onTitleChange (id v : string) : state -> state :=
  updateSectionEdit id (with_title v).

Definition onVisibleChange (id : string) (checked : bool) : state -> state :=
  updateSectionEdit id (with_visible checked).

(** [sectionEdits[id]?.content.items || []] and its two siblings. *)
Definition shown_items (st : state) (id : string) : list string :=
  default [] (sectionEdits st !! id ≫= fun d => items (draft_content d)).

Definition shown_links (st : state) (id : string) : list link :=
  default [] (sectionEdits st !! id ≫= fun d => links (draft_content d)).

Definition shown_images (st : state) (id : string) : list image :=
  default [] (sectionEdits st !! id ≫= fun d => images (draft_content d)).

(** The [text_list] editor. *)
Definition textarea (st : state) (id : string) : string :=
  TextListEditor.textarea_value (shown_items st id).

Definition onItemsChange (id text : string) (st : state) : state :=
  let items := TextListEditor.onChange text in
  updateSectionEdit id (with_items items) st.

(** The [links] editor: the "Add link" button, and one row per link with
    the handlers of its two inputs and of its "Remove" button.  Inside a
    row, [links[idx]] is the row's own link. *)
Definition new_link : link :=
  {| link_title := "New link"; link_url := "https://example.com" |}.

Definition addLink (id : string) (st : state) : state :=
  let links := shown_links st id in
  updateSectionEdit id (with_links (links ++ [new_link])) st.

Record link_row : Type := {
  title_input : string;
  url_input : string;
  onLinkTitle : string -> state;
  onLinkUrl : string -> state;
  onLinkRemove : state
}.

Definition link_rows (st : state) (id : string) : list link_row :=
  imap (fun idx link =>
          {| title_input := link_title link;
             url_input := link_url link;
             onLinkTitle := fun v =>
               let links := <[idx := {| link_title := v; link_url := link_url link |}]>
                              (shown_links st id) in
               updateSectionEdit id (with_links links) st;
             onLinkUrl := fun v =>
               let links := <[idx := {| link_title := link_title link; link_url := v |}]>
                              (shown_links st id) in
               updateSectionEdit id (with_links links) st;
             onLinkRemove :=
               let links := delete idx (shown_links st id) in
               updateSectionEdit id (with_links links) st |})
       (shown_links st id).

(** The [gallery] editor, built the same way. *)
Definition new_image : image :=
  {| image_url := "https://placehold.co/600x400"; image_caption := Some EmptyString |}.

Definition addImage (id : string) (st : state) : state :=
  let images := shown_images st id in
  updateSectionEdit id (with_images (images ++ [new_image])) st.

Record image_row : Type := {
  image_url_input : string;
  caption_input : string;
  onImageUrl : string -> state;
  onImageCaption : string -> state;
  onImageRemove : state
}.

Definition image_rows (st : state) (id : string) : list image_row :=
  imap (fun idx image =>
          {| image_url_input := image_url image;
             caption_input := or_empty (image_caption image);
             onImageUrl := fun v =>
               let images := <[idx := {| image_url := v;
                                         image_caption := image_caption image |}]>
                               (shown_images st id) in
               updateSectionEdit id (with_images images) st;
             onImageCaption := fun v =>
               let images := <[idx := {| image_url := image_url image;
                                         image_caption := Some v |}]>
                               (shown_images st id) in
               updateSectionEdit id (with_images images) st;
             onImageRemove :=
               let images := delete idx (shown_images st id) in
               updateSectionEdit id (with_images images) st |})
       (shown_images st id).

End SectionEditor.

(** ** Dashboard page, the remaining actions

    [handleLogout], [updateProfile], [uploadBanner], [addSection] and
    [deleteSection].  Their effects extend those of [Dashboard]; a
    [loadProfile()] that is not awaited is the last thing its caller does,
    so its effects follow the caller's in the log all the same. *)

Module DashboardActions.
Import Run Run.Notations Dashboard.

Definition setEditingProfile (v : bool) (s : state) : state :=
  {| profile := profile s; sections := sections s; loading := loading s;
     editingProfile := v; displayName := displayName s;
     bio_text := bio_text s; avatarUrl := avatarUrl s; bannerUrl := bannerUrl s;
     showAddMenu := showAddMenu s; uploadingAvatar := uploadingAvatar s;
     uploadingBanner := uploadingBanner s; sectionEdits := sectionEdits s;
     savingSectionId := savingSectionId s |}.

Definition setUploadingBanner (v : bool) (s : state) : state :=
  {| profile := profile s; sections := sections s; loading := loading s;
     editingProfile := editingProfile s; displayName := displayName s;
     bio_text := bio_text s; avatarUrl := avatarUrl s; bannerUrl := bannerUrl s;
     showAddMenu := showAddMenu s; uploadingAvatar := uploadingAvatar s;
     uploadingBanner := v; sectionEdits := sectionEdits s;
     savingSectionId := savingSectionId s |}.

(** The argument of [addSection]. *)
Inductive kind : Type := kind_text_list | kind_links | kind_gallery.

Definition tag (k : kind) : string :=
  match k with
  | kind_text_list => "text_list"
  | kind_links => "links"
  | kind_gallery => "gallery"
  end.

(** [s.replace(unit, by)]: the first occurrence only. *)
Fixpoint replace_first (unit : ascii) (by_ : string) (s : string) : string :=
  match s with
  | EmptyString => EmptyString
  | String c r =>
      if Ascii.eqb c unit then by_ +:+ r else String c (replace_first unit by_ r)
  end.

Definition defaultContent (k : kind) : Content :=
  match k with
  | kind_text_list =>
      {| items := Some ["First item"; "Second item"]; links := None; images := None |}
  | kind_links =>
      {| items := None;
         links := Some [{| link_title := "My Link"; link_url := "https://example.com" |}];
         images := None |}
  | kind_gallery => {| items := None; links := None; images := Some [] |}
  end.

Record section_insert : Type := {
  ins_profile_id : string;
  ins_title : string;
  ins_type : string;
  ins_content : Content;
  ins_position : nat
}.

Record profile_patch : Type := {
  upd_display_name : string;
  upd_bio : string;
  upd_avatar_url : string;
  upd_banner_url : string;
  upd_updated_at : string
}.

Record banner_patch : Type := {
  patch_banner_url : string;
  banner_updated_at : string
}.

Inductive effect : Type :=
| page (e : Dashboard.effect)
| sections_insert (row : section_insert)
| sections_delete_eq_id (id : string)
| profiles_update_fields_eq_id (patch : profile_patch) (id : string)
| profiles_update_banner_eq_id (patch : banner_patch) (id : string)
| confirm (msg : string)
| auth_signOut.

Record backend : Type := {
  base : Dashboard.backend;
  insert_section : section_insert -> option PgError;
  delete_section : string -> option PgError;
  update_fields : profile_patch -> string -> option PgError;
  confirmed : string -> bool
}.

Definition handler : Type := M state (effect * state) unit unit.

Definition perform {R} (e : effect) : M state (effect * state) R unit :=
  s <- get ;; emit (e, s).

(** A call of [loadProfile] from one of these actions. *)
Definition reload (be : backend) : handler :=
  fun s =>
    match Run.await (R := unit) (loadProfile (base be)) s with
    | (trace, s', ending) => (map (fun es => (page es.1, es.2)) trace, s', ending)
    end.

Definition handleLogout : handler :=
  perform auth_signOut ;;;
  perform (page (router_push "/")).

Definition updateProfile (be : backend) : handler :=
  closure <- get ;;
  match profile closure with
  | None => return_ tt
  | Some profile =>
      let updateData := {| upd_display_name := displayName closure;
                           upd_bio := bio_text closure;
                           upd_avatar_url := avatarUrl closure;
                           upd_banner_url := bannerUrl closure;
                           upd_updated_at := now_ISO (base be) |} in
      perform (profiles_update_fields_eq_id updateData (id profile)) ;;;
      match update_fields be updateData (id profile) with
      | None => modify (setEditingProfile false) ;;; reload be
      | Some error => ret tt
      end
  end.

Definition uploadBanner (be : backend) (file : File) : handler :=
  closure <- get ;;
  match profile closure with
  | None => return_ tt
  | Some profile =>
      modify (setUploadingBanner true) ;;;
      try_finally
        (try_catch
           (let fileExt := extension file in
            let fileName := id profile +:+ "-banner." +:+ fileExt in
            let filePath := "banners/" +:+ fileName in
            perform (page (storage_upload "Profiles" filePath file true)) ;;;
            match upload (base be) "Profiles" filePath file with
            | upload_rejected e => throw e
            | upload_resolved (Some uploadError) => throw uploadError
            | upload_resolved None =>
                let newUrl := getPublicUrl (base be) "Profiles" filePath in
                modify (setBannerUrl newUrl) ;;;
                let patch := {| patch_banner_url := newUrl;
                                banner_updated_at := now_ISO (base be) |} in
                perform (profiles_update_banner_eq_id patch (id profile)) ;;;
                reload be
            end)
           (fun error =>
              perform (page (alert ("Failed to upload banner: " +:+ errorMsg error)))))
        (modify (setUploadingBanner false))
  end.

Definition addSection (be : backend) (type : kind) : handler :=
  closure <- get ;;
  match profile closure with
  | None => return_ tt
  | Some profile =>
      let insertData := {| ins_profile_id := id profile;
                           ins_title := "New " +:+ replace_first "_" " " (tag type);
                           ins_type := tag type;
                           ins_content := defaultContent type;
                           ins_position := length (sections closure) |} in
      perform (sections_insert insertData) ;;;
      match insert_section be insertData with
      | None => reload be
      | Some error => ret tt
      end
  end.

Definition deleteSection (be : backend) (sectionId : string) : handler :=
  perform (confirm "Delete this section?") ;;;
  if negb (confirmed be "Delete this section?") then return_ tt
  else
    perform (sections_delete_eq_id sectionId) ;;;
    match delete_section be sectionId with
    | None => reload be
    | Some error => ret tt
    end.

Definition effects (trace : list (effect * state)) : list effect :=
  map fst trace.

End DashboardActions.

(** ** Signup page, what a run achieved *)

Module SignupOutcome.
Import Signup.

(** The privileged call created the profile: it resolved without error
    and with data. *)
Definition rpc_created (a : rpc_answer) : bool :=
  match a with
  | RpcResolved data None => Js.truthy data
  | _ => false
  end.

(** The API route created the profile: the response is [ok] and its body
    could be read. *)
Definition api_created (a : fetch_answer) : bool :=
  match a with
  | fetch_response true (json_null | json_object _) => true
  | _ => false
  end.

Definition is_fetch (e : effect) : bool :=
  match e with
  | fetch_api_profile _ => true
  | _ => false
  end.

(** The three values of a run. *)
Definition effects_of (be : backend) (st : state) : list effect :=
  (handleSignup be st).1.1.
Definition final_state (be : backend) (st : state) : state :=
  (handleSignup be st).1.2.

(** The arguments the handler builds for the two creation paths. *)
Definition rpcParams (st : state) (user : AuthUser) : rpc_params :=
  {| p_user_id := Js.JStr (uid user);
     p_username := Js.toLowerCase (st_username st);
     p_display_name := Js.JStr (st_username st) |}.

Definition api_body (st : state) (user : AuthUser) : post_body :=
  {| post_username := Js.toLowerCase (st_username st);
     post_display_name := st_username st;
     post_user_id := uid user |}.

Definition answer_of (be : backend) (st : state) : signUp_answer :=
  signUp be (st_email st) (st_password st) (origin be +:+ "/auth/callback").

End SignupOutcome.

(** ** Public profile card, one button *)

Module CardButton.
Import ProfileCard.

(** The button [render] makes for a section. *)
Definition button_of (activeSection : string) (section : Section) : button :=
  {| key := section_id section;
     label := title section;
     highlighted := String.eqb activeSection (section_id section);
     onClick := section_id section |}.

(** The state after a click on a button: [setActiveSection(section.id)]. *)
Definition click (b : button) : string := onClick b.

End CardButton.

(** ** Dashboard page, what [loadProfile] does *)

Module Reload.
Import Dashboard.

(** The draft [loadProfile] writes for a section. *)
Definition draft_of (s : Section) : draft :=
  {| draft_title := title s;
     draft_content := normalizedContent s;
     draft_visible := default true (visible s) |}.

(** The profile query failed with the "no row" code. *)
Definition profile_missing (be : backend) (user : AuthUser) : bool :=
  match (select_profile be (uid user)).2 with
  | Some err => String.eqb (pg_code err) "PGRST116"
  | None => false
  end.

(** The effects of [loadProfile], read off its branches. *)
Definition expected_effects (be : backend) : list effect :=
  auth_getUser ::
  match getUser be with
  | None => [router_push "/login"]
  | Some user =>
      profiles_select_eq_user_id (uid user) ::
      (if profile_missing be user
       then [fetch_api_profile ("user_" +:+ Js.slice0 8 (uid user)) (email_name user)]
       else [])
      ++ match (select_profile be (uid user)).1 with
         | Some profileData => [sections_select_eq_profile_id (id profileData)]
         | None => []
         end
  end.

Definition is_alert (e : effect) : bool :=
  match e with
  | alert _ => true
  | _ => false
  end.

(** The component flags [loadProfile] has no setter call for. *)
Definition flags (s : state) : bool * bool * bool * bool * option string :=
  (editingProfile s, showAddMenu s, uploadingAvatar s, uploadingBanner s,
   savingSectionId s).

End Reload.

(** ** Public page route *)

Module PublicPage.

(** Modelled from the spec: the page route [/{username}] is not among the
    sources.  The spec has it resolve a profile by username, load the
    ordered section list of that profile and render the two read-only with
    [ProfileCard]; the order is by [position]. *)
Record tables : Type := {
  profiles : list Profile;
  sections : list Section
}.

(** Modelled from the spec: the section list is ordered by [position]. *)
Fixpoint insert_by_position (s : Section) (l : list Section) : list Section :=
  match l with
  | [] => [s]
  | x :: rest =>
      if (position s <? position x)%Z then s :: x :: rest
      else x :: insert_by_position s rest
  end.

(** Modelled from the spec: the section list is ordered by [position]. *)
Definition order_by_position (l : list Section) : list Section :=
  foldr insert_by_position [] l.

(** Modelled from the spec: the sections of the page are those of the
    profile it shows. *)
Definition sections_of (profile : Profile) (t : tables) : list Section :=
  order_by_position
    (List.filter (fun s => String.eqb (profile_id s) (id profile)) (sections t)).

(** Modelled from the spec: the page resolves a profile by username. *)
Definition resolve (t : tables) (name : string) : option Profile :=
  List.find (fun p => String.eqb (username p) name) (profiles t).

(** Modelled from the spec: the page as first rendered with [ProfileCard],
    or nothing when no profile has the name. *)
Definition page (t : tables) (name : string) : option ProfileCard.view :=
  match resolve t name with
  | Some profile =>
      let sections := sections_of profile t in
      Some (ProfileCard.render profile sections
              (ProfileCard.initial_activeSection sections))
  | None => None
  end.

End PublicPage.

(** ** Profile route, [POST] from the request

    [const body = await request.json()] and
    [const { username, display_name, user_id } = body], which come before
    the rest of the handler. *)

Module PostRequest.
Import Run ProfileRoute.

(** [await request.json()]: the parsed body, or the rejection for a body
    that is not JSON. *)
Inductive json_answer : Type :=
| json_parsed (v : Js.value)
| json_rejected (e : Js.error).

(** [v[name]] on a parsed value: the property of an object (its keys are
    distinct), and [undefined] on strings, numbers, booleans and arrays for
    the three names read here. *)
Fixpoint lookup_key (name : string) (fields : list (string * Js.value)) : Js.value :=
  match fields with
  | [] => Js.JUndefined
  | (k, v) :: rest => if String.eqb k name then v else lookup_key name rest
  end.

Definition property (name : string) (v : Js.value) : Js.value :=
  match v with
  | Js.JObj fields => lookup_key name fields
  | _ => Js.JUndefined
  end.

(** The destructuring: [null] and [undefined] cannot be destructured. *)
Definition destructure (v : Js.value) : Js.error + body :=
  match v with
  | Js.JNull | Js.JUndefined =>
      inl (Js.Error true
             "Cannot destructure property 'username' of 'body' as it is null."
             "TypeError: Cannot destructure property 'username' of 'body' as it is null.")
  | _ =>
      inr {| body_username := property "username" v;
             body_display_name := property "display_name" v;
             body_user_id := property "user_id" v |}
  end.

(** The fields of the body when it can be read. *)
Definition readable (answer : json_answer) : option body :=
  match answer with
  | json_parsed v =>
      match destructure v with
      | inr b => Some b
      | inl _ => None
      end
  | json_rejected _ => None
  end.

Definition POST_request (be : backend) (answer : json_answer) : handler :=
  match answer with
  | json_rejected e => throw e
  | json_parsed v =>
      match destructure v with
      | inl e => throw e
      | inr request => POST be request
      end
  end.

End PostRequest.

(** ** Sample data

    Concrete requests, tables and backends on which the statements below
    are instantiated. *)

Definition hidden_section : Section :=
  {| section_id := "s1"; profile_id := "p1"; title := "Notes";
     type := "text_list";
     content := Some {| items := Some ["one"]; links := None; images := None |};
     position := 0; visible := Some false |}.

Definition sample_profile : Profile :=
  {| id := "p1"; user_id := "u1"; username := "alice";
     display_name := Some "Alice"; bio := None; avatar_url := None;
     banner_url := None; theme := None |}.

Definition sample_user : AuthUser := {| uid := "u1"; email := Some "alice@example.com" |}.

(** A backend with a session and an empty profile table, whose privileged
    call is answered by [answer] and whose insert by [inserted]. *)
Definition sample_backend (answer : rpc_answer)
    (inserted : option Profile * option PgError) : ProfileRoute.backend :=
  {| ProfileRoute.getUser := Some sample_user;
     ProfileRoute.existing_by_username := fun _ => None;
     ProfileRoute.existing_by_user_id := fun _ => None;
     ProfileRoute.rpc := fun _ => answer;
     ProfileRoute.insert := fun _ => inserted |}.

Definition request_Alice : ProfileRoute.body :=
  {| ProfileRoute.body_username := Js.JStr "Alice";
     ProfileRoute.body_display_name := Js.JUndefined;
     ProfileRoute.body_user_id := Js.JUndefined |}.

Definition params_Alice : rpc_params :=
  {| p_user_id := Js.JStr "u1"; p_username := "alice";
     p_display_name := Js.JStr "Alice" |}.

Definition denied : PgError :=
  {| pg_message := "new row violates row-level security policy";
     pg_code := "42501" |}.

Definition profile_bob : Profile :=
  {| id := "p7"; user_id := "u7"; username := "bob_1";
     display_name := Some "bob_1"; bio := None; avatar_url := None;
     banner_url := None; theme := None |}.

Definition backend_on (store : list Profile) : ProfileRoute.backend :=
  {| ProfileRoute.getUser := None;
     ProfileRoute.existing_by_username := fun name =>
       ProfileRoute.single
         (List.filter (fun p => String.eqb (username p) name) store);
     ProfileRoute.existing_by_user_id := fun _ => None;
     ProfileRoute.rpc := fun _ => RpcResolved (Js.JStr "p8") None;
     ProfileRoute.insert := fun _ => (None, None) |}.

Definition sample_draft : Dashboard.draft :=
  {| Dashboard.draft_title := "Notes";
     Dashboard.draft_content :=
       {| items := Some ["one"; "two"]; links := None; images := None |};
     Dashboard.draft_visible := true |}.

Definition sample_state : Dashboard.state :=
  {| Dashboard.profile := Some sample_profile;
     Dashboard.sections := [hidden_section];
     Dashboard.loading := false;
     Dashboard.editingProfile := false;
     Dashboard.displayName := "Alice";
     Dashboard.bio_text := "";
     Dashboard.avatarUrl := "https://cdn.example/avatars/old.png";
     Dashboard.bannerUrl := "";
     Dashboard.showAddMenu := false;
     Dashboard.uploadingAvatar := false;
     Dashboard.uploadingBanner := false;
     Dashboard.sectionEdits := {[ "s1" := sample_draft ]};
     Dashboard.savingSectionId := None |}.

Definition storage_down : Js.error :=
  Js.Error true "Bucket not found" "StorageApiError: Bucket not found".

(** A backend whose section update and storage upload both fail. *)
Definition failing_backend : Dashboard.backend :=
  {| Dashboard.now_ISO := "2024-05-01T10:00:00.000Z";
     Dashboard.getUser := Some sample_user;
     Dashboard.select_profile := fun _ => (Some sample_profile, None);
     Dashboard.fetch := fun _ _ => Dashboard.fetch_response false None;
     Dashboard.select_sections := fun _ => Some [hidden_section];
     Dashboard.update_section := fun _ _ => Some denied;
     Dashboard.upload := fun _ _ _ => Dashboard.upload_resolved (Some storage_down);
     Dashboard.getPublicUrl := fun _ path => "https://cdn.example/" +:+ path;
     Dashboard.update_profile := fun _ _ => None |}.

Definition owner_backend : ProfileRoute.backend :=
  {| ProfileRoute.getUser := Some sample_user;
     ProfileRoute.existing_by_username := fun _ => None;
     ProfileRoute.existing_by_user_id := fun _ => Some sample_profile;
     ProfileRoute.rpc := fun _ => RpcResolved (Js.JStr "p9") None;
     ProfileRoute.insert := fun _ => (None, None) |}.

Definition request_carol_for_u8 : ProfileRoute.body :=
  {| ProfileRoute.body_username := Js.JStr "Carol";
     ProfileRoute.body_display_name := Js.JUndefined;
     ProfileRoute.body_user_id := Js.JStr "u8" |}.

(** A signup backend over a look-up result, the answers of the two
    creation paths and whether the new account comes with a session. *)
Definition signup_backend (found : option Profile) (answer : rpc_answer)
    (fetched : Signup.fetch_answer) (session : bool) : Signup.backend :=
  {| Signup.origin := "https://selfbook.example";
     Signup.existing_by_username := fun _ => found;
     Signup.signUp := fun _ _ _ =>
       {| Signup.authData_user := Some sample_user;
          Signup.authData_session := session;
          Signup.authError := None |};
     Signup.rpc := fun _ => answer;
     Signup.fetch := fun _ => fetched |}.

Definition signup_form : Signup.state :=
  {| Signup.st_email := "bob@example.com"; Signup.st_password := "secret1";
     Signup.st_username := "bob_1"; Signup.st_error := "";
     Signup.st_loading := false |}.

Definition reloading_backend : Dashboard.backend :=
  {| Dashboard.now_ISO := "2024-05-01T10:00:00.000Z";
     Dashboard.getUser := Some sample_user;
     Dashboard.select_profile := fun _ => (Some sample_profile, None);
     Dashboard.fetch := fun _ _ => Dashboard.fetch_response false None;
     Dashboard.select_sections := fun _ => Some [hidden_section];
     Dashboard.update_section := fun _ _ => None;
     Dashboard.upload := fun _ _ _ => Dashboard.upload_resolved None;
     Dashboard.getPublicUrl := fun _ path => "https://cdn.example/" +:+ path;
     Dashboard.update_profile := fun _ _ => None |}.

Definition links_draft : Dashboard.draft :=
  {| Dashboard.draft_title := "Elsewhere";
     Dashboard.draft_content :=
       {| items := None;
          links := Some [{| link_title := "My Link"; link_url := "https://example.com" |}];
          images := None |};
     Dashboard.draft_visible := true |}.

Definition gallery_draft : Dashboard.draft :=
  {| Dashboard.draft_title := "Pictures";
     Dashboard.draft_content :=
       {| items := None; links := None;
          images := Some [{| image_url := "https://cdn.example/a.png";
                             image_caption := None |}] |};
     Dashboard.draft_visible := true |}.

Definition editing_state : Dashboard.state :=
  Dashboard.setSectionEdits
    {[ "s1" := sample_draft; "s2" := links_draft; "s3" := gallery_draft ]}
    sample_state.

(** A backend for the remaining dashboard actions over [base], whose
    section and profile writes are answered by [answer] and whose
    confirmation dialog by [yes]. *)
Definition actions_backend (base : Dashboard.backend) (answer : option PgError)
    (yes : bool) : DashboardActions.backend :=
  {| DashboardActions.base := base;
     DashboardActions.insert_section := fun _ => answer;
     DashboardActions.delete_section := fun _ => answer;
     DashboardActions.update_fields := fun _ _ => answer;
     DashboardActions.confirmed := fun _ => yes |}.



(** A client library that refuses the URLs that do not start with
    [http://] or [https://]. *)
Definition accepts_http : Supabase.library :=
  fun url _ =>
    if String.prefix "http://" url || String.prefix "https://" url then None
    else Some "Invalid supabaseUrl: Must be a valid HTTP or HTTPS URL.".

Definition profile_Bob_mixed : Profile :=
  {| id := "p7"; user_id := "u7"; username := "Bob_1";
     display_name := Some "Bob"; bio := None; avatar_url := None;
     banner_url := None; theme := None |}.

Definition request_bob_for_u8 : ProfileRoute.body :=
  {| ProfileRoute.body_username := Js.JStr "bob_1";
     ProfileRoute.body_display_name := Js.JUndefined;
     ProfileRoute.body_user_id := Js.JStr "u8" |}.


Definition body_Alice : PostRequest.json_answer :=
  PostRequest.json_parsed (Js.JObj [("username", Js.JStr "Alice")]).

Definition body_number_name : PostRequest.json_answer :=
  PostRequest.json_parsed (Js.JObj [("username", Js.JNum 123)]).

(** * Properties *)

(** *** The string primitives on small inputs *)

Example toLowerCase_BOB_1 : Js.toLowerCase "BOB_1" = "bob_1".
Proof. reflexivity. Qed.

Example split_of_empty : Js.split LF "" = [""].
Proof. reflexivity. Qed.

Example split_file_name : Js.split "." "me.final.png" = ["me"; "final"; "png"].
Proof. reflexivity. Qed.

Example split_trailing_newline :
  Js.split LF (String "a" (String LF "")) = ["a"; ""].
Proof. reflexivity. Qed.

Example join_two : Js.join ", " ["a"; "b"] = "a, b".
Proof. reflexivity. Qed.

Example trim_both_ends : Js.trim (String " " (String "a" (String LF ""))) = "a".
Proof. reflexivity. Qed.

Example test_rejects_trailing_newline :
  Js.test_word_plus (String "a" (String "b" (String LF ""))) = false.
Proof. reflexivity. Qed.

Example test_rejects_empty : Js.test_word_plus "" = false.
Proof. reflexivity. Qed.

Example onChange_drops_blank_lines :
  TextListEditor.onChange
    (String "a" (String LF (String " " (String LF (String "b" "")))))
  = ["a"; "b"].
Proof. reflexivity. Qed.

(** *** Facts on strings *)

Section StringFacts.

Lemma trimEnd_empty_iff s :
  Js.trimEnd s = EmptyString <-> Js.every Js.is_space s = true.
Proof.
  induction s as [|c r IH]; simpl; [tauto|].
  destruct (Js.trimEnd r) eqn:E.
  - destruct (Js.is_space c); simpl.
    + split; intros _; [apply IH|]; reflexivity.
    + split; intros H; discriminate H.
  - split; [intros H; discriminate H|].
    intros H. apply andb_true_iff in H as [_ H].
    apply IH in H. discriminate H.
Qed.

Lemma trimStart_every s :
  Js.every Js.is_space (Js.trimStart s) = Js.every Js.is_space s.
Proof.
  induction s as [|c r IH]; simpl; [reflexivity|].
  destruct (Js.is_space c) eqn:E; simpl; [exact IH|].
  rewrite E. reflexivity.
Qed.

Lemma keep_line_not_blank s :
  TextListEditor.keep_line s = negb (TextListEditor.blank s).
Proof.
  unfold TextListEditor.keep_line, TextListEditor.blank, Js.trim.
  rewrite <- (trimStart_every s).
  destruct (Js.trimEnd (Js.trimStart s)) eqn:E.
  - apply trimEnd_empty_iff in E. rewrite E. reflexivity.
  - destruct (Js.every Js.is_space (Js.trimStart s)) eqn:B.
    + apply trimEnd_empty_iff in B. congruence.
    + reflexivity.
Qed.

Lemma split_no_sep sep s :
  Js.every (fun c => negb (Ascii.eqb c sep)) s = true ->
  Js.split sep s = [s].
Proof.
  induction s as [|c r IH]; simpl; [reflexivity|].
  intros H. apply andb_true_iff in H as [Hc Hr].
  apply negb_true_iff in Hc. rewrite Hc, (IH Hr). reflexivity.
Qed.

Lemma split_app_sep sep s t :
  Js.every (fun c => negb (Ascii.eqb c sep)) s = true ->
  Js.split sep (s +:+ String sep t) = s :: Js.split sep t.
Proof.
  induction s as [|c r IH]; simpl.
  - intros _. rewrite Ascii.eqb_refl. reflexivity.
  - intros H. apply andb_true_iff in H as [Hc Hr].
    apply negb_true_iff in Hc. rewrite Hc, (IH Hr). reflexivity.
Qed.

Lemma lower_unit_idempotent c : Js.lower_unit (Js.lower_unit c) = Js.lower_unit c.
Proof. destruct c as [[] [] [] [] [] [] [] []]; reflexivity. Qed.

Lemma toLowerCase_idempotent s :
  Js.toLowerCase (Js.toLowerCase s) = Js.toLowerCase s.
Proof.
  induction s as [|c r IH]; simpl; [reflexivity|].
  rewrite lower_unit_idempotent, IH. reflexivity.
Qed.

End StringFacts.

(** C4, as stated, fails: an entry that holds a line break is not blank,
    and it comes back as two entries. *)
Lemma text_list_roundtrip_counterexample :
  ~ (forall items : list string,
        Forall (fun s => TextListEditor.blank s = false) items ->
        TextListEditor.roundtrip items = items).
Proof.
  intros H.
  specialize (H [String "a" (String LF (String "b" EmptyString))]).
  assert (Hpre : Forall (fun s => TextListEditor.blank s = false)
                   [String "a" (String LF (String "b" EmptyString))]).
  { constructor; [reflexivity|constructor]. }
  specialize (H Hpre). vm_compute in H. discriminate H.
Qed.

(** C4, amended: for every ordered list of strings whose entries are not
    blank (empty or white space only) and hold no line break, joining the
    items with a newline and splitting again on newline, dropping the lines
    whose trimmed length is zero, gives back the same list. *)
Theorem text_list_roundtrip (items : list string) :
  Forall (fun s => TextListEditor.blank s = false
                   /\ TextListEditor.has_newline s = false) items ->
  TextListEditor.roundtrip items = items.
Proof.
  unfold TextListEditor.roundtrip, TextListEditor.onChange,
    TextListEditor.textarea_value.
  induction items as [|s rest IH]; intros H; [reflexivity|].
  apply Forall_cons in H as [[Hb Hn] Hrest].
  apply negb_false_iff in Hn.
  destruct rest as [|s' rest'].
  - simpl. rewrite (split_no_sep _ _ Hn). simpl.
    rewrite keep_line_not_blank, Hb. reflexivity.
  - change (Js.join newline (s :: s' :: rest'))
      with (s +:+ String LF (Js.join newline (s' :: rest'))).
    rewrite (split_app_sep _ _ _ Hn). simpl List.filter.
    rewrite keep_line_not_blank, Hb. simpl negb. cbv iota.
    f_equal. apply IH, Hrest.
Qed.

Lemma text_list_roundtrip_witness :
  TextListEditor.roundtrip ["First item"; "Second item"]
  = ["First item"; "Second item"].
Proof.
  apply (text_list_roundtrip ["First item"; "Second item"]).
  repeat constructor.
Defined.

(** ** Backend client accessor *)

Section Accessor.
Import Supabase.
Variable rejects : library.

Lemma getSupabaseClient_inv e m :
  at_most_one_client m ->
  at_most_one_client (getSupabaseClient rejects e m).2
  /\ (forall c0, supabaseClient m = Some c0 ->
        supabaseClient (getSupabaseClient rejects e m).2 = Some c0)
  /\ (forall c, (getSupabaseClient rejects e m).1 = Returned c ->
        supabaseClient (getSupabaseClient rejects e m).2 = Some c).
Proof.
  intros Hinv. unfold getSupabaseClient, createClient.
  destruct (supabaseClient m) as [c|] eqn:Hc; simpl.
  - repeat split; [exact Hinv|congruence|].
    intros c' [= <-]. exact Hc.
  - destruct (missing _ || missing _); simpl.
    + repeat split; [exact Hinv|congruence|discriminate].
    + destruct (rejects _ _) as [msg|]; simpl.
      * repeat split; [exact Hinv|congruence|discriminate].
      * destruct Hinv as [[_ H0]|[c [Hs _]]]; [|congruence].
        repeat split; [|discriminate|].
        -- right. eexists. simpl. rewrite H0. split; reflexivity.
        -- intros c [= <-]. reflexivity.
Qed.

Lemma calls_inv es : forall m,
  at_most_one_client m ->
  at_most_one_client (calls rejects es m).2
  /\ (forall c0, supabaseClient m = Some c0 ->
        supabaseClient (calls rejects es m).2 = Some c0)
  /\ (forall c, Returned c ∈ (calls rejects es m).1 ->
        supabaseClient (calls rejects es m).2 = Some c).
Proof.
  induction es as [|e rest IH]; intros m Hinv; simpl.
  - repeat split; [exact Hinv|tauto|]. intros c Hc. inversion Hc.
  - destruct (getSupabaseClient_inv e m Hinv) as (Hinv1 & Hkeep1 & Hret1).
    destruct (getSupabaseClient rejects e m) as [o m1]; simpl in *.
    destruct (IH m1 Hinv1) as (Hinv2 & Hkeep2 & Hret2).
    destruct (calls rejects rest m1) as [os m2]; simpl in *.
    repeat split; [exact Hinv2|auto|].
    intros c Hc. apply elem_of_cons in Hc as [Heq|Hc]; [|auto].
    subst o. auto.
Qed.

End Accessor.

(** C7.  Whatever the client library accepts: in a process that starts
    with no client, however many times [getSupabaseClient] is called and
    whatever the environment is at each call, at most one client is ever
    constructed and all the calls that return give that same handle.  While
    no client exists, a call made with the service URL or the public key
    missing throws the configuration error and constructs nothing; a call
    made with both present, which [createClient] accepts, returns a client
    built from them and keeps it; one that [createClient] refuses throws
    its error and keeps nothing.  Once a client is kept, every call returns
    it and changes nothing, whatever the environment. *)
Theorem getSupabaseClient_once_and_shared (rejects : Supabase.library) :
  (forall es : list Supabase.env,
      Supabase.constructed (Supabase.calls rejects es Supabase.fresh).2 <= 1
      /\ forall c1 c2,
           Supabase.Returned c1 ∈ (Supabase.calls rejects es Supabase.fresh).1 ->
           Supabase.Returned c2 ∈ (Supabase.calls rejects es Supabase.fresh).1 ->
           c1 = c2)
  /\ (forall (e : Supabase.env) (m : Supabase.module_state),
         Supabase.supabaseClient m = None ->
         Supabase.missing (Supabase.NEXT_PUBLIC_SUPABASE_URL e) = true
         \/ Supabase.missing (Supabase.NEXT_PUBLIC_SUPABASE_ANON_KEY e) = true ->
         Supabase.getSupabaseClient rejects e m
         = (Supabase.Thrown "Missing Supabase environment variables", m))
  /\ (forall (e : Supabase.env) (m : Supabase.module_state) (url key : string),
         Supabase.supabaseClient m = None ->
         Supabase.NEXT_PUBLIC_SUPABASE_URL e = Some url -> url <> EmptyString ->
         Supabase.NEXT_PUBLIC_SUPABASE_ANON_KEY e = Some key -> key <> EmptyString ->
         match rejects url key with
         | None =>
             let c := {| Supabase.handle := Supabase.constructed m;
                         Supabase.supabaseUrl_of := url;
                         Supabase.supabaseKey_of := key |} in
             Supabase.getSupabaseClient rejects e m
             = (Supabase.Returned c,
                {| Supabase.supabaseClient := Some c;
                   Supabase.constructed := S (Supabase.constructed m) |})
         | Some msg =>
             Supabase.getSupabaseClient rejects e m = (Supabase.Thrown msg, m)
         end)
  /\ (forall (e : Supabase.env) (m : Supabase.module_state) (c : Supabase.client),
         Supabase.supabaseClient m = Some c ->
         Supabase.getSupabaseClient rejects e m = (Supabase.Returned c, m)).
Proof.
  split; [|split; [|split]].
  - intros es.
    assert (Hfresh : Supabase.at_most_one_client Supabase.fresh) by (left; split; reflexivity).
    destruct (calls_inv rejects es Supabase.fresh Hfresh) as (Hinv & _ & Hret).
    split.
    + destruct Hinv as [[_ ->]|[c [_ ->]]]; lia.
    + intros c1 c2 H1 H2. apply Hret in H1, H2. congruence.
  - intros e m Hnone Hmiss. unfold Supabase.getSupabaseClient. rewrite Hnone.
    destruct Hmiss as [-> | ->]; [reflexivity|].
    rewrite orb_true_r. reflexivity.
  - intros e m url key Hnone Hurl Hu Hkey Hk.
    unfold Supabase.getSupabaseClient, Supabase.createClient.
    rewrite Hnone, Hurl, Hkey. simpl.
    destruct (String.eqb_spec url EmptyString); [contradiction|].
    destruct (String.eqb_spec key EmptyString); [contradiction|].
    simpl. destruct (rejects url key); reflexivity.
  - intros e m c Hc. unfold Supabase.getSupabaseClient. rewrite Hc. reflexivity.
Qed.

Lemma getSupabaseClient_once_and_shared_witness :
  Supabase.getSupabaseClient accepts_http
    {| Supabase.NEXT_PUBLIC_SUPABASE_URL := Some "https://db.example";
       Supabase.NEXT_PUBLIC_SUPABASE_ANON_KEY := None |} Supabase.fresh
  = (Supabase.Thrown "Missing Supabase environment variables", Supabase.fresh)
  /\ Supabase.getSupabaseClient accepts_http
       {| Supabase.NEXT_PUBLIC_SUPABASE_URL := Some "https://db.example";
          Supabase.NEXT_PUBLIC_SUPABASE_ANON_KEY := Some "anon" |} Supabase.fresh
     = (Supabase.Returned
          {| Supabase.handle := 0; Supabase.supabaseUrl_of := "https://db.example";
             Supabase.supabaseKey_of := "anon" |},
        {| Supabase.supabaseClient :=
             Some {| Supabase.handle := 0;
                     Supabase.supabaseUrl_of := "https://db.example";
                     Supabase.supabaseKey_of := "anon" |};
           Supabase.constructed := 1 |})
  /\ Supabase.getSupabaseClient accepts_http
       {| Supabase.NEXT_PUBLIC_SUPABASE_URL := Some "db";
          Supabase.NEXT_PUBLIC_SUPABASE_ANON_KEY := Some "anon" |} Supabase.fresh
     = (Supabase.Thrown "Invalid supabaseUrl: Must be a valid HTTP or HTTPS URL.",
        Supabase.fresh).
Proof.
  split; [|split].
  - apply (proj1 (proj2 (getSupabaseClient_once_and_shared accepts_http)));
      [reflexivity|]. right. reflexivity.
  - apply (proj1 (proj2 (proj2 (getSupabaseClient_once_and_shared accepts_http)))
             {| Supabase.NEXT_PUBLIC_SUPABASE_URL := Some "https://db.example";
                Supabase.NEXT_PUBLIC_SUPABASE_ANON_KEY := Some "anon" |}
             Supabase.fresh "https://db.example" "anon");
      first [reflexivity | discriminate].
  - apply (proj1 (proj2 (proj2 (getSupabaseClient_once_and_shared accepts_http)))
             {| Supabase.NEXT_PUBLIC_SUPABASE_URL := Some "db";
                Supabase.NEXT_PUBLIC_SUPABASE_ANON_KEY := Some "anon" |}
             Supabase.fresh "db" "anon");
      first [reflexivity | discriminate].
Defined.

(** ** Signup page *)

Section SignupFacts.
Import Signup.

Lemma every_false_of_unit p s c :
  In c (list_ascii_of_string s) -> p c = false -> Js.every p s = false.
Proof.
  induction s as [|a r IH]; simpl; [tauto|].
  intros [->|Hin] Hp.
  - rewrite Hp. reflexivity.
  - rewrite (IH Hin Hp). apply andb_false_r.
Qed.

Lemma test_word_plus_false s c :
  In c (list_ascii_of_string s) -> Js.word_unit c = false ->
  Js.test_word_plus s = false.
Proof.
  intros Hin Hc. destruct s as [|a r]; [reflexivity|].
  unfold Js.test_word_plus. exact (every_false_of_unit _ _ _ Hin Hc).
Qed.

End SignupFacts.

(** C3.  When the username is shorter than 3 or longer than 20, or holds a
    character outside [A-Za-z0-9_], [handleSignup] returns without a single
    effect (no look-up, no auth call, no profile creation): it only sets
    one of the two validation messages and clears the loading flag; a
    length violation gives "Username must be 3-20 characters". *)
Theorem handleSignup_rejects_before_network
    (be : Signup.backend) (st : Signup.state) :
  ~ Signup.length_ok (Signup.st_username st)
  \/ (exists c, In c (list_ascii_of_string (Signup.st_username st))
                /\ Js.word_unit c = false) ->
  exists msg,
    Signup.handleSignup be st
    = ([], {| Signup.st_email := Signup.st_email st;
              Signup.st_password := Signup.st_password st;
              Signup.st_username := Signup.st_username st;
              Signup.st_error := msg;
              Signup.st_loading := false |}, Run.Return tt)
    /\ (msg = "Username must be 3-20 characters"
        \/ msg = "Username can only contain letters, numbers, and underscores")
    /\ (~ Signup.length_ok (Signup.st_username st) ->
        msg = "Username must be 3-20 characters").
Proof.
  intros Hbad. unfold Signup.handleSignup, Signup.length_ok in *.
  destruct ((String.length (Signup.st_username st) <? 3)%nat
            || (20 <? String.length (Signup.st_username st))%nat) eqn:Hlen.
  - eexists. split; [cbv [Run.bind Run.get Run.modify Run.return_]; simpl; rewrite Hlen; reflexivity|].
    split; [left; reflexivity|intros _; reflexivity].
  - apply orb_false_iff in Hlen as [H3 H20].
    apply Nat.ltb_ge in H3, H20.
    destruct Hbad as [Hlen|[c [Hin Hc]]]; [lia|].
    pose proof (test_word_plus_false _ _ Hin Hc) as Htest.
    eexists. split.
    + cbv [Run.bind Run.get Run.modify Run.return_]; simpl.
      destruct (_ || _) eqn:Hlen'.
      { apply orb_true_iff in Hlen' as [H|H]; apply Nat.ltb_lt in H; lia. }
      rewrite Htest. reflexivity.
    + split; [right; reflexivity|]. intros Hn. lia.
Qed.

Lemma handleSignup_rejects_before_network_witness :
  exists msg,
    Signup.handleSignup
      {| Signup.origin := "https://selfbook.example";
         Signup.existing_by_username := fun _ => None;
         Signup.signUp := fun _ _ _ =>
           {| Signup.authData_user := None; Signup.authData_session := false;
              Signup.authError := None |};
         Signup.rpc := fun _ => RpcResolved Js.JNull None;
         Signup.fetch := fun _ => Signup.fetch_response true Signup.json_null |}
      {| Signup.st_email := "a@b.c"; Signup.st_password := "secret1";
         Signup.st_username := "ab"; Signup.st_error := "";
         Signup.st_loading := false |}
    = ([], {| Signup.st_email := "a@b.c"; Signup.st_password := "secret1";
              Signup.st_username := "ab"; Signup.st_error := msg;
              Signup.st_loading := false |}, Run.Return tt)
    /\ (msg = "Username must be 3-20 characters"
        \/ msg = "Username can only contain letters, numbers, and underscores")
    /\ (~ Signup.length_ok "ab" -> msg = "Username must be 3-20 characters").
Proof.
  apply (handleSignup_rejects_before_network _
           {| Signup.st_email := "a@b.c"; Signup.st_password := "secret1";
              Signup.st_username := "ab"; Signup.st_error := "";
              Signup.st_loading := false |}).
  left. unfold Signup.length_ok. simpl. lia.
Defined.

(** ** Public profile card *)

Section CardFacts.
Import ProfileCard.



End CardFacts.

Section PageFacts.
Import PublicPage.



End PageFacts.



(** ** Profile route, [POST] *)

Section RouteFacts.
Import ProfileRoute.


Ltac step_handler :=
  cbv [run POST call_toLowerCase Run.bind Run.emit Run.ret Run.return_
         Run.throw Run.try_catch]; cbn.

Lemma POST_falsy_username be request :
  Js.truthy (body_username request) = false ->
  run (POST be request) = ([], Run.Return required_400).
Proof. intros H. step_handler. rewrite H. reflexivity. Qed.

Lemma POST_unauthorized be request :
  Js.truthy (body_username request) = true ->
  Js.truthy (resolved_identity be request) = false ->
  run (POST be request) = ([auth_getUser], Run.Return unauthorized_401).
Proof.
  intros H Hid. unfold resolved_identity in Hid.
  step_handler. rewrite H. cbn. rewrite Hid. reflexivity.
Qed.

Lemma POST_not_a_string be request :
  Js.truthy (body_username request) = true ->
  Js.truthy (resolved_identity be request) = true ->
  (forall s, body_username request <> Js.JStr s) ->
  exists e, run (POST be request) = ([auth_getUser], Run.Throw e).
Proof.
  intros H Hid Hns. unfold resolved_identity in Hid.
  step_handler. rewrite H. cbn. rewrite Hid. cbn.
  destruct (body_username request); try (eexists; reflexivity).
  exfalso. eapply Hns. reflexivity.
Qed.

(** The handler on a request that passed the two first checks, path by path. *)
Lemma POST_identified be request name :
  body_username request = Js.JStr name ->
  name <> EmptyString ->
  Js.truthy (resolved_identity be request) = true ->
  let who := resolved_identity be request in
  let lowered := Js.toLowerCase name in
  let params := {| p_user_id := who; p_username := lowered;
                   p_display_name := defaulted_display_name request |} in
  let row := {| row_user_id := who; row_username := lowered;
                row_display_name := defaulted_display_name request |} in
  let lookups := [auth_getUser; select_username_eq_username lowered] in
  run (POST be request)
  = if bool_decide (is_Some (existing_by_username be lowered))
    then (lookups, Run.Return taken_400)
    else if bool_decide (is_Some (existing_by_user_id be who))
    then (lookups ++ [select_id_eq_user_id who], Run.Return exists_400)
    else if rpc_failed (rpc be params)
    then (lookups ++ [select_id_eq_user_id who; rpc_create_profile_for_user params;
                      insert_select_single row],
          Run.Return
            match insert be row with
            | (_, Some error) => {| json := error_json (pg_message error); status := 500 |}
            | (profile, None) => {| json := profile_json profile; status := 201 |}
            end)
    else (lookups ++ [select_id_eq_user_id who; rpc_create_profile_for_user params],
          Run.Return
            {| json := created_json
                         match rpc be params with
                         | RpcResolved data _ => data
                         | RpcRejected _ => Js.JUndefined
                         end
                         (body_username request) (body_display_name request);
               status := 201 |}).
Proof.
  intros Hname Hne Hid. cbn zeta.
  unfold resolved_identity, defaulted_display_name in *.
  step_handler. rewrite Hname in *. cbn.
  destruct (String.eqb_spec name EmptyString) as [|_]; [contradiction|]. cbn.
  rewrite Hid. cbn.
  destruct (bool_decide (is_Some (existing_by_username be _))); [reflexivity|].
  destruct (bool_decide (is_Some (existing_by_user_id be _))); [reflexivity|].
  cbn.
  destruct (rpc be _) as [data error|e]; cbn.
  - destruct (bool_decide (is_Some error)); cbn.
    + destruct (insert be _) as [profile [err|]]; reflexivity.
    + destruct (Js.truthy data); cbn; [reflexivity|].
      destruct (insert be _) as [profile [err|]]; reflexivity.
  - destruct (insert be _) as [profile [err|]]; reflexivity.
Qed.

Lemma filter_unique_username (store : list Profile) (p : Profile) :
  NoDup (map username store) -> p ∈ store ->
  List.filter (fun q => String.eqb (username q) (username p)) store = [p].
Proof.
  induction store as [|q rest IH]; intros Hnd Hin; [inversion Hin|].
  simpl in Hnd. apply NoDup_cons in Hnd as [Hfresh Hnd].
  apply elem_of_cons in Hin as [->|Hin]; simpl.
  - rewrite String.eqb_refl. f_equal.
    clear IH Hnd. induction rest as [|r rest IH]; [reflexivity|]. simpl.
    destruct (String.eqb_spec (username r) (username q)) as [Heq|_].
    + exfalso. apply Hfresh. simpl. apply elem_of_cons. left. congruence.
    + apply IH. intros H. apply Hfresh. simpl. apply elem_of_cons. right. exact H.
  - destruct (String.eqb_spec (username q) (username p)) as [Heq|_].
    + exfalso. apply Hfresh. rewrite Heq.
      apply (list_elem_of_fmap_2 username _ _ Hin).
    + apply IH; assumption.
Qed.

End RouteFacts.

Section RouteCases.
Import ProfileRoute.

(** Every request falls in one of four classes, by its username and the
    identity found for it. *)
Lemma POST_cases be request :
  Js.truthy (body_username request) = false
  \/ (Js.truthy (body_username request) = true
      /\ Js.truthy (resolved_identity be request) = false)
  \/ (Js.truthy (body_username request) = true
      /\ Js.truthy (resolved_identity be request) = true
      /\ forall s, body_username request <> Js.JStr s)
  \/ (exists name, body_username request = Js.JStr name
                   /\ name <> EmptyString
                   /\ Js.truthy (resolved_identity be request) = true).
Proof.
  destruct (Js.truthy (body_username request)) eqn:Hu; [|left; reflexivity].
  destruct (Js.truthy (resolved_identity be request)) eqn:Hid;
    [|right; left; split; reflexivity].
  right; right.
  destruct (body_username request) as [| |b|n|s|l|l] eqn:E;
    try (left; repeat split; intros s'; discriminate).
  right. exists s. repeat split. intros ->. discriminate Hu.
Qed.

(** Whatever either creation path is asked to store is the lower-cased
    username of the request. *)
Lemma POST_writes_lowered be request c written :
  c ∈ (run (POST be request)).1 ->
  written_username c = Some written ->
  exists name, body_username request = Js.JStr name
               /\ written = Js.toLowerCase name.
Proof.
  intros Hin Hw.
  destruct (POST_cases be request)
    as [Hu|[[Hu Hid]|[(Hu & Hid & Hns)|(name & Hname & Hne & Hid)]]].
  - rewrite (POST_falsy_username _ _ Hu) in Hin. inversion Hin.
  - rewrite (POST_unauthorized _ _ Hu Hid) in Hin.
    apply list_elem_of_singleton in Hin. subst c. discriminate Hw.
  - destruct (POST_not_a_string _ _ Hu Hid Hns) as [e He].
    rewrite He in Hin. apply list_elem_of_singleton in Hin. subst c. discriminate Hw.
  - exists name. split; [exact Hname|].
    pose proof (POST_identified be request name Hname Hne Hid) as Hrun.
    cbn zeta in Hrun. rewrite Hrun in Hin. clear Hrun.
    repeat match type of Hin with
           | context [if ?b then _ else _] => destruct b
           end; cbn in Hin;
      repeat (apply elem_of_cons in Hin as [Hin|Hin];
              [subst c; cbn in Hw; first [discriminate Hw | congruence]|]);
      inversion Hin.
Qed.

End RouteCases.


(** C1.  Whenever the handler issues the privileged call and that call
    fails (it rejects, answers with an error, or answers without data),
    the calls of the run are the three look-ups, the privileged call and
    then one insert, whose user, lower-cased username and defaulted display
    name are those of the privileged call; an error of the insert becomes
    the 500 response that carries its message. *)
Theorem POST_fallback_once_same_fields
    (be : ProfileRoute.backend) (request : ProfileRoute.body)
    (params : rpc_params) :
  ProfileRoute.rpc_create_profile_for_user params
    ∈ (ProfileRoute.run (ProfileRoute.POST be request)).1 ->
  ProfileRoute.rpc_failed (ProfileRoute.rpc be params) = true ->
  let row := {| ProfileRoute.row_user_id := p_user_id params;
                ProfileRoute.row_username := p_username params;
                ProfileRoute.row_display_name := p_display_name params |} in
  (exists name,
      ProfileRoute.body_username request = Js.JStr name
      /\ p_username params = Js.toLowerCase name)
  /\ p_display_name params
     = Js.or_else (ProfileRoute.body_display_name request)
         (ProfileRoute.body_username request)
  /\ (ProfileRoute.run (ProfileRoute.POST be request)).1
     = [ProfileRoute.auth_getUser;
        ProfileRoute.select_username_eq_username (p_username params);
        ProfileRoute.select_id_eq_user_id (p_user_id params);
        ProfileRoute.rpc_create_profile_for_user params;
        ProfileRoute.insert_select_single row]
  /\ (forall error,
        (ProfileRoute.insert be row).2 = Some error ->
        (ProfileRoute.run (ProfileRoute.POST be request)).2
        = Run.Return {| ProfileRoute.json := ProfileRoute.error_json (pg_message error);
                        ProfileRoute.status := 500 |}).
Proof.
  intros Hin Hfail. cbn zeta.
  destruct (POST_cases be request)
    as [Hu|[[Hu Hid]|[(Hu & Hid & Hns)|(name & Hname & Hne & Hid)]]].
  - rewrite (POST_falsy_username _ _ Hu) in Hin. inversion Hin.
  - rewrite (POST_unauthorized _ _ Hu Hid) in Hin.
    apply list_elem_of_singleton in Hin. discriminate Hin.
  - destruct (POST_not_a_string _ _ Hu Hid Hns) as [e He].
    rewrite He in Hin. apply list_elem_of_singleton in Hin. discriminate Hin.
  - pose proof (POST_identified be request name Hname Hne Hid) as Hrun.
    cbn zeta in Hrun. rewrite Hrun in Hin |- *. clear Hrun.
    destruct (bool_decide (is_Some (ProfileRoute.existing_by_username be _))).
    { cbn in Hin. repeat (apply elem_of_cons in Hin as [Hin|Hin]; [discriminate Hin|]).
      inversion Hin. }
    destruct (bool_decide (is_Some (ProfileRoute.existing_by_user_id be _))).
    { cbn in Hin. repeat (apply elem_of_cons in Hin as [Hin|Hin]; [discriminate Hin|]).
      inversion Hin. }
    assert (Hparams :
      params = {| p_user_id := ProfileRoute.resolved_identity be request;
                  p_username := Js.toLowerCase name;
                  p_display_name := ProfileRoute.defaulted_display_name request |}).
    { destruct (ProfileRoute.rpc_failed (ProfileRoute.rpc be _)); cbn in Hin;
        repeat (apply elem_of_cons in Hin as [Hin|Hin];
                [first [discriminate Hin | injection Hin as ->; reflexivity]|]);
        inversion Hin. }
    rewrite <- Hparams, Hfail. subst params. cbn.
    split; [exists name; split; [exact Hname|reflexivity]|].
    split; [reflexivity|]. split; [reflexivity|].
    intros error Herr.
    destruct (ProfileRoute.insert be _) as [profile [err|]]; cbn in Herr;
      [injection Herr as ->; reflexivity|discriminate Herr].
Qed.

Lemma POST_fallback_once_same_fields_witness :
  (ProfileRoute.run
     (ProfileRoute.POST (sample_backend (RpcRejected (Js.Error true "fetch failed" "TypeError: fetch failed"))
                           (None, Some denied))
        request_Alice)).2
  = Run.Return {| ProfileRoute.json := ProfileRoute.error_json (pg_message denied);
                  ProfileRoute.status := 500 |}.
Proof.
  refine (proj2 (proj2 (proj2
    (POST_fallback_once_same_fields
       (sample_backend (RpcRejected (Js.Error true "fetch failed" "TypeError: fetch failed"))
          (None, Some denied))
       request_Alice params_Alice _ _))) denied _).
  - vm_compute. do 3 apply list_elem_of_further. apply list_elem_of_here.
  - reflexivity.
  - reflexivity.
Defined.

(** C2.  On the privileged path the handler answers 201 with the request's
    own fields: for the username "Alice" the call stores "alice" with the
    display name "Alice", and the response carries "Alice" and no display
    name, neither of which is the stored value. *)
Theorem POST_rpc_success_echoes_request :
  ProfileRoute.run
    (ProfileRoute.POST (sample_backend (RpcResolved (Js.JStr "p1") None) (None, None))
       request_Alice)
  = ([ProfileRoute.auth_getUser;
      ProfileRoute.select_username_eq_username "alice";
      ProfileRoute.select_id_eq_user_id (Js.JStr "u1");
      ProfileRoute.rpc_create_profile_for_user params_Alice],
     Run.Return
       {| ProfileRoute.json :=
            ProfileRoute.created_json (Js.JStr "p1") (Js.JStr "Alice") Js.JUndefined;
          ProfileRoute.status := 201 |})
  /\ Js.JStr "Alice" <> Js.JStr (p_username params_Alice)
  /\ Js.JUndefined <> p_display_name params_Alice.
Proof. split; [reflexivity|]. split; discriminate. Qed.

(** C6, as stated for every stored profile, fails: the handler lower-cases
    the candidate and compares it with the stored text as it is, so a
    profile stored as "Bob_1" does not stop the creation of "bob_1". *)
Lemma POST_username_taken_counterexample :
  ~ (forall (be : ProfileRoute.backend) (store : list Profile)
            (request : ProfileRoute.body) (candidate : string) (p : Profile),
        ProfileRoute.reads_usernames_from store be ->
        p ∈ store ->
        ProfileRoute.body_username request = Js.JStr candidate ->
        candidate <> EmptyString ->
        Js.truthy (ProfileRoute.resolved_identity be request) = true ->
        ProfileRoute.same_up_to_case candidate (username p) ->
        (ProfileRoute.run (ProfileRoute.POST be request)).2
        = Run.Return ProfileRoute.taken_400).
Proof.
  intros H.
  specialize (H (backend_on [profile_Bob_mixed]) [profile_Bob_mixed]
                request_bob_for_u8 "bob_1" profile_Bob_mixed).
  assert (Hrun : (ProfileRoute.run
                    (ProfileRoute.POST (backend_on [profile_Bob_mixed])
                       request_bob_for_u8)).2
                 = Run.Return ProfileRoute.taken_400).
  { apply H.
    - intros name. reflexivity.
    - apply list_elem_of_here.
    - reflexivity.
    - discriminate.
    - reflexivity.
    - reflexivity. }
  vm_compute in Hrun. discriminate Hrun.
Qed.

(** C6, amended: on a profile table that keeps the data model's invariant
    (stored usernames are lower case and unique) and answers the look-up, a
    request that passed the presence and identity checks and whose username
    equals a stored one up to letter case is answered 400 "Username is
    already taken" right after the look-up: neither creation path is
    called.  The handler itself keeps the stored usernames lower case:
    whatever either creation path is asked to store is unchanged by
    [toLowerCase]. *)
Theorem POST_username_taken_ignores_case :
  (forall (be : ProfileRoute.backend) (store : list Profile)
          (request : ProfileRoute.body) (candidate : string) (p : Profile),
      ProfileRoute.well_formed store ->
      ProfileRoute.reads_usernames_from store be ->
      p ∈ store ->
      ProfileRoute.body_username request = Js.JStr candidate ->
      candidate <> EmptyString ->
      Js.truthy (ProfileRoute.resolved_identity be request) = true ->
      ProfileRoute.same_up_to_case candidate (username p) ->
      ProfileRoute.run (ProfileRoute.POST be request)
      = ([ProfileRoute.auth_getUser;
          ProfileRoute.select_username_eq_username (username p)],
         Run.Return {| ProfileRoute.json := ProfileRoute.error_json "Username is already taken";
                       ProfileRoute.status := 400 |}))
  /\ (forall (be : ProfileRoute.backend) (request : ProfileRoute.body)
             (c : ProfileRoute.call) (written : string),
         c ∈ (ProfileRoute.run (ProfileRoute.POST be request)).1 ->
         ProfileRoute.written_username c = Some written ->
         Js.toLowerCase written = written).
Proof.
  split.
  - intros be store request candidate p [Hlower Hnodup] Hreads Hp Hname Hne Hid Hcase.
    pose proof (POST_identified be request candidate Hname Hne Hid) as Hrun.
    cbn zeta in Hrun. rewrite Hrun. clear Hrun.
    assert (Hsame : Js.toLowerCase candidate = username p).
    { rewrite Hcase. rewrite Forall_forall in Hlower. apply Hlower, Hp. }
    rewrite Hsame, Hreads, (filter_unique_username store p Hnodup Hp).
    reflexivity.
  - intros be request c written Hin Hw.
    destruct (POST_writes_lowered be request c written Hin Hw) as (name & _ & ->).
    apply toLowerCase_idempotent.
Qed.

Lemma POST_username_taken_ignores_case_witness :
  ProfileRoute.run
    (ProfileRoute.POST (backend_on [profile_bob])
       {| ProfileRoute.body_username := Js.JStr "BOB_1";
          ProfileRoute.body_display_name := Js.JStr "BOB_1";
          ProfileRoute.body_user_id := Js.JStr "u8" |})
  = ([ProfileRoute.auth_getUser;
      ProfileRoute.select_username_eq_username "bob_1"],
     Run.Return {| ProfileRoute.json := ProfileRoute.error_json "Username is already taken";
                   ProfileRoute.status := 400 |}).
Proof.
  apply (proj1 POST_username_taken_ignores_case (backend_on [profile_bob])
           [profile_bob] _ "BOB_1" profile_bob).
  - split; [repeat constructor|].
    simpl. apply NoDup_cons. split; [apply not_elem_of_nil|apply NoDup_nil_2].
  - intros name. reflexivity.
  - apply list_elem_of_here.
  - reflexivity.
  - discriminate.
  - reflexivity.
  - reflexivity.
Defined.

(** C10.  The only test the handler makes on the username is [!username]:
    it answers 400 "Username is required" exactly when the field is falsy,
    which for a field that is absent or a string means absent or empty.
    Every non-empty string passes whatever its length and characters: the
    handler goes on to the session, and once an identity is resolved, to
    the username look-up and from there to the creation paths. *)
Theorem POST_username_presence_check_only
    (be : ProfileRoute.backend) (request : ProfileRoute.body) :
  let username := ProfileRoute.body_username request in
  let outcome := ProfileRoute.run (ProfileRoute.POST be request) in
  (outcome.2 = Run.Return ProfileRoute.required_400 <-> Js.truthy username = false)
  /\ (username = Js.JUndefined \/ (exists s, username = Js.JStr s) ->
      (outcome.2 = Run.Return ProfileRoute.required_400
       <-> username = Js.JUndefined \/ username = Js.JStr EmptyString))
  /\ (forall name,
        username = Js.JStr name -> name <> EmptyString ->
        outcome.2 <> Run.Return ProfileRoute.required_400
        /\ (exists rest, outcome.1 = ProfileRoute.auth_getUser :: rest)
        /\ (Js.truthy (ProfileRoute.resolved_identity be request) = true ->
            exists rest,
              outcome.1
              = ProfileRoute.auth_getUser
                  :: ProfileRoute.select_username_eq_username (Js.toLowerCase name)
                  :: rest)
        /\ (Js.truthy (ProfileRoute.resolved_identity be request) = true ->
            ProfileRoute.existing_by_username be (Js.toLowerCase name) = None ->
            ProfileRoute.existing_by_user_id be (ProfileRoute.resolved_identity be request) = None ->
            ProfileRoute.rpc_create_profile_for_user
              {| p_user_id := ProfileRoute.resolved_identity be request;
                 p_username := Js.toLowerCase name;
                 p_display_name := ProfileRoute.defaulted_display_name request |}
              ∈ outcome.1)).
Proof.
  cbn zeta.
  assert (Hiff :
    (ProfileRoute.run (ProfileRoute.POST be request)).2 = Run.Return ProfileRoute.required_400
    <-> Js.truthy (ProfileRoute.body_username request) = false).
  { split; [|intros H; rewrite (POST_falsy_username _ _ H); reflexivity].
    intros Hres.
    destruct (POST_cases be request)
      as [Hu|[[Hu Hid]|[(Hu & Hid & Hns)|(name & Hname & Hne & Hid)]]];
      [exact Hu|exfalso..].
    - rewrite (POST_unauthorized _ _ Hu Hid) in Hres. discriminate Hres.
    - destruct (POST_not_a_string _ _ Hu Hid Hns) as [e He].
      rewrite He in Hres. discriminate Hres.
    - pose proof (POST_identified be request name Hname Hne Hid) as Hrun.
      cbn zeta in Hrun. rewrite Hrun in Hres. clear Hrun.
      repeat match type of Hres with
             | context [if ?b then _ else _] => destruct b
             end; cbn in Hres; try discriminate Hres.
      destruct (ProfileRoute.insert be _) as [profile [err|]]; discriminate Hres. }
  split; [exact Hiff|]. split.
  - intros Htyped. rewrite Hiff.
    destruct Htyped as [->|[s ->]]; cbn.
    + split; [left; reflexivity|reflexivity].
    + destruct (String.eqb_spec s EmptyString) as [->|Hs]; cbn.
      * split; [right; reflexivity|reflexivity].
      * split; [discriminate|]. intros [H|H]; [discriminate H|].
        injection H as ->. contradiction.
  - intros name Hname Hne.
    assert (Htruthy : Js.truthy (ProfileRoute.body_username request) = true).
    { rewrite Hname. cbn. destruct (String.eqb_spec name EmptyString); [contradiction|reflexivity]. }
    split; [rewrite Hiff, Htruthy; discriminate|].
    destruct (Js.truthy (ProfileRoute.resolved_identity be request)) eqn:Hid.
    + pose proof (POST_identified be request name Hname Hne Hid) as Hrun.
      cbn zeta in Hrun. rewrite Hrun. clear Hrun.
      split; [|split].
      * repeat match goal with
               | |- context [if ?b then _ else _] => destruct b
               end; eexists; reflexivity.
      * intros _.
        repeat match goal with
               | |- context [if ?b then _ else _] => destruct b
               end; eexists; reflexivity.
      * intros _ -> ->. cbn.
        destruct (ProfileRoute.rpc_failed _); cbn;
          do 3 apply list_elem_of_further; apply list_elem_of_here.
    + rewrite (POST_unauthorized _ _ Htruthy Hid).
      split; [eexists; reflexivity|]. split; intros H; discriminate H.
Qed.

Lemma POST_username_presence_check_only_witness :
  ProfileRoute.rpc_create_profile_for_user
    {| p_user_id := Js.JStr "u1"; p_username := "a b!";
       p_display_name := Js.JStr "A b!" |}
    ∈ (ProfileRoute.run
         (ProfileRoute.POST (sample_backend (RpcResolved (Js.JStr "p1") None) (None, None))
            {| ProfileRoute.body_username := Js.JStr "A b!";
               ProfileRoute.body_display_name := Js.JUndefined;
               ProfileRoute.body_user_id := Js.JUndefined |})).1.
Proof.
  refine (proj2 (proj2 (proj2 (proj2 (proj2
    (POST_username_presence_check_only
       (sample_backend (RpcResolved (Js.JStr "p1") None) (None, None))
       {| ProfileRoute.body_username := Js.JStr "A b!";
          ProfileRoute.body_display_name := Js.JUndefined;
          ProfileRoute.body_user_id := Js.JUndefined |}))
    "A b!" _ _))) _ _ _).
  - reflexivity.
  - discriminate.
  - reflexivity.
  - reflexivity.
  - reflexivity.
Defined.

(** ** Dashboard page *)

Section DashboardFacts.
Import Dashboard.

Ltac step_dashboard :=
  cbv [loadProfile saveSection uploadAvatar perform Run.await Run.bind Run.emit
         Run.get Run.ret Run.return_ Run.throw Run.modify Run.try_catch
         Run.try_finally]; cbn.

(** [loadProfile] ends normally, leaves the saving mark alone and does not
    write to the [sections] table. *)
Lemma loadProfile_frame be s :
  exists trace s' r,
    loadProfile be s = (trace, s', r)
    /\ (r = Run.Next tt \/ r = Run.Return tt)
    /\ savingSectionId s' = savingSectionId s
    /\ Forall (fun es => savingSectionId es.2 = savingSectionId s) trace
    /\ List.filter writes_sections (effects trace) = [].
Proof.
  step_dashboard.
  destruct (getUser be) as [user|]; cbn.
  2:{ do 3 eexists. split; [reflexivity|].
      repeat split; auto; repeat constructor. }
  destruct (select_profile be (uid user)) as [profileData profileError].
  destruct profileError as [err|]; cbn.
  - destruct (String.eqb (pg_code err) "PGRST116"); cbn.
    + destruct (fetch be _ _) as [e|ok result]; cbn.
      * destruct profileData as [pd|]; cbn.
        -- destruct (select_sections be (id pd)) as [sd|]; cbn;
             do 3 eexists; (split; [reflexivity|]);
             repeat split; auto; repeat constructor.
        -- do 3 eexists. split; [reflexivity|].
           repeat split; auto; repeat constructor.
      * destruct ok, result as [res|]; cbn;
          (destruct profileData as [pd|]; cbn;
           [destruct (select_sections be (id pd)) as [sd|]; cbn|]);
          do 3 eexists; (split; [reflexivity|]);
          repeat split; auto; repeat constructor.
    + destruct profileData as [pd|]; cbn;
        [destruct (select_sections be (id pd)) as [sd|]; cbn|];
        do 3 eexists; (split; [reflexivity|]);
        repeat split; auto; repeat constructor.
  - destruct profileData as [pd|]; cbn;
      [destruct (select_sections be (id pd)) as [sd|]; cbn|];
      do 3 eexists; (split; [reflexivity|]);
      repeat split; auto; repeat constructor.
Qed.

(** The effects of [loadProfile] are those of its branches. *)
Lemma loadProfile_effects be s :
  effects (loadProfile be s).1.1 = Reload.expected_effects be.
Proof.
  step_dashboard. unfold Reload.expected_effects, Reload.profile_missing.
  destruct (getUser be) as [user|]; cbn; [|reflexivity].
  destruct (select_profile be (uid user)) as [[pd|] [err|]]; cbn;
    try (destruct (String.eqb (pg_code err) "PGRST116"); cbn;
         try (destruct (fetch be _ _) as [e|[] [res|]]; cbn));
    try (destruct (select_sections be (id pd)) as [sd|]; cbn);
    reflexivity.
Qed.

(** When the user, the profile row and the sections are found, the state
    after [loadProfile] holds what was loaded. *)
Lemma loadProfile_found be s user profileData sectionsData :
  getUser be = Some user ->
  select_profile be (uid user) = (Some profileData, None) ->
  select_sections be (id profileData) = Some sectionsData ->
  (loadProfile be s).1.2
  = {| profile := Some profileData;
       sections := sectionsData;
       loading := false;
       editingProfile := editingProfile s;
       displayName := or_empty (display_name profileData);
       bio_text := or_empty (bio profileData);
       avatarUrl := or_empty (avatar_url profileData);
       bannerUrl := or_empty (banner_url profileData);
       showAddMenu := showAddMenu s;
       uploadingAvatar := uploadingAvatar s;
       uploadingBanner := uploadingBanner s;
       sectionEdits := edits_of sectionsData;
       savingSectionId := savingSectionId s |}.
Proof.
  intros Huser Hprofile Hsections.
  cbv [loadProfile perform Run.bind Run.emit Run.get Run.ret Run.return_
         Run.throw Run.modify Run.try_catch].
  rewrite Huser, Hprofile, Hsections. reflexivity.
Qed.

End DashboardFacts.

(** C5.  For an id that has a draft, [saveSection] first marks the id as
    saving, then issues one update of the [sections] row with that id
    carrying the draft's title, content and visibility and the current
    timestamp, and it is the only write to that table in the run; every
    effect of the run happens under the mark and the mark is cleared at the
    end, whatever the store answered.  When the store reports no error the
    rest of the run is [loadProfile], started from the marked state: it
    asks for the session, then for the profile row of that user and the
    sections of that profile, and when these are found the profile, its
    form fields, the sections and every draft of the state are replaced by
    what was loaded.  When the store reports an error, nothing else happens
    and the state is unchanged, all drafts included. *)
Theorem saveSection_contract
    (be : Dashboard.backend) (id : string) (st : Dashboard.state)
    (edits : Dashboard.draft) :
  Dashboard.sectionEdits st !! id = Some edits ->
  let patch := {| Dashboard.patch_title := Dashboard.draft_title edits;
                  Dashboard.patch_content := Dashboard.draft_content edits;
                  Dashboard.patch_visible := Dashboard.draft_visible edits;
                  Dashboard.patch_updated_at := Dashboard.now_ISO be |} in
  let marked := Dashboard.setSavingSectionId (Some id) st in
  exists reload st',
    Dashboard.saveSection be id st
    = ((Dashboard.sections_update_eq_id patch id, marked) :: reload, st', Run.Next tt)
    /\ List.filter Dashboard.writes_sections
         (Dashboard.effects ((Dashboard.sections_update_eq_id patch id, marked) :: reload))
       = [Dashboard.sections_update_eq_id patch id]
    /\ Forall (fun es => Dashboard.savingSectionId es.2 = Some id)
         ((Dashboard.sections_update_eq_id patch id, marked) :: reload)
    /\ Dashboard.savingSectionId st' = None
    /\ match Dashboard.update_section be patch id with
       | None =>
           (exists loaded r,
               Dashboard.loadProfile be marked = (reload, loaded, r)
               /\ st' = Dashboard.setSavingSectionId None loaded)
           /\ Dashboard.effects reload = Reload.expected_effects be
           /\ (forall user profileData sectionsData,
                 Dashboard.getUser be = Some user ->
                 Dashboard.select_profile be (uid user) = (Some profileData, None) ->
                 Dashboard.select_sections be (Types.id profileData) = Some sectionsData ->
                 Dashboard.effects reload
                 = [Dashboard.auth_getUser;
                    Dashboard.profiles_select_eq_user_id (uid user);
                    Dashboard.sections_select_eq_profile_id (Types.id profileData)]
                 /\ Dashboard.profile st' = Some profileData
                 /\ Dashboard.displayName st'
                    = Dashboard.or_empty (display_name profileData)
                 /\ Dashboard.bio_text st' = Dashboard.or_empty (bio profileData)
                 /\ Dashboard.avatarUrl st'
                    = Dashboard.or_empty (avatar_url profileData)
                 /\ Dashboard.bannerUrl st'
                    = Dashboard.or_empty (banner_url profileData)
                 /\ Dashboard.sections st' = sectionsData
                 /\ Dashboard.sectionEdits st' = Dashboard.edits_of sectionsData
                 /\ Dashboard.loading st' = false)
       | Some error =>
           reload = []
           /\ st' = Dashboard.setSavingSectionId None st
           /\ Dashboard.sectionEdits st' = Dashboard.sectionEdits st
       end.
Proof.
  intros Hdraft. cbn zeta.
  cbv [Dashboard.saveSection Dashboard.perform Run.bind Run.get Run.modify
         Run.emit Run.ret Run.return_ Run.await].
  rewrite Hdraft.
  destruct (Dashboard.update_section be _ id) as [error|] eqn:Hupd.
  - exists [], (Dashboard.setSavingSectionId None st). cbn.
    repeat split; repeat constructor.
  - pose proof (loadProfile_effects be (Dashboard.setSavingSectionId (Some id) st))
      as Heffects.
    pose proof (loadProfile_found be (Dashboard.setSavingSectionId (Some id) st))
      as Hfound.
    destruct (loadProfile_frame be (Dashboard.setSavingSectionId (Some id) st))
      as (trace & loaded & r & Hload & Hend & Hmark & Hunder & Hwrites).
    rewrite Hload in Heffects, Hfound. cbn [fst snd] in Heffects, Hfound.
    exists trace, (Dashboard.setSavingSectionId None loaded).
    rewrite Hload.
    split; [destruct Hend as [-> | ->]; cbn; rewrite app_nil_r; reflexivity|].
    split; [cbn; f_equal; exact Hwrites|].
    split; [constructor; [reflexivity|exact Hunder]|].
    split; [reflexivity|].
    split; [exists loaded, r; split; reflexivity|].
    split; [exact Heffects|].
    intros user profileData sectionsData Huser Hprofile Hsections.
    rewrite (Hfound user profileData sectionsData Huser Hprofile Hsections).
    split; [|repeat split].
    rewrite Heffects. unfold Reload.expected_effects, Reload.profile_missing.
    rewrite Huser, Hprofile. reflexivity.
Qed.

Lemma saveSection_contract_witness :
  (exists reload st',
      Dashboard.saveSection failing_backend "s1" sample_state
      = ((Dashboard.sections_update_eq_id
            {| Dashboard.patch_title := "Notes";
               Dashboard.patch_content :=
                 {| items := Some ["one"; "two"]; links := None; images := None |};
               Dashboard.patch_visible := true;
               Dashboard.patch_updated_at := "2024-05-01T10:00:00.000Z" |} "s1",
          Dashboard.setSavingSectionId (Some "s1") sample_state) :: reload,
         st', Run.Next tt)
      /\ reload = []
      /\ Dashboard.sectionEdits st' = Dashboard.sectionEdits sample_state)
  /\ (exists reload st',
         Dashboard.saveSection reloading_backend "s1" sample_state
         = ((Dashboard.sections_update_eq_id
               {| Dashboard.patch_title := "Notes";
                  Dashboard.patch_content :=
                    {| items := Some ["one"; "two"]; links := None; images := None |};
                  Dashboard.patch_visible := true;
                  Dashboard.patch_updated_at := "2024-05-01T10:00:00.000Z" |} "s1",
             Dashboard.setSavingSectionId (Some "s1") sample_state) :: reload,
            st', Run.Next tt)
         /\ Dashboard.effects reload
            = [Dashboard.auth_getUser;
               Dashboard.profiles_select_eq_user_id "u1";
               Dashboard.sections_select_eq_profile_id "p1"]
         /\ Dashboard.sections st' = [hidden_section]
         /\ Dashboard.sectionEdits st' = Dashboard.edits_of [hidden_section]).
Proof.
  split.
  - destruct (saveSection_contract failing_backend "s1" sample_state sample_draft)
      as (reload & st' & Hrun & _ & _ & _ & Hfail).
    + reflexivity.
    + exists reload, st'. split; [exact Hrun|].
      cbn in Hfail. destruct Hfail as (Hnil & _ & Hsame). split; assumption.
  - destruct (saveSection_contract reloading_backend "s1" sample_state sample_draft)
      as (reload & st' & Hrun & _ & _ & _ & Hok).
    + reflexivity.
    + exists reload, st'. split; [exact Hrun|].
      cbn in Hok. destruct Hok as (_ & _ & Hfound).
      destruct (Hfound sample_user sample_profile [hidden_section])
        as (Heff & _ & _ & _ & _ & _ & Hsections & Hedits & _);
        [reflexivity..|].
      split; [exact Heff|]. split; assumption.
Defined.

(** C8.  With a profile loaded, when the storage upload rejects or answers
    with an error, [uploadAvatar] performs the upload and then one alert
    with the error's message, and nothing else: no update of the profile
    row is issued, and the component state at the end is the state at the
    start with the uploading flag off, so the avatar URL kept in the state
    and the loaded profile are the previous ones. *)
Theorem uploadAvatar_failure_keeps_avatar
    (be : Dashboard.backend) (file : Dashboard.File) (st : Dashboard.state)
    (p : Profile) (err : Js.error) :
  Dashboard.profile st = Some p ->
  let path := "avatars/" +:+ (id p +:+ "-avatar." +:+ Dashboard.extension file) in
  Dashboard.upload be "Profiles" path file = Dashboard.upload_rejected err
  \/ Dashboard.upload be "Profiles" path file = Dashboard.upload_resolved (Some err) ->
  exists trace st',
    Dashboard.uploadAvatar be file st = (trace, st', Run.Next tt)
    /\ Dashboard.effects trace
       = [Dashboard.storage_upload "Profiles" path file true;
          Dashboard.alert ("Failed to upload avatar: " +:+ Dashboard.errorMsg err)]
    /\ List.filter Dashboard.writes_profile_url (Dashboard.effects trace) = []
    /\ st' = Dashboard.setUploadingAvatar false st
    /\ Dashboard.avatarUrl st' = Dashboard.avatarUrl st
    /\ Dashboard.profile st' = Dashboard.profile st.
Proof.
  intros Hprofile path Hfail. subst path.
  cbv [Dashboard.uploadAvatar Dashboard.perform Run.bind Run.get Run.modify
         Run.emit Run.ret Run.return_ Run.throw Run.try_catch Run.try_finally].
  rewrite Hprofile.
  destruct Hfail as [-> | ->]; do 2 eexists; (split; [reflexivity|]);
    destruct st; cbn; repeat split; exact Hprofile.
Qed.

Lemma uploadAvatar_failure_keeps_avatar_witness :
  exists trace st',
    Dashboard.uploadAvatar failing_backend
      {| Dashboard.name := "me.final.png"; Dashboard.size := 2048;
         Dashboard.mime := "image/png" |} sample_state
    = (trace, st', Run.Next tt)
    /\ Dashboard.effects trace
       = [Dashboard.storage_upload "Profiles" "avatars/p1-avatar.png"
            {| Dashboard.name := "me.final.png"; Dashboard.size := 2048;
               Dashboard.mime := "image/png" |} true;
          Dashboard.alert "Failed to upload avatar: Bucket not found"]
    /\ Dashboard.avatarUrl st' = "https://cdn.example/avatars/old.png".
Proof.
  destruct (uploadAvatar_failure_keeps_avatar failing_backend
              {| Dashboard.name := "me.final.png"; Dashboard.size := 2048;
                 Dashboard.mime := "image/png" |}
              sample_state sample_profile storage_down)
    as (trace & st' & Hrun & Heff & _ & _ & Hurl & _).
  - reflexivity.
  - right. reflexivity.
  - exists trace, st'. split; [exact Hrun|]. split; [exact Heff|exact Hurl].
Defined.

(** * Further properties *)

(** ** Profile route, [POST] *)

Section RouteMore.
Import ProfileRoute.

(** The four shapes a run can take, with the calls and the ending of
    each. *)
Lemma POST_shapes be request :
  let who := resolved_identity be request in
  let lowered := match body_username request with
                 | Js.JStr name => Js.toLowerCase name
                 | _ => EmptyString
                 end in
  let params := {| p_user_id := who; p_username := lowered;
                   p_display_name := defaulted_display_name request |} in
  let row := {| row_user_id := who; row_username := lowered;
                row_display_name := defaulted_display_name request |} in
  let sequence := ProfileRouteRest.post_sequence params in
  run (POST be request) = ([], Run.Return required_400)
  \/ run (POST be request) = (take 1 sequence, Run.Return unauthorized_401)
  \/ (exists e, run (POST be request) = (take 1 sequence, Run.Throw e))
  \/ run (POST be request) = (take 2 sequence, Run.Return taken_400)
  \/ run (POST be request) = (take 3 sequence, Run.Return exists_400)
  \/ (rpc_failed (rpc be params) = false
      /\ exists data,
           rpc be params = RpcResolved data None
           /\ run (POST be request)
              = (take 4 sequence,
                 Run.Return {| json := created_json data (body_username request)
                                         (body_display_name request);
                               status := 201 |}))
  \/ (rpc_failed (rpc be params) = true
      /\ ((exists profile,
              insert be row = (profile, None)
              /\ run (POST be request)
                 = (sequence, Run.Return {| json := profile_json profile; status := 201 |}))
          \/ (exists profile error,
                 insert be row = (profile, Some error)
                 /\ run (POST be request)
                    = (sequence,
                       Run.Return {| json := error_json (pg_message error);
                                     status := 500 |})))).
Proof.
  cbn zeta.
  destruct (POST_cases be request)
    as [Hu|[[Hu Hid]|[(Hu & Hid & Hns)|(name & Hname & Hne & Hid)]]].
  - left. apply POST_falsy_username, Hu.
  - right; left. apply POST_unauthorized; assumption.
  - right; right; left. apply POST_not_a_string; assumption.
  - do 3 right.
    pose proof (POST_identified be request name Hname Hne Hid) as Hrun.
    cbn zeta in Hrun. rewrite Hrun, Hname. clear Hrun.
    destruct (bool_decide (is_Some (existing_by_username be _))); [left; reflexivity|].
    destruct (bool_decide (is_Some (existing_by_user_id be _))); [right; left; reflexivity|].
    do 2 right.
    destruct (rpc_failed (rpc be _)) eqn:Hfail.
    + right. split; [reflexivity|].
      destruct (insert be _) as [profile [error|]] eqn:Hins.
      * right. exists profile, error. split; reflexivity.
      * left. exists profile. split; reflexivity.
    + left. split; [reflexivity|].
      destruct (rpc be _) as [data error|e]; [|discriminate Hfail].
      cbn in Hfail. apply orb_false_iff in Hfail as [Herr _].
      destruct error as [error|]; [discriminate Herr|].
      exists data. split; reflexivity.
Qed.

End RouteMore.

Ltac post_shapes be request H :=
  let e := fresh "e" in
  let data := fresh "data" in
  let profile := fresh "profile" in
  let error := fresh "error" in
  let Hfail := fresh "Hfail" in
  let Hans := fresh "Hans" in
  destruct (POST_shapes be request)
    as [H|[H|[[e H]|[H|[H|[[Hfail (data & Hans & H)]
                          |[Hfail [(profile & Hans & H)|(profile & error & Hans & H)]]]]]]]];
  cbn zeta in H.

(** X1.  The calls of a run of [POST] are an initial part of the sequence
    session, username look-up, owner look-up, privileged call, insert: no
    call is made twice, a look-up never follows a creation call, and the
    insert is never made before the privileged call. *)
Theorem POST_calls_follow_source_order
    (be : ProfileRoute.backend) (request : ProfileRoute.body) :
  (ProfileRoute.run (ProfileRoute.POST be request)).1
  `prefix_of`
  ProfileRouteRest.post_sequence
    {| p_user_id := ProfileRoute.resolved_identity be request;
       p_username := match ProfileRoute.body_username request with
                     | Js.JStr name => Js.toLowerCase name
                     | _ => EmptyString
                     end;
       p_display_name := ProfileRoute.defaulted_display_name request |}.
Proof.
  post_shapes be request H; rewrite H;
    first [apply prefix_nil | apply prefix_take | reflexivity].
Qed.

(** The endings of the handler once the body is destructured. *)
Lemma POST_body_endings
    (be : ProfileRoute.backend) (request : ProfileRoute.body) :
  let outcome := ProfileRoute.run (ProfileRoute.POST be request) in
  (forall resp,
      outcome.2 = Run.Return resp ->
      (ProfileRoute.status resp = 400 \/ ProfileRoute.status resp = 401
       \/ ProfileRoute.status resp = 201 \/ ProfileRoute.status resp = 500)
      /\ (ProfileRoute.status resp = 400 \/ ProfileRoute.status resp = 401 ->
          Forall (fun c => ProfileRoute.written_username c = None) outcome.1)
      /\ (ProfileRoute.status resp = 201 ->
          exists params, ProfileRoute.rpc_create_profile_for_user params ∈ outcome.1)
      /\ (ProfileRoute.status resp = 500 ->
          exists params row,
            ProfileRoute.rpc_create_profile_for_user params ∈ outcome.1
            /\ ProfileRoute.insert_select_single row ∈ outcome.1
            /\ ProfileRoute.rpc_failed (ProfileRoute.rpc be params) = true))
  /\ (forall e, outcome.2 = Run.Throw e -> outcome.1 = [ProfileRoute.auth_getUser])
  /\ (forall a, outcome.2 <> Run.Next a).
Proof.
  cbn zeta.
  assert (Hlookups : forall k params,
             k <= 3 ->
             Forall (fun c => ProfileRoute.written_username c = None)
               (take k (ProfileRouteRest.post_sequence params))).
  { intros k params Hk.
    destruct k as [|[|[|[|k]]]]; [repeat constructor..|lia]. }
  post_shapes be request H; rewrite H; cbn [fst snd].
  all: try (split; [intros resp Hr; injection Hr as <-; cbn [ProfileRoute.status
              ProfileRoute.required_400 ProfileRoute.unauthorized_401
              ProfileRoute.taken_400 ProfileRoute.exists_400]
            |split; [intros ? Hd; discriminate Hd|intros ? Hd; discriminate Hd]]).
  - split; [lia|]. split; [intros _; constructor|]. split; intros Hd; discriminate Hd.
  - split; [lia|]. split; [intros _; apply Hlookups; lia|].
    split; intros Hd; discriminate Hd.
  - split; [intros ? Hd; discriminate Hd|].
    split; [intros _ _; reflexivity|intros ? Hd; discriminate Hd].
  - split; [lia|]. split; [intros _; apply Hlookups; lia|].
    split; intros Hd; discriminate Hd.
  - split; [lia|]. split; [intros _; apply Hlookups; lia|].
    split; intros Hd; discriminate Hd.
  - split; [lia|]. split; [intros [Hd|Hd]; discriminate Hd|].
    split; [intros _|intros Hd; discriminate Hd].
    eexists. do 3 apply list_elem_of_further. apply list_elem_of_here.
  - split; [lia|]. split; [intros [Hd|Hd]; discriminate Hd|].
    split; [intros _|intros Hd; discriminate Hd].
    eexists. do 3 apply list_elem_of_further. apply list_elem_of_here.
  - split; [lia|]. split; [intros [Hd|Hd]; discriminate Hd|].
    split; [intros Hd; discriminate Hd|intros _].
    do 2 eexists. split; [|split; [|exact Hfail]].
    + do 3 apply list_elem_of_further. apply list_elem_of_here.
    + do 4 apply list_elem_of_further. apply list_elem_of_here.
Qed.

(** X2.  The status of the response tells what was written.  A run of
    [POST], body parse included, ends with a response of status 400, 401,
    201 or 500, or with an exception; it never falls off its end.  On 400
    and 401 no creation call was made; on 201 the privileged call was made;
    on 500 both creation calls were made, the privileged one having failed.
    An exception is raised either before any call, when the body is not
    JSON or is [null], or right after the session call, when the body could
    be read. *)
Theorem POST_status_tells_writes
    (be : ProfileRoute.backend) (answer : PostRequest.json_answer) :
  let outcome := ProfileRoute.run (PostRequest.POST_request be answer) in
  (forall resp,
      outcome.2 = Run.Return resp ->
      (ProfileRoute.status resp = 400 \/ ProfileRoute.status resp = 401
       \/ ProfileRoute.status resp = 201 \/ ProfileRoute.status resp = 500)
      /\ (ProfileRoute.status resp = 400 \/ ProfileRoute.status resp = 401 ->
          Forall (fun c => ProfileRoute.written_username c = None) outcome.1)
      /\ (ProfileRoute.status resp = 201 ->
          exists params, ProfileRoute.rpc_create_profile_for_user params ∈ outcome.1)
      /\ (ProfileRoute.status resp = 500 ->
          exists params row,
            ProfileRoute.rpc_create_profile_for_user params ∈ outcome.1
            /\ ProfileRoute.insert_select_single row ∈ outcome.1
            /\ ProfileRoute.rpc_failed (ProfileRoute.rpc be params) = true))
  /\ (forall e,
        outcome.2 = Run.Throw e ->
        (PostRequest.readable answer = None /\ outcome.1 = [])
        \/ (is_Some (PostRequest.readable answer)
            /\ outcome.1 = [ProfileRoute.auth_getUser]))
  /\ (forall a, outcome.2 <> Run.Next a).
Proof.
  cbn zeta. unfold PostRequest.POST_request, PostRequest.readable.
  destruct answer as [v|err].
  - destruct (PostRequest.destructure v) as [err|request].
    + split; [intros ? Hd; discriminate Hd|].
      split; [intros e _; left; split; reflexivity|intros ? Hd; discriminate Hd].
    + destruct (POST_body_endings be request) as (Hresp & Hthrow & Hnext).
      split; [exact Hresp|]. split; [|exact Hnext].
      intros e He. right. split; [eexists; reflexivity|apply (Hthrow e He)].
  - split; [intros ? Hd; discriminate Hd|].
    split; [intros e _; left; split; reflexivity|intros ? Hd; discriminate Hd].
Qed.

Lemma POST_status_tells_writes_witness :
  exists params,
    ProfileRoute.rpc_create_profile_for_user params
      ∈ (ProfileRoute.run
           (PostRequest.POST_request
              (sample_backend (RpcResolved (Js.JStr "p1") None) (None, None))
              body_Alice)).1.
Proof.
  refine (proj1 (proj2 (proj2
    (proj1 (POST_status_tells_writes
              (sample_backend (RpcResolved (Js.JStr "p1") None) (None, None))
              body_Alice) _ _))) _); reflexivity.
Defined.

(** X3.  An identity that already owns a profile cannot create a second
    one: for a request with a usable username that is not taken, when the
    owner look-up finds a row the answer is 400 "Profile already exists"
    and neither creation path is called. *)
Theorem POST_second_profile_refused
    (be : ProfileRoute.backend) (request : ProfileRoute.body) (name : string) :
  ProfileRoute.body_username request = Js.JStr name ->
  name <> EmptyString ->
  Js.truthy (ProfileRoute.resolved_identity be request) = true ->
  ProfileRoute.existing_by_username be (Js.toLowerCase name) = None ->
  is_Some (ProfileRoute.existing_by_user_id be (ProfileRoute.resolved_identity be request)) ->
  ProfileRoute.run (ProfileRoute.POST be request)
  = ([ProfileRoute.auth_getUser;
      ProfileRoute.select_username_eq_username (Js.toLowerCase name);
      ProfileRoute.select_id_eq_user_id (ProfileRoute.resolved_identity be request)],
     Run.Return ProfileRoute.exists_400)
  /\ Forall (fun c => ProfileRoute.written_username c = None)
       (ProfileRoute.run (ProfileRoute.POST be request)).1.
Proof.
  intros Hname Hne Hid Hfree Hown.
  pose proof (POST_identified be request name Hname Hne Hid) as Hrun.
  cbn zeta in Hrun. rewrite Hrun, Hfree. clear Hrun.
  rewrite (bool_decide_eq_false_2 (is_Some None)) by (intros [? [=]]).
  rewrite (bool_decide_eq_true_2 _ Hown).
  split; [reflexivity|repeat constructor].
Qed.

Lemma POST_second_profile_refused_witness :
  ProfileRoute.run (ProfileRoute.POST owner_backend request_Alice)
  = ([ProfileRoute.auth_getUser;
      ProfileRoute.select_username_eq_username "alice";
      ProfileRoute.select_id_eq_user_id (Js.JStr "u1")],
     Run.Return ProfileRoute.exists_400).
Proof.
  refine (proj1 (POST_second_profile_refused owner_backend request_Alice "Alice"
                   _ _ _ _ _)).
  - reflexivity.
  - discriminate.
  - reflexivity.
  - reflexivity.
  - eexists. reflexivity.
Defined.

Lemma POST_calls_in_sequence be request c :
  c ∈ (ProfileRoute.run (ProfileRoute.POST be request)).1 ->
  c ∈ ProfileRouteRest.post_sequence
        {| p_user_id := ProfileRoute.resolved_identity be request;
           p_username := match ProfileRoute.body_username request with
                         | Js.JStr name => Js.toLowerCase name
                         | _ => EmptyString
                         end;
           p_display_name := ProfileRoute.defaulted_display_name request |}.
Proof.
  intros Hin.
  post_shapes be request H; rewrite H in Hin; cbn [fst] in Hin;
    first [exact Hin
          | apply elem_of_take in Hin as (i & Hi & _);
            apply list_elem_of_lookup; exists i; exact Hi
          | inversion Hin].
Qed.

(** X4.  Whose profile is created.  With a session whose user id is not
    empty, every call of the run that names a user names the session's
    user, whatever [user_id] the body carries; with no session, every such
    call names the body's [user_id]. *)
Theorem POST_identity_source
    (be : ProfileRoute.backend) (request : ProfileRoute.body) :
  (forall user,
      ProfileRoute.getUser be = Some user -> uid user <> EmptyString ->
      forall c who,
        c ∈ (ProfileRoute.run (ProfileRoute.POST be request)).1 ->
        ProfileRouteRest.post_addressed_user c = Some who ->
        who = Js.JStr (uid user))
  /\ (ProfileRoute.getUser be = None ->
      forall c who,
        c ∈ (ProfileRoute.run (ProfileRoute.POST be request)).1 ->
        ProfileRouteRest.post_addressed_user c = Some who ->
        who = ProfileRoute.body_user_id request).
Proof.
  assert (Hcalls : forall c who,
             c ∈ (ProfileRoute.run (ProfileRoute.POST be request)).1 ->
             ProfileRouteRest.post_addressed_user c = Some who ->
             who = ProfileRoute.resolved_identity be request).
  { intros c who Hin Hwho.
    pose proof (POST_calls_in_sequence be request c Hin) as Hc.
    unfold ProfileRouteRest.post_sequence in Hc. cbn in Hc.
    repeat (apply elem_of_cons in Hc as [Hc|Hc];
            [subst c; cbn in Hwho; first [discriminate Hwho | congruence]|]).
    inversion Hc. }
  split.
  - intros user Huser Hne c who Hin Hwho.
    rewrite (Hcalls c who Hin Hwho).
    unfold ProfileRoute.resolved_identity, Js.or_else. rewrite Huser. cbn.
    destruct (String.eqb_spec (uid user) EmptyString); [contradiction|reflexivity].
  - intros Hnone c who Hin Hwho.
    rewrite (Hcalls c who Hin Hwho).
    unfold ProfileRoute.resolved_identity, Js.or_else. rewrite Hnone. reflexivity.
Qed.

Lemma POST_identity_source_witness :
  Js.JStr "u8" = ProfileRoute.body_user_id request_carol_for_u8.
Proof.
  refine (proj2 (POST_identity_source (backend_on [profile_bob]) request_carol_for_u8)
            _ (ProfileRoute.rpc_create_profile_for_user
                 {| p_user_id := Js.JStr "u8"; p_username := "carol";
                    p_display_name := Js.JStr "Carol" |}) (Js.JStr "u8") _ _).
  - reflexivity.
  - vm_compute. do 3 apply list_elem_of_further. apply list_elem_of_here.
  - reflexivity.
Defined.

(** X5.  When the privileged call resolves with data and without error,
    the run stops there: the insert is not attempted, and the answer is 201
    with the data of the call as [id]. *)
Theorem POST_rpc_success_skips_insert
    (be : ProfileRoute.backend) (request : ProfileRoute.body)
    (params : rpc_params) (data : Js.value) :
  ProfileRoute.rpc_create_profile_for_user params
    ∈ (ProfileRoute.run (ProfileRoute.POST be request)).1 ->
  ProfileRoute.rpc be params = RpcResolved data None ->
  Js.truthy data = true ->
  (forall row,
      ProfileRoute.insert_select_single row
        ∉ (ProfileRoute.run (ProfileRoute.POST be request)).1)
  /\ (ProfileRoute.run (ProfileRoute.POST be request)).2
     = Run.Return
         {| ProfileRoute.json :=
              ProfileRoute.created_json data (ProfileRoute.body_username request)
                (ProfileRoute.body_display_name request);
            ProfileRoute.status := 201 |}.
Proof.
  intros Hin Hans Hdata.
  assert (Hparams :
    params = {| p_user_id := ProfileRoute.resolved_identity be request;
                p_username := match ProfileRoute.body_username request with
                              | Js.JStr name => Js.toLowerCase name
                              | _ => EmptyString
                              end;
                p_display_name := ProfileRoute.defaulted_display_name request |}).
  { pose proof (POST_calls_in_sequence be request _ Hin) as Hc.
    unfold ProfileRouteRest.post_sequence in Hc. cbn in Hc.
    repeat (apply elem_of_cons in Hc as [Hc|Hc];
            [first [discriminate Hc | injection Hc as ->; reflexivity]|]).
    inversion Hc. }
  subst params.
  post_shapes be request H; rewrite H in Hin |- *; cbn [fst snd] in *.
  - inversion Hin.
  - apply list_elem_of_singleton in Hin. discriminate Hin.
  - apply list_elem_of_singleton in Hin. discriminate Hin.
  - cbn in Hin. repeat (apply elem_of_cons in Hin as [Hin|Hin]; [discriminate Hin|]).
    inversion Hin.
  - cbn in Hin. repeat (apply elem_of_cons in Hin as [Hin|Hin]; [discriminate Hin|]).
    inversion Hin.
  - rewrite Hans in Hans0. injection Hans0 as <-.
    split; [|reflexivity].
    intros row Hrow. cbn in Hrow.
    repeat (apply elem_of_cons in Hrow as [Hrow|Hrow]; [discriminate Hrow|]).
    inversion Hrow.
  - rewrite Hans in Hfail. cbn in Hfail. rewrite Hdata in Hfail. discriminate Hfail.
  - rewrite Hans in Hfail. cbn in Hfail. rewrite Hdata in Hfail. discriminate Hfail.
Qed.

Lemma POST_rpc_success_skips_insert_witness :
  (ProfileRoute.run
     (ProfileRoute.POST (sample_backend (RpcResolved (Js.JStr "p1") None) (None, None))
        request_Alice)).2
  = Run.Return
      {| ProfileRoute.json :=
           ProfileRoute.created_json (Js.JStr "p1") (Js.JStr "Alice") Js.JUndefined;
         ProfileRoute.status := 201 |}.
Proof.
  refine (proj2 (POST_rpc_success_skips_insert
                   (sample_backend (RpcResolved (Js.JStr "p1") None) (None, None))
                   request_Alice params_Alice (Js.JStr "p1") _ _ _)).
  - vm_compute. do 3 apply list_elem_of_further. apply list_elem_of_here.
  - reflexivity.
  - reflexivity.
Defined.

(** When the handler throws once the body is destructured. *)
Lemma POST_body_throws
    (be : ProfileRoute.backend) (request : ProfileRoute.body) :
  (exists e, (ProfileRoute.run (ProfileRoute.POST be request)).2 = Run.Throw e)
  <-> (Js.truthy (ProfileRoute.body_username request) = true
       /\ Js.truthy (ProfileRoute.resolved_identity be request) = true
       /\ forall s, ProfileRoute.body_username request <> Js.JStr s).
Proof.
  split.
  - intros [e He].
    destruct (POST_cases be request)
      as [Hu|[[Hu Hid]|[(Hu & Hid & Hns)|(name & Hname & Hne & Hid)]]].
    + rewrite (POST_falsy_username _ _ Hu) in He. discriminate He.
    + rewrite (POST_unauthorized _ _ Hu Hid) in He. discriminate He.
    + repeat split; assumption.
    + exfalso.
      pose proof (POST_identified be request name Hname Hne Hid) as Hrun.
      cbn zeta in Hrun. rewrite Hrun in He. clear Hrun.
      repeat match type of He with
             | context [if ?b then _ else _] => destruct b
             end; discriminate He.
  - intros (Hu & Hid & Hns).
    destruct (POST_not_a_string _ _ Hu Hid Hns) as [e He].
    exists e. rewrite He. reflexivity.
Qed.

(** X6.  When [POST] throws.  The handler, body parse included, throws in
    exactly three cases: the body is not JSON ([request.json()] rejects);
    the body is [null], which cannot be destructured; or the body can be
    read and its username passes the presence test without being a string
    (a number other than 0, [true], an array, an object) on a request with
    an identity, which is the [TypeError] of [username.toLowerCase].  In
    the first two cases no call has been made; a rejecting privileged call
    never makes the handler throw. *)
Theorem POST_throws_iff_username_not_text
    (be : ProfileRoute.backend) (answer : PostRequest.json_answer) :
  ((exists e,
       (ProfileRoute.run (PostRequest.POST_request be answer)).2 = Run.Throw e)
   <-> (PostRequest.readable answer = None
        \/ exists request,
             PostRequest.readable answer = Some request
             /\ Js.truthy (ProfileRoute.body_username request) = true
             /\ Js.truthy (ProfileRoute.resolved_identity be request) = true
             /\ forall s, ProfileRoute.body_username request <> Js.JStr s))
  /\ (PostRequest.readable answer = None ->
      (ProfileRoute.run (PostRequest.POST_request be answer)).1 = [])
  /\ (forall v, answer = PostRequest.json_parsed v ->
        PostRequest.readable answer = None <-> v = Js.JNull \/ v = Js.JUndefined).
Proof.
  unfold PostRequest.POST_request, PostRequest.readable.
  destruct answer as [v|err].
  - destruct (PostRequest.destructure v) as [err|request] eqn:Hd.
    + split; [|split].
      * split; [intros _; left; reflexivity|intros _; eexists; reflexivity].
      * intros _. reflexivity.
      * intros v' [= <-]. split; [intros _|intros _; reflexivity].
        destruct v; try discriminate Hd; [right; reflexivity|left; reflexivity].
    + split; [|split].
      * rewrite POST_body_throws. split.
        -- intros H. right. exists request. split; [reflexivity|exact H].
        -- intros [Hd'|(request' & [= <-] & H)]; [discriminate Hd'|exact H].
      * intros Hd'. discriminate Hd'.
      * intros v' [= <-]. split; [intros Hd'; discriminate Hd'|].
        intros [-> | ->]; discriminate Hd.
  - split; [|split].
    + split; [intros _; left; reflexivity|intros _; eexists; reflexivity].
    + intros _. reflexivity.
    + intros v' Hd'. discriminate Hd'.
Qed.

Lemma POST_throws_iff_username_not_text_witness :
  (exists e,
      (ProfileRoute.run
         (PostRequest.POST_request
            (sample_backend (RpcResolved (Js.JStr "p1") None) (None, None))
            body_number_name)).2 = Run.Throw e)
  /\ (exists e,
         (ProfileRoute.run
            (PostRequest.POST_request
               (sample_backend (RpcResolved (Js.JStr "p1") None) (None, None))
               (PostRequest.json_parsed Js.JNull))).2 = Run.Throw e).
Proof.
  split.
  - apply (proj2 (proj1 (POST_throws_iff_username_not_text _ _))).
    right. eexists. split; [reflexivity|].
    repeat split; intros s; discriminate.
  - apply (proj2 (proj1 (POST_throws_iff_username_not_text _ _))).
    left. reflexivity.
Defined.

(** ** Signup page *)

Section SignupMore.
Import Signup SignupOutcome.

Lemma validation_passes u :
  length_ok u -> Js.every Js.word_unit u = true ->
  ((String.length u <? 3)%nat || (20 <? String.length u)%nat) = false
  /\ negb (Js.test_word_plus u) = false.
Proof.
  unfold length_ok. intros [H3 H20] Hword. split.
  - apply orb_false_iff. split; apply Nat.ltb_ge; lia.
  - destruct u as [|c r]; [simpl in H3; lia|].
    unfold Js.test_word_plus. rewrite Hword. reflexivity.
Qed.

Lemma validation_fails u :
  ~ (length_ok u /\ Js.every Js.word_unit u = true) ->
  ((String.length u <? 3)%nat || (20 <? String.length u)%nat) = true
  \/ negb (Js.test_word_plus u) = true.
Proof.
  unfold length_ok. intros Hbad.
  destruct ((String.length u <? 3)%nat || (20 <? String.length u)%nat) eqn:Hlen;
    [left; reflexivity|right].
  apply orb_false_iff in Hlen as [H3 H20]. apply Nat.ltb_ge in H3, H20.
  destruct (Js.every Js.word_unit u) eqn:Hword; [exfalso; apply Hbad; split; [lia|reflexivity]|].
  destruct u as [|c r]; [reflexivity|].
  unfold Js.test_word_plus. rewrite Hword. reflexivity.
Qed.

End SignupMore.

Ltac signup_start Hlen Htest :=
  cbv [SignupOutcome.effects_of SignupOutcome.final_state SignupOutcome.answer_of
         Signup.handleSignup Run.bind Run.get Run.modify Run.emit Run.ret
         Run.return_ Run.throw Run.try_catch];
  rewrite ?Hlen; cbv beta iota; rewrite ?Htest; cbn.

Ltac signup_split :=
  repeat match goal with
         | |- context [bool_decide (is_Some (Signup.existing_by_username ?be ?u))] =>
             destruct (Signup.existing_by_username be u); cbn
         | |- context [Signup.authError ?a] =>
             let E := fresh "Hauth" in destruct (Signup.authError a) eqn:E; cbn
         | |- context [Signup.authData_user ?a] =>
             let E := fresh "Huser" in destruct (Signup.authData_user a) eqn:E; cbn
         | |- context [Signup.rpc ?be ?p] =>
             let E := fresh "Hrpc" in
             destruct (Signup.rpc be p) as [? [?|]|?] eqn:E; cbn
         | |- context [Js.truthy ?d] =>
             let E := fresh "Hdata" in destruct (Js.truthy d) eqn:E; cbn
         | |- context [Signup.fetch ?be ?b] =>
             let E := fresh "Hfetch" in
             destruct (Signup.fetch be b) as [?|[] [?| |?]] eqn:E; cbn
         | |- context [Signup.authData_session ?a] =>
             let E := fresh "Hsession" in destruct (Signup.authData_session a) eqn:E; cbn
         end.

(** X7.  The two tests of [handleSignup] are exact: the run has no effect
    at all when the username is not 3 to 20 units of [A-Za-z0-9_], and
    otherwise its first effect is the look-up of the lower-cased
    username. *)
Theorem handleSignup_validation_exact (be : Signup.backend) (st : Signup.state) :
  let username := Signup.st_username st in
  (Signup.length_ok username /\ Js.every Js.word_unit username = true ->
   exists rest,
     SignupOutcome.effects_of be st
     = Signup.select_username_eq_username (Js.toLowerCase username) :: rest)
  /\ (~ (Signup.length_ok username /\ Js.every Js.word_unit username = true) ->
      SignupOutcome.effects_of be st = []).
Proof.
  cbn zeta. split.
  - intros [Hok Hword].
    destruct (validation_passes _ Hok Hword) as [Hlen Htest].
    signup_start Hlen Htest. signup_split; eexists; reflexivity.
  - intros Hbad.
    destruct (validation_fails _ Hbad) as [Hlen|Htest].
    + signup_start Hlen Hlen. reflexivity.
    + destruct ((String.length (Signup.st_username st) <? 3)%nat
                || (20 <? String.length (Signup.st_username st))%nat) eqn:Hlen;
        signup_start Hlen Htest; reflexivity.
Qed.

Ltac absurd_mem H :=
  cbn in H;
  repeat (apply elem_of_cons in H as [H|H]; [discriminate H|]);
  solve [inversion H].

Ltac signup_validation st Hlen Htest :=
  destruct ((String.length (Signup.st_username st) <? 3)%nat
            || (20 <? String.length (Signup.st_username st))%nat) eqn:Hlen;
  destruct (negb (Js.test_word_plus (Signup.st_username st))) eqn:Htest.

(** X8.  A valid username that the look-up finds stops the signup there:
    the only effect is the look-up, no account is created, and the form
    shows "Username is already taken" with the loading flag off. *)
Theorem handleSignup_taken_stops (be : Signup.backend) (st : Signup.state) :
  Signup.length_ok (Signup.st_username st) ->
  Js.every Js.word_unit (Signup.st_username st) = true ->
  is_Some (Signup.existing_by_username be (Js.toLowerCase (Signup.st_username st))) ->
  Signup.handleSignup be st
  = ([Signup.select_username_eq_username (Js.toLowerCase (Signup.st_username st))],
     {| Signup.st_email := Signup.st_email st;
        Signup.st_password := Signup.st_password st;
        Signup.st_username := Signup.st_username st;
        Signup.st_error := "Username is already taken";
        Signup.st_loading := false |},
     Run.Return tt).
Proof.
  intros Hok Hword [p Hp].
  destruct (validation_passes _ Hok Hword) as [Hlen Htest].
  signup_start Hlen Htest. rewrite Hp. reflexivity.
Qed.

(** X9.  [handleSignup] redirects to the dashboard only after the account
    exists with a session and the profile was created: the sign-up
    answered without error, with a user and a session, and either the
    privileged call resolved with data or the API route answered [ok]. *)
Theorem handleSignup_redirect_means_created
    (be : Signup.backend) (st : Signup.state) :
  Signup.router_push "/dashboard" ∈ SignupOutcome.effects_of be st ->
  Signup.authError (SignupOutcome.answer_of be st) = None
  /\ Signup.authData_session (SignupOutcome.answer_of be st) = true
  /\ exists user,
       Signup.authData_user (SignupOutcome.answer_of be st) = Some user
       /\ (SignupOutcome.rpc_created (Signup.rpc be (SignupOutcome.rpcParams st user))
           || SignupOutcome.api_created (Signup.fetch be (SignupOutcome.api_body st user)))
          = true.
Proof.
  unfold SignupOutcome.rpcParams, SignupOutcome.api_body.
  signup_validation st Hlen Htest; signup_start Hlen Htest;
    [intros Hin; absurd_mem Hin..|].
  signup_split; intros Hin; try (absurd_mem Hin);
    (split; [reflexivity|split; [reflexivity|]]);
    eexists; (split; [reflexivity|]);
    rewrite ?Hrpc, ?Hfetch; cbn; rewrite ?Hdata; reflexivity.
Qed.

Lemma handleSignup_validation_exact_witness :
  exists rest,
    SignupOutcome.effects_of
      (signup_backend None (RpcResolved (Js.JStr "p1") None)
         (Signup.fetch_response true Signup.json_null) true) signup_form
    = Signup.select_username_eq_username "bob_1" :: rest.
Proof.
  apply (proj1 (handleSignup_validation_exact
                  (signup_backend None (RpcResolved (Js.JStr "p1") None)
                     (Signup.fetch_response true Signup.json_null) true)
                  signup_form)).
  split; [unfold Signup.length_ok; simpl; lia|reflexivity].
Defined.

Lemma handleSignup_taken_stops_witness :
  Signup.handleSignup
    (signup_backend (Some profile_bob) (RpcResolved (Js.JStr "p1") None)
       (Signup.fetch_response true Signup.json_null) true) signup_form
  = ([Signup.select_username_eq_username "bob_1"],
     {| Signup.st_email := "bob@example.com"; Signup.st_password := "secret1";
        Signup.st_username := "bob_1";
        Signup.st_error := "Username is already taken";
        Signup.st_loading := false |},
     Run.Return tt).
Proof.
  apply (handleSignup_taken_stops
           (signup_backend (Some profile_bob) (RpcResolved (Js.JStr "p1") None)
              (Signup.fetch_response true Signup.json_null) true) signup_form).
  - unfold Signup.length_ok. simpl. lia.
  - reflexivity.
  - eexists. reflexivity.
Defined.

Lemma handleSignup_redirect_means_created_witness :
  Signup.authData_session
    (SignupOutcome.answer_of
       (signup_backend None (RpcRejected storage_down)
          (Signup.fetch_response true Signup.json_null) true) signup_form)
  = true.
Proof.
  refine (proj1 (proj2 (handleSignup_redirect_means_created
                          (signup_backend None (RpcRejected storage_down)
                             (Signup.fetch_response true Signup.json_null) true)
                          signup_form _))).
  vm_compute. do 4 apply list_elem_of_further. apply list_elem_of_here.
Defined.

(** X10.  The loading flag of the signup form is left on exactly when the
    run redirects to the dashboard; every other way out of [handleSignup]
    turns it off.  The email, password and username of the form are never
    changed. *)
Theorem handleSignup_loading_iff_redirect
    (be : Signup.backend) (st : Signup.state) :
  (Signup.st_loading (SignupOutcome.final_state be st) = true
   <-> Signup.router_push "/dashboard" ∈ SignupOutcome.effects_of be st)
  /\ Signup.st_email (SignupOutcome.final_state be st) = Signup.st_email st
  /\ Signup.st_password (SignupOutcome.final_state be st) = Signup.st_password st
  /\ Signup.st_username (SignupOutcome.final_state be st) = Signup.st_username st.
Proof.
  signup_validation st Hlen Htest; signup_start Hlen Htest;
    [(split; [split; [intros Hd; discriminate Hd|intros Hin; absurd_mem Hin]
             |repeat split])..|].
  signup_split;
    (split; [|repeat split]);
    first [ split; [intros Hd; discriminate Hd|intros Hin; absurd_mem Hin]
          | split; [intros _|reflexivity];
            repeat first [apply list_elem_of_here | apply list_elem_of_further] ].
Qed.

(** X11.  After the account is created, the API route is the fallback of
    the privileged call and nothing more: it is called once, with the
    lower-cased username, the username as display name and the new user's
    id, when the privileged call rejected, reported an error or brought no
    data, and it is not called when that call created the profile. *)
Theorem handleSignup_api_fallback
    (be : Signup.backend) (st : Signup.state) (user : AuthUser) :
  Signup.length_ok (Signup.st_username st) ->
  Js.every Js.word_unit (Signup.st_username st) = true ->
  Signup.existing_by_username be (Js.toLowerCase (Signup.st_username st)) = None ->
  Signup.authError (SignupOutcome.answer_of be st) = None ->
  Signup.authData_user (SignupOutcome.answer_of be st) = Some user ->
  Signup.rpc_create_profile_for_user (SignupOutcome.rpcParams st user)
    ∈ SignupOutcome.effects_of be st
  /\ List.filter SignupOutcome.is_fetch (SignupOutcome.effects_of be st)
     = if SignupOutcome.rpc_created (Signup.rpc be (SignupOutcome.rpcParams st user))
       then []
       else [Signup.fetch_api_profile (SignupOutcome.api_body st user)].
Proof.
  intros Hok Hword Hfree Hauth Huser.
  destruct (validation_passes _ Hok Hword) as [Hlen Htest].
  unfold SignupOutcome.rpcParams, SignupOutcome.api_body, SignupOutcome.answer_of in *.
  signup_start Hlen Htest. rewrite Hfree. cbn. rewrite Hauth. cbn. rewrite Huser. cbn.
  signup_split; (split; [do 2 apply list_elem_of_further; apply list_elem_of_here|]);
    rewrite ?Hdata; reflexivity.
Qed.

Lemma handleSignup_api_fallback_witness :
  List.filter SignupOutcome.is_fetch
    (SignupOutcome.effects_of
       (signup_backend None (RpcRejected storage_down)
          (Signup.fetch_response true Signup.json_null) true) signup_form)
  = [Signup.fetch_api_profile
       {| Signup.post_username := "bob_1"; Signup.post_display_name := "bob_1";
          Signup.post_user_id := "u1" |}].
Proof.
  refine (proj2 (handleSignup_api_fallback
                   (signup_backend None (RpcRejected storage_down)
                      (Signup.fetch_response true Signup.json_null) true)
                   signup_form sample_user _ _ _ _ _)).
  - unfold Signup.length_ok. simpl. lia.
  - reflexivity.
  - reflexivity.
  - reflexivity.
  - reflexivity.
Defined.

(** ** Public profile card *)

Section CardMore.
Import ProfileCard CardButton.

Lemma find_unique_id (sections : list Section) (s : Section) :
  NoDup (map section_id sections) -> s ∈ sections ->
  List.find (fun x => String.eqb (section_id x) (section_id s)) sections = Some s.
Proof.
  induction sections as [|a rest IH]; intros Hnd Hin; [inversion Hin|].
  simpl in Hnd. apply NoDup_cons in Hnd as [Hfresh Hnd]. simpl.
  apply elem_of_cons in Hin as [->|Hin].
  - rewrite String.eqb_refl. reflexivity.
  - destruct (String.eqb_spec (section_id a) (section_id s)) as [Heq|_].
    + exfalso. apply Hfresh. rewrite Heq.
      apply (list_elem_of_fmap_2 section_id _ _ Hin).
    + apply IH; assumption.
Qed.

Lemma highlighted_unique_id (sections : list Section) (s : Section) :
  NoDup (map section_id sections) -> s ∈ sections ->
  List.filter highlighted (map (button_of (section_id s)) sections)
  = [button_of (section_id s) s].
Proof.
  induction sections as [|a rest IH]; intros Hnd Hin; [inversion Hin|].
  simpl in Hnd. apply NoDup_cons in Hnd as [Hfresh Hnd]. simpl.
  apply elem_of_cons in Hin as [->|Hin].
  - rewrite String.eqb_refl. f_equal.
    clear IH Hnd. induction rest as [|r rest IH]; [reflexivity|]. simpl.
    destruct (String.eqb_spec (section_id a) (section_id r)) as [Heq|_].
    + exfalso. apply Hfresh. simpl. apply elem_of_cons. left. exact Heq.
    + apply IH. intros H. apply Hfresh. simpl. apply elem_of_cons. right. exact H.
  - destruct (String.eqb_spec (section_id s) (section_id a)) as [Heq|_].
    + exfalso. apply Hfresh. rewrite <- Heq.
      apply (list_elem_of_fmap_2 section_id _ _ Hin).
    + apply IH; assumption.
Qed.

End CardMore.

(** X12.  Opened on a list that is not empty, the card shows the first
    section: with the initial [activeSection] the content region holds the
    first section, dispatched by its type, and its button is the first of
    the bar and is highlighted. *)
Theorem ProfileCard_opens_on_first_section
    (profile : Profile) (first : Section) (rest : list Section) :
  let shown :=
    ProfileCard.render profile (first :: rest)
      (ProfileCard.initial_activeSection (first :: rest)) in
  ProfileCard.section_content shown = Some (ProfileCard.renderSection first)
  /\ exists buttons,
       ProfileCard.navigation shown
       = Some (CardButton.button_of (section_id first) first :: buttons)
       /\ ProfileCard.highlighted (CardButton.button_of (section_id first) first) = true
       /\ length buttons = length rest.
Proof.
  cbn zeta.
  unfold ProfileCard.render, ProfileCard.initial_activeSection, CardButton.button_of.
  cbn. rewrite !String.eqb_refl. split; [reflexivity|].
  eexists. split; [reflexivity|]. split; [reflexivity|apply length_map].
Qed.

(** X13.  When the section ids are pairwise distinct, a click on the button
    of a section shows that section and highlights its button alone. *)
Theorem ProfileCard_click_shows_that_section
    (profile : Profile) (sections : list Section) (before : string) (s : Section) :
  NoDup (map section_id sections) ->
  s ∈ sections ->
  let clicked := CardButton.click (CardButton.button_of before s) in
  let shown := ProfileCard.render profile sections clicked in
  ProfileCard.section_content shown = Some (ProfileCard.renderSection s)
  /\ exists buttons,
       ProfileCard.navigation shown = Some buttons
       /\ List.filter ProfileCard.highlighted buttons
          = [CardButton.button_of (section_id s) s].
Proof.
  intros Hnd Hin. cbn zeta. unfold CardButton.click. cbn [CardButton.button_of ProfileCard.onClick].
  unfold ProfileCard.render. cbn.
  destruct sections as [|a rest]; [inversion Hin|].
  cbn [length Nat.ltb Nat.leb].
  rewrite (find_unique_id _ _ Hnd Hin). split; [reflexivity|].
  eexists. split; [reflexivity|].
  apply (highlighted_unique_id _ _ Hnd Hin).
Qed.

Lemma ProfileCard_click_shows_that_section_witness :
  ProfileCard.section_content
    (ProfileCard.render sample_profile [hidden_section]
       (CardButton.click (CardButton.button_of "" hidden_section)))
  = Some (ProfileCard.renderSection hidden_section).
Proof.
  refine (proj1 (ProfileCard_click_shows_that_section sample_profile
                   [hidden_section] "" hidden_section _ _)).
  - simpl. apply NoDup_cons. split; [apply not_elem_of_nil|apply NoDup_nil_2].
  - apply list_elem_of_here.
Defined.

(** X14.  The edges of the card.  An empty list gives the "No sections
    yet" notice and neither bar nor content; a list that is not empty gives
    the bar and no notice.  An [activeSection] that is the id of no section
    leaves the content region out while the bar stays; a selected section
    of a type other than [text_list], [links] and [gallery] gives an empty
    content region. *)
Theorem ProfileCard_edges
    (profile : Profile) (sections : list Section) (activeSection : string) :
  let shown := ProfileCard.render profile sections activeSection in
  (sections = [] ->
   ProfileCard.empty_notice shown = true
   /\ ProfileCard.navigation shown = None
   /\ ProfileCard.section_content shown = None)
  /\ (sections <> [] ->
      ProfileCard.empty_notice shown = false
      /\ is_Some (ProfileCard.navigation shown))
  /\ (activeSection ∉ map section_id sections ->
      ProfileCard.section_content shown = None)
  /\ (forall s,
        List.find (fun x => String.eqb (section_id x) activeSection) sections = Some s ->
        type s <> "text_list" -> type s <> "links" -> type s <> "gallery" ->
        ProfileCard.section_content shown = Some None).
Proof.
  cbn zeta. unfold ProfileCard.render. cbn. split; [|split; [|split]].
  - intros ->. repeat split.
  - intros Hne. destruct sections as [|a rest]; [contradiction|].
    cbn [length Nat.ltb Nat.leb Nat.eqb]. split; [reflexivity|eexists; reflexivity].
  - intros Hnot. destruct sections as [|a rest]; [reflexivity|].
    cbn [length Nat.ltb Nat.leb].
    destruct (List.find _ (a :: rest)) as [s|] eqn:Hfind; [|reflexivity].
    exfalso. apply Hnot. apply find_some in Hfind as [Hin Heq].
    apply String.eqb_eq in Heq. rewrite <- Heq.
    apply (list_elem_of_fmap_2 section_id). apply list_elem_of_In. exact Hin.
  - intros s Hfind H1 H2 H3. destruct sections as [|a rest]; [discriminate Hfind|].
    cbn [length Nat.ltb Nat.leb]. rewrite Hfind. cbn. unfold ProfileCard.renderSection.
    destruct (String.eqb_spec (type s) "text_list"); [contradiction|].
    destruct (String.eqb_spec (type s) "links"); [contradiction|].
    destruct (String.eqb_spec (type s) "gallery"); [contradiction|].
    reflexivity.
Qed.

Lemma ProfileCard_edges_witness :
  ProfileCard.section_content
    (ProfileCard.render sample_profile [hidden_section] "gone") = None.
Proof.
  refine (proj1 (proj2 (proj2 (ProfileCard_edges sample_profile [hidden_section] "gone"))) _).
  simpl. intros H. apply list_elem_of_singleton in H. discriminate H.
Defined.

(** ** Backend client accessor *)

(** X15.  A failed call does not poison the accessor, and the first
    configuration that works is kept for good.  In a process whose first
    calls all fail, because the URL or the key is missing or because
    [createClient] refuses them, each of those calls throws its error and
    keeps nothing; the first call whose values are present and accepted
    constructs the client from them; and every later call returns that same
    client, whatever the environment has become. *)
Theorem getSupabaseClient_first_complete_env_wins
    (rejects : Supabase.library) (before after : list Supabase.env)
    (e : Supabase.env) (url key : string) :
  Forall (fun e0 => is_Some (Supabase.refusal rejects e0)) before ->
  Supabase.NEXT_PUBLIC_SUPABASE_URL e = Some url -> url <> EmptyString ->
  Supabase.NEXT_PUBLIC_SUPABASE_ANON_KEY e = Some key -> key <> EmptyString ->
  rejects url key = None ->
  let client := {| Supabase.handle := 0; Supabase.supabaseUrl_of := url;
                   Supabase.supabaseKey_of := key |} in
  Supabase.calls rejects (before ++ e :: after) Supabase.fresh
  = (map (fun e0 => Supabase.Thrown (default EmptyString (Supabase.refusal rejects e0)))
       before
       ++ Supabase.Returned client :: map (fun _ => Supabase.Returned client) after,
     {| Supabase.supabaseClient := Some client; Supabase.constructed := 1 |}).
Proof.
  intros Hbefore Hurl Hu Hkey Hk Hok client.
  assert (Hafter : forall m,
             Supabase.supabaseClient m = Some client ->
             Supabase.calls rejects after m
             = (map (fun _ => Supabase.Returned client) after, m)).
  { induction after as [|a rest IH]; intros m Hm; [reflexivity|].
    simpl. unfold Supabase.getSupabaseClient. rewrite Hm, (IH m Hm). reflexivity. }
  induction Hbefore as [|e0 rest [msg Hmsg] _ IH]; simpl.
  - unfold Supabase.getSupabaseClient, Supabase.createClient. simpl.
    rewrite Hurl, Hkey. simpl.
    destruct (String.eqb_spec url EmptyString); [contradiction|].
    destruct (String.eqb_spec key EmptyString); [contradiction|].
    simpl. rewrite Hok. rewrite Hafter by reflexivity. reflexivity.
  - assert (Hcall : Supabase.getSupabaseClient rejects e0 Supabase.fresh
                    = (Supabase.Thrown msg, Supabase.fresh)).
    { unfold Supabase.refusal in Hmsg.
      unfold Supabase.getSupabaseClient, Supabase.createClient. simpl.
      destruct (Supabase.missing _ || Supabase.missing _).
      - injection Hmsg as <-. reflexivity.
      - rewrite Hmsg. reflexivity. }
    rewrite Hcall, IH, Hmsg. reflexivity.
Qed.

Lemma getSupabaseClient_first_complete_env_wins_witness :
  Supabase.calls accepts_http
    ([{| Supabase.NEXT_PUBLIC_SUPABASE_URL := None;
         Supabase.NEXT_PUBLIC_SUPABASE_ANON_KEY := Some "anon" |};
      {| Supabase.NEXT_PUBLIC_SUPABASE_URL := Some "db";
         Supabase.NEXT_PUBLIC_SUPABASE_ANON_KEY := Some "anon" |}]
     ++ {| Supabase.NEXT_PUBLIC_SUPABASE_URL := Some "https://db.example";
           Supabase.NEXT_PUBLIC_SUPABASE_ANON_KEY := Some "anon" |}
     :: [{| Supabase.NEXT_PUBLIC_SUPABASE_URL := None;
            Supabase.NEXT_PUBLIC_SUPABASE_ANON_KEY := None |}])
    Supabase.fresh
  = ([Supabase.Thrown "Missing Supabase environment variables";
      Supabase.Thrown "Invalid supabaseUrl: Must be a valid HTTP or HTTPS URL.";
      Supabase.Returned {| Supabase.handle := 0;
                           Supabase.supabaseUrl_of := "https://db.example";
                           Supabase.supabaseKey_of := "anon" |};
      Supabase.Returned {| Supabase.handle := 0;
                           Supabase.supabaseUrl_of := "https://db.example";
                           Supabase.supabaseKey_of := "anon" |}],
     {| Supabase.supabaseClient :=
          Some {| Supabase.handle := 0;
                  Supabase.supabaseUrl_of := "https://db.example";
                  Supabase.supabaseKey_of := "anon" |};
        Supabase.constructed := 1 |}).
Proof.
  apply (getSupabaseClient_first_complete_env_wins accepts_http
           [{| Supabase.NEXT_PUBLIC_SUPABASE_URL := None;
               Supabase.NEXT_PUBLIC_SUPABASE_ANON_KEY := Some "anon" |};
            {| Supabase.NEXT_PUBLIC_SUPABASE_URL := Some "db";
               Supabase.NEXT_PUBLIC_SUPABASE_ANON_KEY := Some "anon" |}]
           [{| Supabase.NEXT_PUBLIC_SUPABASE_URL := None;
               Supabase.NEXT_PUBLIC_SUPABASE_ANON_KEY := None |}]
           _ "https://db.example" "anon").
  - repeat constructor; eexists; reflexivity.
  - reflexivity.
  - discriminate.
  - reflexivity.
  - discriminate.
  - reflexivity.
Defined.

(** ** Dashboard, [text_list] editor *)

Section TextListMore.
Import TextListEditor.

Lemma split_nonempty sep s : Js.split sep s <> [].
Proof.
  destruct s as [|c r]; simpl; [discriminate|].
  destruct (Ascii.eqb c sep); [discriminate|].
  destruct (Js.split sep r); discriminate.
Qed.

(** Splitting at a separator splits the two sides on their own. *)
Lemma split_app sep s t :
  Js.split sep (s +:+ String sep t) = Js.split sep s ++ Js.split sep t.
Proof.
  induction s as [|c r IH]; simpl.
  - rewrite Ascii.eqb_refl. reflexivity.
  - destruct (Ascii.eqb c sep); [rewrite IH; reflexivity|].
    rewrite IH. pose proof (split_nonempty sep r) as Hne.
    destruct (Js.split sep r); [contradiction|reflexivity].
Qed.

Lemma split_pieces_free sep s :
  Forall (fun w => Js.every (fun c => negb (Ascii.eqb c sep)) w = true)
    (Js.split sep s).
Proof.
  induction s as [|c r IH]; simpl; [repeat constructor|].
  destruct (Ascii.eqb c sep) eqn:Hc; [constructor; [reflexivity|exact IH]|].
  destruct (Js.split sep r) as [|w ws]; [repeat constructor; simpl; rewrite Hc; reflexivity|].
  apply Forall_cons in IH as [Hw Hws].
  constructor; [simpl; rewrite Hc, Hw; reflexivity|exact Hws].
Qed.

(** Joining lines that hold no line break and splitting again gives the
    lines back, the empty list coming back as one empty line. *)
Lemma split_join (lines : list string) :
  Forall (fun s => has_newline s = false) lines ->
  Js.split LF (Js.join newline lines)
  = match lines with [] => [EmptyString] | _ => lines end.
Proof.
  induction lines as [|s rest IH]; intros H; [reflexivity|].
  apply Forall_cons in H as [Hs Hrest]. apply negb_false_iff in Hs.
  destruct rest as [|s' rest'].
  - simpl. apply split_no_sep, Hs.
  - change (Js.join newline (s :: s' :: rest'))
      with (s +:+ String LF (Js.join newline (s' :: rest'))).
    rewrite split_app, (split_no_sep _ _ Hs), (IH Hrest). reflexivity.
Qed.

Lemma filter_keep_clean (lines : list string) :
  Forall (fun s => blank s = false) lines ->
  List.filter keep_line lines = lines.
Proof.
  induction 1 as [|s rest Hs _ IH]; [reflexivity|].
  simpl. rewrite keep_line_not_blank, Hs. simpl. rewrite IH. reflexivity.
Qed.

Lemma onChange_clean text :
  Forall (fun s => blank s = false /\ has_newline s = false) (onChange text).
Proof.
  unfold onChange. apply Forall_forall. intros s Hin.
  apply list_elem_of_In, filter_In in Hin as [Hin Hkeep].
  rewrite keep_line_not_blank in Hkeep. apply negb_true_iff in Hkeep.
  split; [exact Hkeep|].
  pose proof (split_pieces_free LF text) as Hfree.
  rewrite Forall_forall in Hfree. unfold has_newline.
  rewrite (Hfree s); [reflexivity|]. apply list_elem_of_In. exact Hin.
Qed.

Lemma roundtrip_of_clean (lines : list string) :
  Forall (fun s => blank s = false /\ has_newline s = false) lines ->
  roundtrip lines = lines.
Proof.
  intros H. unfold roundtrip, onChange, textarea_value.
  rewrite split_join by (eapply Forall_impl; [exact H|]; intros ? [_ ?]; assumption).
  destruct lines as [|s rest]; [reflexivity|].
  apply filter_keep_clean. eapply Forall_impl; [exact H|]. intros ? [? _]. assumption.
Qed.

End TextListMore.

(** X16.  Whatever is typed in the textarea, the items kept by its
    [onChange] are free of blank entries and of line breaks, so the
    textarea rendered from them gives the same items when it is read
    again: editing and re-rendering is stable after one step. *)
Theorem text_list_onChange_stable (text : string) :
  Forall (fun s => TextListEditor.blank s = false
                   /\ TextListEditor.has_newline s = false)
    (TextListEditor.onChange text)
  /\ TextListEditor.onChange
       (TextListEditor.textarea_value (TextListEditor.onChange text))
     = TextListEditor.onChange text.
Proof.
  split; [apply onChange_clean|].
  apply (roundtrip_of_clean _ (onChange_clean text)).
Qed.

(** X17.  A line break typed at the end of the textarea is lost: it does
    not change the items, and for items without blank entries or line
    breaks the textarea rendered after the keystroke is the one rendered
    before it. *)
Theorem text_list_trailing_newline_is_dropped :
  (forall text : string,
      TextListEditor.onChange (text +:+ newline) = TextListEditor.onChange text)
  /\ (forall items : list string,
         Forall (fun s => TextListEditor.blank s = false
                          /\ TextListEditor.has_newline s = false) items ->
         TextListEditor.textarea_value
           (TextListEditor.onChange (TextListEditor.textarea_value items +:+ newline))
         = TextListEditor.textarea_value items).
Proof.
  assert (Hdrop : forall text : string,
             TextListEditor.onChange (text +:+ newline) = TextListEditor.onChange text).
  { intros text. unfold TextListEditor.onChange, newline.
    rewrite split_app, List.filter_app. simpl. apply app_nil_r. }
  split; [exact Hdrop|].
  intros items Hclean. rewrite Hdrop.
  change (TextListEditor.onChange (TextListEditor.textarea_value items))
    with (TextListEditor.roundtrip items).
  rewrite (roundtrip_of_clean _ Hclean). reflexivity.
Qed.

Lemma text_list_trailing_newline_is_dropped_witness :
  TextListEditor.textarea_value
    (TextListEditor.onChange
       (TextListEditor.textarea_value ["First item"; "Second item"] +:+ newline))
  = TextListEditor.textarea_value ["First item"; "Second item"].
Proof.
  apply (proj2 text_list_trailing_newline_is_dropped ["First item"; "Second item"]).
  repeat constructor.
Defined.

(** ** Dashboard page, [loadProfile] and the handlers that call it *)

Section ReloadFacts.
Import Dashboard Reload.

Ltac step_load :=
  cbv [loadProfile saveSection uploadAvatar perform Run.await Run.bind Run.emit
         Run.get Run.ret Run.return_ Run.throw Run.modify Run.try_catch
         Run.try_finally]; cbn.

Ltac load_cases be :=
  unfold expected_effects, profile_missing;
  destruct (getUser be) as [user|]; cbn;
  [destruct (select_profile be (uid user)) as [[pd|] [err|]]; cbn;
   try (destruct (String.eqb (pg_code err) "PGRST116"); cbn;
        try (destruct (fetch be _ _) as [e|[] [res|]]; cbn));
   try (destruct (select_sections be (id pd)) as [sd|]; cbn)
  |].

(** [loadProfile] ends normally, makes the effects of its branches, and
    leaves the flags it has no setter call for as they were. *)
Lemma loadProfile_summary be s :
  exists trace s' r,
    loadProfile be s = (trace, s', r)
    /\ (r = Run.Next tt \/ r = Run.Return tt)
    /\ effects trace = expected_effects be
    /\ flags s' = flags s
    /\ (is_Some (getUser be) -> loading s' = false)
    /\ (getUser be = None -> s' = s).
Proof.
  step_load. load_cases be;
    do 3 eexists; (split; [reflexivity|]);
    (split; [auto|]); (split; [reflexivity|]); (split; [reflexivity|]);
    (split; [intros [? Hd]; first [reflexivity | discriminate Hd]
            |intros Hd; first [discriminate Hd | reflexivity]]).
Qed.

Lemma edits_of_snoc (l : list Section) (x : Section) :
  edits_of (l ++ [x]) = <[section_id x := draft_of x]> (edits_of l).
Proof. unfold edits_of. rewrite foldl_snoc. reflexivity. Qed.

Lemma edits_of_last (sd : list Section) (i : string) :
  edits_of sd !! i
  = draft_of <$> last (List.filter (fun s => String.eqb (section_id s) i) sd).
Proof.
  induction sd as [|x l IH] using rev_ind; [apply lookup_empty|].
  rewrite edits_of_snoc, List.filter_app. simpl.
  destruct (String.eqb_spec (section_id x) i) as [->|Hne].
  - rewrite lookup_insert_eq, last_snoc. reflexivity.
  - rewrite lookup_insert_ne by exact Hne. rewrite app_nil_r. exact IH.
Qed.

Lemma filter_unique_section (sd : list Section) (s : Section) :
  NoDup (map section_id sd) -> s ∈ sd ->
  List.filter (fun x => String.eqb (section_id x) (section_id s)) sd = [s].
Proof.
  induction sd as [|a rest IH]; intros Hnd Hin; [inversion Hin|].
  simpl in Hnd. apply NoDup_cons in Hnd as [Hfresh Hnd].
  apply elem_of_cons in Hin as [->|Hin]; simpl.
  - rewrite String.eqb_refl. f_equal.
    clear IH Hnd. induction rest as [|r rest IH]; [reflexivity|]. simpl.
    destruct (String.eqb_spec (section_id r) (section_id a)) as [Heq|_].
    + exfalso. apply Hfresh. simpl. apply elem_of_cons. left. congruence.
    + apply IH. intros H. apply Hfresh. simpl. apply elem_of_cons. right. exact H.
  - destruct (String.eqb_spec (section_id a) (section_id s)) as [Heq|_].
    + exfalso. apply Hfresh. rewrite Heq.
      apply (list_elem_of_fmap_2 section_id _ _ Hin).
    + apply IH; assumption.
Qed.

End ReloadFacts.

(** X18.  The drafts [loadProfile] builds from the loaded sections.  The
    draft kept under an id is the one of the last section with that id, and
    there is none for an id of no section; so with pairwise distinct ids
    every section has its own draft, holding its title, its content with
    the array of its type defaulted to empty, and its visibility defaulted
    to [true]. *)
Theorem edits_of_lookup (sectionsData : list Section) :
  (forall i,
      Dashboard.edits_of sectionsData !! i
      = Reload.draft_of
          <$> last (List.filter (fun s => String.eqb (section_id s) i) sectionsData))
  /\ (forall i, i ∉ map section_id sectionsData ->
                Dashboard.edits_of sectionsData !! i = None)
  /\ (NoDup (map section_id sectionsData) ->
      forall s, s ∈ sectionsData ->
                Dashboard.edits_of sectionsData !! section_id s
                = Some (Reload.draft_of s)).
Proof.
  split; [apply edits_of_last|]. split.
  - intros i Hnot. rewrite edits_of_last.
    destruct (List.filter _ sectionsData) as [|a rest] eqn:Hf; [reflexivity|].
    exfalso. apply Hnot.
    assert (Ha : In a (List.filter (fun s => String.eqb (section_id s) i) sectionsData))
      by (rewrite Hf; left; reflexivity).
    apply filter_In in Ha as [Hin Heq]. apply String.eqb_eq in Heq. subst i.
    apply (list_elem_of_fmap_2 section_id). apply list_elem_of_In. exact Hin.
  - intros Hnd s Hin.
    rewrite edits_of_last, (filter_unique_section _ _ Hnd Hin). reflexivity.
Qed.

Lemma edits_of_lookup_witness :
  Dashboard.edits_of [hidden_section] !! "s1" = Some (Reload.draft_of hidden_section).
Proof.
  refine (proj2 (proj2 (edits_of_lookup [hidden_section])) _ hidden_section _).
  - simpl. apply NoDup_cons. split; [apply not_elem_of_nil|apply NoDup_nil_2].
  - apply list_elem_of_here.
Defined.

(** X19.  A successful save of one section reloads every draft.  When the
    update succeeds and the reload finds the user, the profile and the
    sections, the drafts after [saveSection] are exactly those built from
    the loaded sections: the drafts of the other sections are replaced
    too, whatever unsaved edits they held. *)
Theorem saveSection_success_rebuilds_all_drafts
    (be : Dashboard.backend) (id0 : string) (st : Dashboard.state)
    (edits : Dashboard.draft) (user : AuthUser) (profileData : Profile)
    (sectionsData : list Section) :
  Dashboard.sectionEdits st !! id0 = Some edits ->
  Dashboard.update_section be
    {| Dashboard.patch_title := Dashboard.draft_title edits;
       Dashboard.patch_content := Dashboard.draft_content edits;
       Dashboard.patch_visible := Dashboard.draft_visible edits;
       Dashboard.patch_updated_at := Dashboard.now_ISO be |} id0 = None ->
  Dashboard.getUser be = Some user ->
  Dashboard.select_profile be (uid user) = (Some profileData, None) ->
  Dashboard.select_sections be (id profileData) = Some sectionsData ->
  let st' := (Dashboard.saveSection be id0 st).1.2 in
  Dashboard.sectionEdits st' = Dashboard.edits_of sectionsData
  /\ Dashboard.sections st' = sectionsData
  /\ Dashboard.profile st' = Some profileData
  /\ Dashboard.savingSectionId st' = None
  /\ Dashboard.effects (Dashboard.saveSection be id0 st).1.1
     = [Dashboard.sections_update_eq_id
          {| Dashboard.patch_title := Dashboard.draft_title edits;
             Dashboard.patch_content := Dashboard.draft_content edits;
             Dashboard.patch_visible := Dashboard.draft_visible edits;
             Dashboard.patch_updated_at := Dashboard.now_ISO be |} id0;
        Dashboard.auth_getUser;
        Dashboard.profiles_select_eq_user_id (uid user);
        Dashboard.sections_select_eq_profile_id (id profileData)].
Proof.
  intros Hdraft Hupd Huser Hprofile Hsections. cbn zeta.
  cbv [Dashboard.saveSection Dashboard.loadProfile Dashboard.perform Run.await
         Run.bind Run.get Run.modify Run.emit Run.ret Run.return_ Run.try_catch
         Run.throw].
  rewrite Hdraft, Hupd, Huser, Hprofile, Hsections. cbn.
  repeat split.
Qed.

Lemma saveSection_success_rebuilds_all_drafts_witness :
  Dashboard.sectionEdits (Dashboard.saveSection reloading_backend "s1" sample_state).1.2
  = Dashboard.edits_of [hidden_section].
Proof.
  refine (proj1 (saveSection_success_rebuilds_all_drafts reloading_backend "s1"
                   sample_state sample_draft sample_user sample_profile
                   [hidden_section] _ _ _ _ _)); reflexivity.
Defined.

(** X20.  [loadProfile] and the session.  Without a user the run is the
    session call and the redirect to [/login], and the state is untouched,
    the loading flag included; with a user the loading flag is off at the
    end.  The profile is created through the API route exactly when the
    profile query fails with the code [PGRST116], under the username
    [user_] followed by the first 8 units of the user id. *)
Theorem loadProfile_session_and_fallback
    (be : Dashboard.backend) (st : Dashboard.state) :
  (Dashboard.getUser be = None ->
   Dashboard.loadProfile be st
   = ([(Dashboard.auth_getUser, st); (Dashboard.router_push "/login", st)],
      st, Run.Return tt))
  /\ (is_Some (Dashboard.getUser be) ->
      Dashboard.loading (Dashboard.loadProfile be st).1.2 = false)
  /\ (forall username display_name,
        Dashboard.fetch_api_profile username display_name
          ∈ Dashboard.effects (Dashboard.loadProfile be st).1.1
        <-> exists user,
              Dashboard.getUser be = Some user
              /\ Reload.profile_missing be user = true
              /\ username = "user_" +:+ Js.slice0 8 (uid user)
              /\ display_name = Dashboard.email_name user).
Proof.
  split; [|split].
  - intros Hnone.
    cbv [Dashboard.loadProfile Dashboard.perform Run.bind Run.get Run.emit
           Run.return_].
    rewrite Hnone. reflexivity.
  - intros Hsome.
    destruct (loadProfile_summary be st) as (t & s' & r & Hrun & _ & _ & _ & Hl & _).
    rewrite Hrun. apply Hl, Hsome.
  - intros username display_name.
    destruct (loadProfile_summary be st) as (t & s' & r & Hrun & _ & Heff & _).
    rewrite Hrun. cbn [fst snd]. rewrite Heff. unfold Reload.expected_effects.
    destruct (Dashboard.getUser be) as [user|].
    + split.
      * intros Hin. exists user.
        apply elem_of_cons in Hin as [Hin|Hin]; [discriminate Hin|].
        apply elem_of_cons in Hin as [Hin|Hin]; [discriminate Hin|].
        apply elem_of_app in Hin as [Hin|Hin].
        -- destruct (Reload.profile_missing be user); [|inversion Hin].
           apply list_elem_of_singleton in Hin. injection Hin as -> ->.
           repeat split.
        -- destruct (Dashboard.select_profile be (uid user)).1; [|inversion Hin].
           apply list_elem_of_singleton in Hin. discriminate Hin.
      * intros (user' & [= <-] & Hmiss & -> & ->).
        rewrite Hmiss. do 2 apply list_elem_of_further.
        apply elem_of_app. left. apply list_elem_of_here.
    + split.
      * intros Hin. absurd_mem Hin.
      * intros (user' & Hd & _). discriminate Hd.
Qed.

Lemma loadProfile_session_and_fallback_witness :
  Dashboard.loading (Dashboard.loadProfile failing_backend sample_state).1.2 = false.
Proof.
  apply (proj1 (proj2 (loadProfile_session_and_fallback failing_backend sample_state))).
  eexists. reflexivity.
Defined.

(** X21.  With a profile loaded, [uploadAvatar] never throws and always
    ends with the uploading flag off, whatever the storage, the profile
    update and the reload answer; its first effect is the upload to
    [avatars/<profile id>-avatar.<extension>] in the bucket [Profiles],
    with overwrite. *)
Theorem uploadAvatar_always_settles
    (be : Dashboard.backend) (file : Dashboard.File) (st : Dashboard.state)
    (p : Profile) :
  Dashboard.profile st = Some p ->
  exists rest st',
    Dashboard.uploadAvatar be file st
    = ((Dashboard.storage_upload "Profiles"
          ("avatars/" +:+ (id p +:+ "-avatar." +:+ Dashboard.extension file))
          file true,
        Dashboard.setUploadingAvatar true st) :: rest,
       st', Run.Next tt)
    /\ Dashboard.uploadingAvatar st' = false.
Proof.
  intros Hprofile.
  cbv [Dashboard.uploadAvatar Dashboard.perform Run.bind Run.get Run.modify
         Run.emit Run.ret Run.return_ Run.throw Run.try_catch Run.try_finally
         Run.await].
  rewrite Hprofile.
  destruct (Dashboard.upload be _ _ file) as [e|[e|]].
  - do 2 eexists. split; reflexivity.
  - do 2 eexists. split; reflexivity.
  - match goal with
    | |- context [Dashboard.loadProfile be ?s] =>
        destruct (loadProfile_summary be s)
          as (t & s' & r & Hrun & Hend & _ & Hflags & _)
    end.
    rewrite Hrun.
    destruct Hend as [-> | ->]; do 2 eexists; (split; [reflexivity|reflexivity]).
Qed.

Lemma uploadAvatar_always_settles_witness :
  exists rest st',
    Dashboard.uploadAvatar reloading_backend
      {| Dashboard.name := "portrait"; Dashboard.size := 10; Dashboard.mime := "image/png" |}
      sample_state
    = ((Dashboard.storage_upload "Profiles" "avatars/p1-avatar.portrait"
          {| Dashboard.name := "portrait"; Dashboard.size := 10;
             Dashboard.mime := "image/png" |} true,
        Dashboard.setUploadingAvatar true sample_state) :: rest,
       st', Run.Next tt)
    /\ Dashboard.uploadingAvatar st' = false.
Proof.
  apply (uploadAvatar_always_settles reloading_backend
           {| Dashboard.name := "portrait"; Dashboard.size := 10;
              Dashboard.mime := "image/png" |} sample_state sample_profile).
  reflexivity.
Defined.

(** X22.  When the upload succeeds, [uploadAvatar] writes the public URL of
    the uploaded path, with the current timestamp, on the profile row and
    then reloads.  Nothing is reported to the user on this path: no alert
    is raised, whatever the profile update answers, since its answer is not
    read.  The avatar URL of the state at the end is the one the reload
    found on the profile row when it found the row, and the new public URL
    otherwise. *)
Theorem uploadAvatar_success_persists_public_url
    (be : Dashboard.backend) (file : Dashboard.File) (st : Dashboard.state)
    (p : Profile) :
  Dashboard.profile st = Some p ->
  let path := "avatars/" +:+ (id p +:+ "-avatar." +:+ Dashboard.extension file) in
  let newUrl := Dashboard.getPublicUrl be "Profiles" path in
  Dashboard.upload be "Profiles" path file = Dashboard.upload_resolved None ->
  let run := Dashboard.uploadAvatar be file st in
  Dashboard.effects run.1.1
  = Dashboard.storage_upload "Profiles" path file true
      :: Dashboard.profiles_update_eq_id
           {| Dashboard.patch_avatar_url := newUrl;
              Dashboard.avatar_updated_at := Dashboard.now_ISO be |} (id p)
      :: Reload.expected_effects be
  /\ List.filter Reload.is_alert (Dashboard.effects run.1.1) = []
  /\ Dashboard.avatarUrl run.1.2
     = match Dashboard.getUser be with
       | Some user =>
           match (Dashboard.select_profile be (uid user)).1 with
           | Some profileData => Dashboard.or_empty (avatar_url profileData)
           | None => newUrl
           end
       | None => newUrl
       end.
Proof.
  intros Hprofile path newUrl Hupload run. subst path newUrl run.
  cbv [Dashboard.uploadAvatar Dashboard.loadProfile Dashboard.perform Run.bind
         Run.get Run.modify Run.emit Run.ret Run.return_ Run.throw Run.try_catch
         Run.try_finally Run.await].
  rewrite Hprofile, Hupload. cbn.
  unfold Reload.expected_effects, Reload.profile_missing.
  destruct (Dashboard.getUser be) as [user|]; cbn; [|repeat split].
  destruct (Dashboard.select_profile be (uid user)) as [[pd|] [err|]]; cbn;
    try (destruct (String.eqb (pg_code err) "PGRST116"); cbn;
         try (destruct (Dashboard.fetch be _ _) as [e|[] [res|]]; cbn));
    try (destruct (Dashboard.select_sections be (id pd)) as [sd|]; cbn);
    repeat split.
Qed.

Lemma uploadAvatar_success_persists_public_url_witness :
  List.filter Reload.is_alert
    (Dashboard.effects
       (Dashboard.uploadAvatar reloading_backend
          {| Dashboard.name := "me.png"; Dashboard.size := 10;
             Dashboard.mime := "image/png" |} sample_state).1.1) = [].
Proof.
  refine (proj1 (proj2 (uploadAvatar_success_persists_public_url reloading_backend
                          {| Dashboard.name := "me.png"; Dashboard.size := 10;
                             Dashboard.mime := "image/png" |}
                          sample_state sample_profile _ _))); reflexivity.
Defined.

(** ** Dashboard page, the section editors *)

Section EditorFacts.
Import Dashboard SectionEditor.

Lemma updateSectionEdit_lookup id updater st :
  sectionEdits (updateSectionEdit id updater st) !! id
  = Some (updater (default empty_draft (sectionEdits st !! id))).
Proof. unfold updateSectionEdit. cbn. apply lookup_insert_eq. Qed.

Lemma updateSectionEdit_other id updater st j :
  j <> id ->
  sectionEdits (updateSectionEdit id updater st) !! j = sectionEdits st !! j.
Proof. intros Hne. unfold updateSectionEdit. cbn. apply lookup_insert_ne. congruence. Qed.

Lemma shown_links_set id l st :
  shown_links (updateSectionEdit id (with_links l) st) id = l.
Proof. unfold shown_links. rewrite updateSectionEdit_lookup. reflexivity. Qed.

Lemma shown_images_set id l st :
  shown_images (updateSectionEdit id (with_images l) st) id = l.
Proof. unfold shown_images. rewrite updateSectionEdit_lookup. reflexivity. Qed.

End EditorFacts.

(** X23.  An edit followed by a save writes the edit.  After
    [updateSectionEdit] on an id, [saveSection] of that id never takes its
    early return: it issues the update of that row with the updated draft,
    built from the empty draft when the id had none.  For the [text_list]
    textarea the updated draft holds the lines typed without the blank
    ones, and the textarea rendered next is their join. *)
Theorem saveSection_after_edit_writes_it
    (be : Dashboard.backend) (id0 : string)
    (updater : Dashboard.draft -> Dashboard.draft) (st : Dashboard.state) :
  let edited := SectionEditor.updateSectionEdit id0 updater st in
  let d := updater (default SectionEditor.empty_draft (Dashboard.sectionEdits st !! id0)) in
  (exists rest st',
      Dashboard.saveSection be id0 edited
      = ((Dashboard.sections_update_eq_id
            {| Dashboard.patch_title := Dashboard.draft_title d;
               Dashboard.patch_content := Dashboard.draft_content d;
               Dashboard.patch_visible := Dashboard.draft_visible d;
               Dashboard.patch_updated_at := Dashboard.now_ISO be |} id0,
          Dashboard.setSavingSectionId (Some id0) edited) :: rest,
         st', Run.Next tt))
  /\ (forall text,
        let typed := SectionEditor.onItemsChange id0 text st in
        SectionEditor.shown_items typed id0 = TextListEditor.onChange text
        /\ Forall (fun s => TextListEditor.blank s = false)
             (SectionEditor.shown_items typed id0)
        /\ SectionEditor.textarea typed id0
           = TextListEditor.textarea_value (TextListEditor.onChange text)).
Proof.
  cbn zeta. split.
  - cbv [Dashboard.saveSection Dashboard.perform Run.bind Run.get Run.modify
           Run.emit Run.ret Run.return_ Run.await].
    rewrite updateSectionEdit_lookup.
    destruct (Dashboard.update_section be _ id0) as [error|].
    + do 2 eexists. reflexivity.
    + match goal with
      | |- context [Dashboard.loadProfile be ?s] =>
          destruct (loadProfile_summary be s) as (t & s' & r & Hrun & Hend & _)
      end.
      rewrite Hrun. destruct Hend as [-> | ->]; do 2 eexists; reflexivity.
  - intros text.
    assert (Hshown : SectionEditor.shown_items
                       (SectionEditor.onItemsChange id0 text st) id0
                     = TextListEditor.onChange text).
    { unfold SectionEditor.shown_items, SectionEditor.onItemsChange.
      rewrite updateSectionEdit_lookup. reflexivity. }
    unfold SectionEditor.textarea. rewrite Hshown.
    split; [reflexivity|]. split; [|reflexivity].
    eapply Forall_impl; [apply onChange_clean|]. intros ? [? _]. assumption.
Qed.

(** X24.  The [links] editor.  The editor shows one row per link of the
    draft.  The title input of row [k] replaces the title of link [k] and
    keeps its URL, the URL input does the converse, and "Remove" takes
    link [k] out and keeps the others in order; "Add link" appends the
    default link, and removing the row it added restores the list.  None
    of these touches the draft of another section. *)
Theorem links_editor_rows (st : Dashboard.state) (id0 : string) :
  let current := SectionEditor.shown_links st id0 in
  length (SectionEditor.link_rows st id0) = length current
  /\ (forall k row,
        SectionEditor.link_rows st id0 !! k = Some row ->
        exists l,
          current !! k = Some l
          /\ SectionEditor.title_input row = link_title l
          /\ SectionEditor.url_input row = link_url l
          /\ (forall v,
                SectionEditor.shown_links (SectionEditor.onLinkTitle row v) id0
                = <[k := {| link_title := v; link_url := link_url l |}]> current)
          /\ (forall v,
                SectionEditor.shown_links (SectionEditor.onLinkUrl row v) id0
                = <[k := {| link_title := link_title l; link_url := v |}]> current)
          /\ SectionEditor.shown_links (SectionEditor.onLinkRemove row) id0
             = take k current ++ drop (S k) current
          /\ (forall j, j <> id0 ->
                (forall v, Dashboard.sectionEdits (SectionEditor.onLinkTitle row v) !! j
                           = Dashboard.sectionEdits st !! j)
                /\ (forall v, Dashboard.sectionEdits (SectionEditor.onLinkUrl row v) !! j
                              = Dashboard.sectionEdits st !! j)
                /\ Dashboard.sectionEdits (SectionEditor.onLinkRemove row) !! j
                   = Dashboard.sectionEdits st !! j))
  /\ SectionEditor.shown_links (SectionEditor.addLink id0 st) id0
     = current ++ [SectionEditor.new_link]
  /\ (exists row,
        SectionEditor.link_rows (SectionEditor.addLink id0 st) id0 !! length current
        = Some row
        /\ SectionEditor.shown_links (SectionEditor.onLinkRemove row) id0 = current).
Proof.
  cbn zeta. split; [apply length_imap|]. split; [|split].
  - intros k row Hrow. unfold SectionEditor.link_rows in Hrow.
    rewrite list_lookup_imap in Hrow.
    destruct (SectionEditor.shown_links st id0 !! k) as [l|] eqn:Hl; [|discriminate Hrow].
    injection Hrow as <-. exists l. cbn.
    split; [reflexivity|]. split; [reflexivity|]. split; [reflexivity|].
    split; [intros v; apply shown_links_set|].
    split; [intros v; apply shown_links_set|].
    split; [rewrite shown_links_set; apply delete_take_drop|].
    intros j Hj. repeat split; intros; apply updateSectionEdit_other, Hj.
  - apply shown_links_set.
  - unfold SectionEditor.link_rows, SectionEditor.addLink.
    rewrite shown_links_set, list_lookup_imap.
    rewrite lookup_app_r by lia. rewrite Nat.sub_diag. cbn.
    eexists. split; [reflexivity|]. cbn.
    rewrite shown_links_set, delete_take_drop.
    rewrite take_app_length, drop_ge by (rewrite length_app; simpl; lia).
    apply app_nil_r.
Qed.

Lemma links_editor_rows_witness :
  exists row,
    SectionEditor.link_rows editing_state "s2" !! 0 = Some row
    /\ SectionEditor.shown_links (SectionEditor.onLinkTitle row "Home") "s2"
       = [{| link_title := "Home"; link_url := "https://example.com" |}].
Proof.
  edestruct (proj1 (proj2 (links_editor_rows editing_state "s2")) 0)
    as (l & Hl & _ & _ & Htitle & _).
  - vm_compute. reflexivity.
  - eexists. split; [vm_compute; reflexivity|].
    rewrite Htitle. vm_compute in Hl. injection Hl as <-. vm_compute. reflexivity.
Defined.

(** X25.  The [gallery] editor.  One row per image of the draft; the
    caption input shows the empty string for an image without caption;
    typing a caption in row [k] gives image [k] that caption and keeps its
    URL, typing a URL keeps its caption, and "Remove" takes image [k] out.
    "Add image" appends the placeholder image with an empty caption. *)
Theorem gallery_editor_rows (st : Dashboard.state) (id0 : string) :
  let current := SectionEditor.shown_images st id0 in
  length (SectionEditor.image_rows st id0) = length current
  /\ (forall k row,
        SectionEditor.image_rows st id0 !! k = Some row ->
        exists img,
          current !! k = Some img
          /\ SectionEditor.image_url_input row = image_url img
          /\ SectionEditor.caption_input row = default EmptyString (image_caption img)
          /\ (forall v,
                SectionEditor.shown_images (SectionEditor.onImageCaption row v) id0
                = <[k := {| image_url := image_url img; image_caption := Some v |}]> current)
          /\ (forall v,
                SectionEditor.shown_images (SectionEditor.onImageUrl row v) id0
                = <[k := {| image_url := v; image_caption := image_caption img |}]> current)
          /\ SectionEditor.shown_images (SectionEditor.onImageRemove row) id0
             = take k current ++ drop (S k) current)
  /\ SectionEditor.shown_images (SectionEditor.addImage id0 st) id0
     = current ++ [{| image_url := "https://placehold.co/600x400";
                      image_caption := Some EmptyString |}].
Proof.
  cbn zeta. split; [apply length_imap|]. split.
  - intros k row Hrow. unfold SectionEditor.image_rows in Hrow.
    rewrite list_lookup_imap in Hrow.
    destruct (SectionEditor.shown_images st id0 !! k) as [img|] eqn:Himg;
      [|discriminate Hrow].
    injection Hrow as <-. exists img. cbn.
    split; [reflexivity|]. split; [reflexivity|]. split; [reflexivity|].
    split; [intros v; apply shown_images_set|].
    split; [intros v; apply shown_images_set|].
    rewrite shown_images_set. apply delete_take_drop.
  - apply shown_images_set.
Qed.

Lemma gallery_editor_rows_witness :
  exists row,
    SectionEditor.image_rows editing_state "s3" !! 0 = Some row
    /\ SectionEditor.caption_input row = EmptyString.
Proof.
  edestruct (proj1 (proj2 (gallery_editor_rows editing_state "s3")) 0)
    as (img & Himg & _ & Hcaption & _).
  - vm_compute. reflexivity.
  - eexists. split; [vm_compute; reflexivity|].
    rewrite Hcaption. vm_compute in Himg. injection Himg as <-. reflexivity.
Defined.

(** ** Dashboard page, the remaining actions *)

Section ActionFacts.
Import Dashboard DashboardActions.

(** A reload from an action: the effects of [loadProfile], a normal
    ending, and the flags [loadProfile] does not set left as they were. *)
Lemma reload_summary be s :
  exists trace s',
    reload be s = (trace, s', Run.Next tt)
    /\ DashboardActions.effects trace = map page (Reload.expected_effects (base be))
    /\ Reload.flags s' = Reload.flags s
    /\ (getUser (base be) = None -> s' = s).
Proof.
  unfold reload, Run.await.
  destruct (loadProfile_summary (base be) s)
    as (t & s' & r & Hrun & Hend & Heff & Hflags & _ & Hnone).
  rewrite Hrun.
  exists (map (fun es => (page es.1, es.2)) t), s'.
  split; [destruct Hend as [-> | ->]; reflexivity|].
  split; [|split; assumption].
  unfold DashboardActions.effects. rewrite <- Heff. unfold Dashboard.effects.
  rewrite !map_map. reflexivity.
Qed.

End ActionFacts.

(** X26.  [addSection].  With a profile loaded, the row inserted belongs
    to that profile, has the type asked for, the title "New text list",
    "New links" or "New gallery", the default content of the type, and as
    position the number of sections currently shown.  When the store
    reports an error nothing else happens and the state is unchanged;
    otherwise the profile is reloaded.  The default content is already in
    the shape the editors need: loading such a section gives a draft with
    that same content. *)
Theorem addSection_inserts_default_row
    (be : DashboardActions.backend) (type : DashboardActions.kind)
    (st : Dashboard.state) (p : Profile) :
  Dashboard.profile st = Some p ->
  let row := {| DashboardActions.ins_profile_id := id p;
                DashboardActions.ins_title :=
                  match type with
                  | DashboardActions.kind_text_list => "New text list"
                  | DashboardActions.kind_links => "New links"
                  | DashboardActions.kind_gallery => "New gallery"
                  end;
                DashboardActions.ins_type := DashboardActions.tag type;
                DashboardActions.ins_content := DashboardActions.defaultContent type;
                DashboardActions.ins_position := length (Dashboard.sections st) |} in
  (forall error,
      DashboardActions.insert_section be row = Some error ->
      DashboardActions.addSection be type st
      = ([(DashboardActions.sections_insert row, st)], st, Run.Next tt))
  /\ (DashboardActions.insert_section be row = None ->
      DashboardActions.effects (DashboardActions.addSection be type st).1.1
      = DashboardActions.sections_insert row
          :: map DashboardActions.page
               (Reload.expected_effects (DashboardActions.base be)))
  /\ (forall s,
        Types.type s = DashboardActions.tag type ->
        content s = Some (DashboardActions.defaultContent type) ->
        Dashboard.normalizedContent s = DashboardActions.defaultContent type).
Proof.
  intros Hprofile row.
  assert (Hrow : row = {| DashboardActions.ins_profile_id := id p;
                          DashboardActions.ins_title :=
                            "New " +:+ DashboardActions.replace_first "_" " "
                                         (DashboardActions.tag type);
                          DashboardActions.ins_type := DashboardActions.tag type;
                          DashboardActions.ins_content := DashboardActions.defaultContent type;
                          DashboardActions.ins_position := length (Dashboard.sections st) |})
    by (destruct type; reflexivity).
  split; [|split].
  - intros error Herr. rewrite Hrow in Herr.
    cbv [DashboardActions.addSection DashboardActions.perform Run.bind Run.get
           Run.emit Run.ret Run.return_].
    rewrite Hprofile, Herr, Hrow. reflexivity.
  - intros Hok. rewrite Hrow in Hok.
    cbv [DashboardActions.addSection DashboardActions.perform Run.bind Run.get
           Run.emit Run.ret Run.return_].
    rewrite Hprofile, Hok.
    destruct (reload_summary be st) as (t & s' & Hrun & Heff & _).
    rewrite Hrun. unfold DashboardActions.effects in Heff |- *.
    cbn. rewrite Heff, Hrow. reflexivity.
  - intros s Htype Hcontent. unfold Dashboard.normalizedContent.
    rewrite Htype, Hcontent. destruct type; reflexivity.
Qed.

Lemma addSection_inserts_default_row_witness :
  DashboardActions.addSection (actions_backend failing_backend (Some denied) true)
    DashboardActions.kind_text_list sample_state
  = ([(DashboardActions.sections_insert
         {| DashboardActions.ins_profile_id := "p1";
            DashboardActions.ins_title := "New text list";
            DashboardActions.ins_type := "text_list";
            DashboardActions.ins_content :=
              {| items := Some ["First item"; "Second item"]; links := None;
                 images := None |};
            DashboardActions.ins_position := 1 |}, sample_state)],
     sample_state, Run.Next tt).
Proof.
  refine (proj1 (addSection_inserts_default_row
                   (actions_backend failing_backend (Some denied) true)
                   DashboardActions.kind_text_list sample_state sample_profile _)
            denied _); reflexivity.
Defined.

(** X27.  [deleteSection] asks first.  When the confirmation is declined
    the run is the dialog alone: no call to the store and the state as it
    was.  When it is accepted, the row deleted is the one with the id
    given, and only that one; a store error leaves the state as it was,
    and a success is followed by a reload. *)
Theorem deleteSection_asks_first
    (be : DashboardActions.backend) (sectionId : string) (st : Dashboard.state) :
  let ask := DashboardActions.confirm "Delete this section?" in
  (DashboardActions.confirmed be "Delete this section?" = false ->
   DashboardActions.deleteSection be sectionId st = ([(ask, st)], st, Run.Return tt))
  /\ (DashboardActions.confirmed be "Delete this section?" = true ->
      (forall error,
          DashboardActions.delete_section be sectionId = Some error ->
          DashboardActions.deleteSection be sectionId st
          = ([(ask, st); (DashboardActions.sections_delete_eq_id sectionId, st)],
             st, Run.Next tt))
      /\ (DashboardActions.delete_section be sectionId = None ->
          DashboardActions.effects (DashboardActions.deleteSection be sectionId st).1.1
          = ask :: DashboardActions.sections_delete_eq_id sectionId
              :: map DashboardActions.page
                   (Reload.expected_effects (DashboardActions.base be))))
  /\ (forall j,
        DashboardActions.sections_delete_eq_id j
          ∈ DashboardActions.effects (DashboardActions.deleteSection be sectionId st).1.1 ->
        j = sectionId).
Proof.
  cbn zeta.
  assert (Hno : forall j l,
             DashboardActions.sections_delete_eq_id j ∈ map DashboardActions.page l ->
             False).
  { intros j l Hin. apply list_elem_of_fmap in Hin as (e & Heq & _). discriminate Heq. }
  cbv [DashboardActions.deleteSection DashboardActions.perform Run.bind Run.get
         Run.emit Run.ret Run.return_].
  destruct (DashboardActions.confirmed be "Delete this section?"); cbn.
  - split; [intros Hd; discriminate Hd|].
    destruct (DashboardActions.delete_section be sectionId) as [error|].
    + split.
      * intros _. split; [intros e _; reflexivity|intros Hd; discriminate Hd].
      * intros j Hin. cbn in Hin.
        apply elem_of_cons in Hin as [Hin|Hin]; [discriminate Hin|].
        apply list_elem_of_singleton in Hin. congruence.
    + destruct (reload_summary be st) as (t & s' & Hrun & Heff & _).
      rewrite Hrun. unfold DashboardActions.effects in Heff |- *. cbn. rewrite Heff.
      split.
      * intros _. split; [intros e Hd; discriminate Hd|intros _; reflexivity].
      * intros j Hin.
        apply elem_of_cons in Hin as [Hin|Hin]; [discriminate Hin|].
        apply elem_of_cons in Hin as [Hin|Hin]; [congruence|].
        exfalso. exact (Hno _ _ Hin).
  - split; [intros _; reflexivity|].
    split; [intros Hd; discriminate Hd|].
    intros j Hin. apply list_elem_of_singleton in Hin. discriminate Hin.
Qed.

Lemma deleteSection_asks_first_witness :
  DashboardActions.deleteSection (actions_backend failing_backend None false) "s1"
    sample_state
  = ([(DashboardActions.confirm "Delete this section?", sample_state)],
     sample_state, Run.Return tt).
Proof.
  apply (proj1 (deleteSection_asks_first
                  (actions_backend failing_backend None false) "s1" sample_state)).
  reflexivity.
Defined.

(** X28.  [updateProfile].  Without a loaded profile it does nothing.  With
    one, it writes the display name, bio, avatar URL and banner URL of the
    form, with the current timestamp, on the row of that profile.  A store
    error is silent: nothing else happens, the state is unchanged and the
    form stays open.  On success the form is closed and the profile is
    reloaded. *)
Theorem updateProfile_contract
    (be : DashboardActions.backend) (st : Dashboard.state) :
  (Dashboard.profile st = None ->
   DashboardActions.updateProfile be st = ([], st, Run.Return tt))
  /\ (forall p,
        Dashboard.profile st = Some p ->
        let patch := {| DashboardActions.upd_display_name := Dashboard.displayName st;
                        DashboardActions.upd_bio := Dashboard.bio_text st;
                        DashboardActions.upd_avatar_url := Dashboard.avatarUrl st;
                        DashboardActions.upd_banner_url := Dashboard.bannerUrl st;
                        DashboardActions.upd_updated_at :=
                          Dashboard.now_ISO (DashboardActions.base be) |} in
        let write := DashboardActions.profiles_update_fields_eq_id patch (id p) in
        (forall error,
            DashboardActions.update_fields be patch (id p) = Some error ->
            DashboardActions.updateProfile be st = ([(write, st)], st, Run.Next tt))
        /\ (DashboardActions.update_fields be patch (id p) = None ->
            DashboardActions.effects (DashboardActions.updateProfile be st).1.1
            = write :: map DashboardActions.page
                         (Reload.expected_effects (DashboardActions.base be))
            /\ Dashboard.editingProfile (DashboardActions.updateProfile be st).1.2
               = false)).
Proof.
  split.
  - intros Hnone.
    cbv [DashboardActions.updateProfile Run.bind Run.get Run.return_].
    rewrite Hnone. reflexivity.
  - intros p Hprofile. cbn zeta.
    cbv [DashboardActions.updateProfile DashboardActions.perform Run.bind Run.get
           Run.emit Run.ret Run.return_ Run.modify].
    rewrite Hprofile.
    destruct (DashboardActions.update_fields be _ (id p)) as [error|].
    + split; [intros e _; reflexivity|intros Hd; discriminate Hd].
    + split; [intros e Hd; discriminate Hd|intros _].
      destruct (reload_summary be (DashboardActions.setEditingProfile false st))
        as (t & s' & Hrun & Heff & Hflags & _).
      rewrite Hrun. unfold DashboardActions.effects in Heff |- *. cbn. rewrite Heff.
      split; [reflexivity|].
      unfold Reload.flags in Hflags. cbn in Hflags. congruence.
Qed.

Lemma updateProfile_contract_witness :
  DashboardActions.updateProfile (actions_backend failing_backend (Some denied) true)
    sample_state
  = ([(DashboardActions.profiles_update_fields_eq_id
         {| DashboardActions.upd_display_name := "Alice";
            DashboardActions.upd_bio := "";
            DashboardActions.upd_avatar_url := "https://cdn.example/avatars/old.png";
            DashboardActions.upd_banner_url := "";
            DashboardActions.upd_updated_at := "2024-05-01T10:00:00.000Z" |} "p1",
       sample_state)],
     sample_state, Run.Next tt).
Proof.
  refine (proj1 (proj2 (updateProfile_contract
                          (actions_backend failing_backend (Some denied) true)
                          sample_state) sample_profile _) denied _); reflexivity.
Defined.

(** X29.  [uploadBanner] fails like [uploadAvatar].  With a profile loaded,
    when the upload to [banners/<profile id>-banner.<extension>] rejects
    or answers with an error, the effects are that upload and one alert
    "Failed to upload banner: " with the error's message; no profile row
    is written and the state at the end is the state at the start with the
    banner uploading flag off, so the banner URL is the previous one. *)
Theorem uploadBanner_failure_keeps_banner
    (be : DashboardActions.backend) (file : Dashboard.File) (st : Dashboard.state)
    (p : Profile) (err : Js.error) :
  Dashboard.profile st = Some p ->
  let path := "banners/" +:+ (id p +:+ "-banner." +:+ Dashboard.extension file) in
  Dashboard.upload (DashboardActions.base be) "Profiles" path file
  = Dashboard.upload_rejected err
  \/ Dashboard.upload (DashboardActions.base be) "Profiles" path file
     = Dashboard.upload_resolved (Some err) ->
  exists trace,
    DashboardActions.uploadBanner be file st
    = (trace, DashboardActions.setUploadingBanner false st, Run.Next tt)
    /\ DashboardActions.effects trace
       = [DashboardActions.page (Dashboard.storage_upload "Profiles" path file true);
          DashboardActions.page
            (Dashboard.alert ("Failed to upload banner: " +:+ Dashboard.errorMsg err))]
    /\ Dashboard.bannerUrl (DashboardActions.setUploadingBanner false st)
       = Dashboard.bannerUrl st.
Proof.
  intros Hprofile path Hfail. subst path.
  cbv [DashboardActions.uploadBanner DashboardActions.perform Run.bind Run.get
         Run.modify Run.emit Run.ret Run.return_ Run.throw Run.try_catch
         Run.try_finally].
  rewrite Hprofile.
  destruct Hfail as [-> | ->]; eexists; (split; [reflexivity|split; reflexivity]).
Qed.

Lemma uploadBanner_failure_keeps_banner_witness :
  exists trace,
    DashboardActions.uploadBanner (actions_backend failing_backend None true)
      {| Dashboard.name := "sky.jpg"; Dashboard.size := 4096;
         Dashboard.mime := "image/jpeg" |} sample_state
    = (trace, DashboardActions.setUploadingBanner false sample_state, Run.Next tt)
    /\ DashboardActions.effects trace
       = [DashboardActions.page
            (Dashboard.storage_upload "Profiles" "banners/p1-banner.jpg"
               {| Dashboard.name := "sky.jpg"; Dashboard.size := 4096;
                  Dashboard.mime := "image/jpeg" |} true);
          DashboardActions.page
            (Dashboard.alert "Failed to upload banner: Bucket not found")].
Proof.
  destruct (uploadBanner_failure_keeps_banner
              (actions_backend failing_backend None true)
              {| Dashboard.name := "sky.jpg"; Dashboard.size := 4096;
                 Dashboard.mime := "image/jpeg" |}
              sample_state sample_profile storage_down)
    as (trace & Hrun & Heff & _).
  - reflexivity.
  - right. reflexivity.
  - exists trace. split; [exact Hrun|exact Heff].
Defined.

(** ** Profile route, [GET] and [PATCH] *)



Lemma handleSignup_loading_iff_redirect_witness :
  Signup.st_loading
    (SignupOutcome.final_state
       (signup_backend None (RpcResolved (Js.JStr "p1") None)
          (Signup.fetch_response true Signup.json_null) true) signup_form)
  = true.
Proof.
  apply (proj2 (proj1 (handleSignup_loading_iff_redirect
                         (signup_backend None (RpcResolved (Js.JStr "p1") None)
                            (Signup.fetch_response true Signup.json_null) true)
                         signup_form))).
  vm_compute. do 3 apply list_elem_of_further. apply list_elem_of_here.
Defined.
